(** * Vaccine supply-chain contracts: asset records, state lists, contracts, queries

    A shallow embedding of the JavaScript chaincode of the repository
    (RawMaterial, VaccineBatch, Vaccine and Shipment assets, their contracts
    and the query helper), with the properties of the specification stated
    on it.

    JavaScript objects are finite maps from property names to values, method
    calls go through the method table of the receiver's class (a missing
    method is a [TypeError]), contracts run in a state-and-error monad over
    the ledger world state. *)

From Stdlib Require Import ZArith Ascii.
From stdpp Require Import gmap strings list fin_maps pretty.

Local Open Scope Z_scope.
Local Open Scope string_scope.

(** ** JavaScript values *)

(** The values that occur in the asset records: [undefined], [null],
    booleans, (integer) numbers, strings, [Set] objects (as the list of
    their members, values of any type, in insertion order) and the plain
    object without properties, which is what a [Set] becomes in JSON. *)
#[warnings="-register-all"]
Inductive value : Type :=
| VUndefined
| VNull
| VBool (b : bool)
| VNum (n : Z)
| VStr (s : string)
| VSet (members : list value)
| VEmptyObject.

(** The own properties of an object. *)
Abbreviation props := (gmap string value).

(** Reading property [k]: an absent property reads as [undefined]. *)
Definition get (o : props) (k : string) : value := default VUndefined (o !! k).

(** [Object.assign(this, obj)]: every own property of [obj] is copied on
    [this], overriding the properties [this] has already. *)
Definition Object_assign (this obj : props) : props := obj ∪ this.

(** [x != null] (loose): false exactly for [null] and [undefined]. *)
Definition not_nullish (v : value) : bool :=
  match v with VUndefined | VNull => false | _ => true end.

(** [x === y] on primitives; two object references are never identical
    here, since every object value below is freshly built. *)
Definition strict_eq (x y : value) : bool :=
  match x, y with
  | VUndefined, VUndefined | VNull, VNull => true
  | VBool a, VBool b => bool_decide (a = b)
  | VNum a, VNum b => bool_decide (a = b)
  | VStr a, VStr b => bool_decide (a = b)
  | _, _ => false
  end.

(** String conversion, as string concatenation and template literals do it. *)
Definition toStr (v : value) : string :=
  match v with
  | VUndefined => "undefined"
  | VNull => "null"
  | VBool true => "true"
  | VBool false => "false"
  | VNum n => pretty n
  | VStr s => s
  | VSet _ => "[object Set]"
  | VEmptyObject => "[object Object]"
  end.

(** ** Errors and the contract monad *)

Inductive error : Type :=
| TypeError (msg : string)
| ReferenceError (msg : string)
| Error (msg : string).

Inductive result (A : Type) : Type :=
| Ok (a : A)
| Throw (e : error).
Arguments Ok {A} a.
Arguments Throw {A} e.

(** The world state maps a ledger key (the namespace of the list and the key
    of the record) to the stored document. *)
Abbreviation ledger := (gmap (string * string) (gmap string value)).

(** A transaction step: reads and writes the world state, may throw. *)
Definition M (A : Type) : Type := ledger → result A * ledger.

Definition ret {A} (a : A) : M A := fun σ => (Ok a, σ).
Definition throw {A} (e : error) : M A := fun σ => (Throw e, σ).
Definition bind {A B} (m : M A) (k : A → M B) : M B :=
  fun σ => match m σ with
           | (Ok a, σ') => k a σ'
           | (Throw e, σ') => (Throw e, σ')
           end.

#[global] Instance M_ret : MRet M := @ret.
#[global] Instance M_bind : MBind M := fun A B k m => bind m k.

(** ** JSON *)

(** [JSON.stringify] of a value: [undefined] is left out, a [Set] has no
    enumerable own property and is written as the empty object, the rest is
    written as it is. *)
Definition to_json (v : value) : option value :=
  match v with
  | VUndefined => None
  | VSet _ => Some VEmptyObject
  | _ => Some v
  end.

(** [JSON.stringify(this)] on an object: the document of its own
    properties.  A stored buffer is represented by the JSON document it
    holds ([JSON.parse] of the text of [JSON.stringify] is that document). *)
Definition JSON_stringify (o : props) : props := omap to_json o.

(** ** Classes, objects and method calls *)

(** The asset classes of the sources.  Two files define a class named
    [VaccineBatch] (one keeps a [Set] of raw-material batches and starts
    with the manufacturer as purchaser, the other does neither) and two
    define a class named [Shipment] (under [distributor/contract/lib] and
    under [manufacturer/contract/lib]). *)
Inductive jsclass : Type :=
| CRawMaterial
| CVaccineBatch
| CVaccineBatchAlt
| CVaccine
| CShipmentDistributor
| CShipmentManufacturer.

#[global] Instance jsclass_eq_dec : EqDecision jsclass.
Proof. solve_decision. Defined.

(** An object: its class and its own properties. *)
Record object : Type := Obj { proto : jsclass; own : props }.

(** A method receives the arguments and [this], returns a value and the
    updated [this], or throws. *)
Definition method : Type := list value → props → result (value * props).

Definition arg (i : nat) (args : list value) : value :=
  default VUndefined (args !! i).

(** [getX() { return this.k; }] *)
Definition getter (k : string) : method :=
  fun _ this => Ok (get this k, this).

(** [setX(v) { this.k = v; }] *)
Definition setter (k : string) : method :=
  fun args this => Ok (VUndefined, <[k := arg 0 args]> this).

(** [setS() { this.k = c; }] *)
Definition assigner (k : string) (c : value) : method :=
  fun _ this => Ok (VUndefined, <[k := c]> this).

(** [isS() { return this.k === c; }] *)
Definition tester (k : string) (c : value) : method :=
  fun _ this => Ok (VBool (strict_eq (get this k) c), this).

(** [isS() { return this.k != null; }] *)
Definition is_set (k : string) : method :=
  fun _ this => Ok (VBool (not_nullish (get this k)), this).

(** Looking a name up in a method table. *)
Fixpoint lookup_method (name : string) (table : list (string * method))
  : option method :=
  match table with
  | [] => None
  | (n, m) :: rest => if String.eqb n name then Some m else lookup_method name rest
  end.

(** ** The ledger API: keyed state records *)

Module State.

(** Modelled from the spec: [ledger-api/state.js] (class [State]) is not
    among the sources.  Section 3: the key parts are an "ordered sequence
    of strings concatenated ... into a composite key", and [makeKey]
    "deterministically joins ... key parts in a fixed, documented order".
    The parts are joined in the order given, separated by a colon. *)
Definition makeKey (keyParts : list value) : string :=
  String.concat ":" (toStr <$> keyParts).

(** Modelled from the spec: the constructor of the missing class [State],
    called as [super(cls, keyParts)] by every asset class.  Section 3: a
    keyed state record has a type tag "identifying the asset class" and a
    composite key made of the key parts. *)
Definition constructor (stateClass : string) (keyParts : list value) : props :=
  <["key" := VStr (makeKey keyParts)]> (<["class" := VStr stateClass]> ∅).

(** Modelled from the spec: [State.serialize], missing with [State].
    Section 4.1 names it the counterpart of [deserialize]; it is the
    [Buffer.from(JSON.stringify(object))] that [toBuffer] of every asset
    class in the sources spells out. *)
Definition serialize (o : object) : props := JSON_stringify (own o).

(** Modelled from the spec: [State.deserializeClass(data, objClass)],
    missing with [State].  Section 4.1: deserialization "round-trip[s] all
    attributes including nulls" and "must reconstruct the exact asset
    subtype": the result is an object of class [objClass] whose
    properties are the attributes of the document. *)
Definition deserializeClass (data : props) (objClass : jsclass) : object :=
  Obj objClass data.

(** Modelled from the spec: [State.deserialize(data, supportedClasses)],
    missing with [State].  Section 4.1: the subtype is chosen "from the
    type tag (polymorphic decode)" and an "unknown type tag signals an
    UnknownTypeError"; section 9 calls the table a registry "mapping type
    tag -> decode function". *)
Definition deserialize (data : props) (supportedClasses : list (string * jsclass))
  : result object :=
  match List.find (fun c => String.eqb (toStr (get data "class")) c.1) supportedClasses with
  | Some (_, objClass) => Ok (deserializeClass data objClass)
  | None => Throw (Error ("Unknown class of " +:+ toStr (get data "class")))
  end.

End State.

(** ** The asset classes *)

Module RawMaterial.

Definition getClass : string := "org.vaccine.rawmaterial".

(** [constructor(obj)]: key (manufacturer, batchNumber), the properties of
    [obj], then the purchase and mixing fields and the MSP set to [null]. *)
Definition constructor (obj : props) : props :=
  let this := State.constructor getClass [get obj "manufacturer"; get obj "batchNumber"] in
  let this := Object_assign this obj in
  let this := <["purchaser" := VNull]> this in
  let this := <["purchaseDate" := VNull]> this in
  let this := <["price" := VNull]> this in
  let this := <["dateMixedIn" := VNull]> this in
  <["mspid" := VNull]> this.

Definition methods : list (string * method) :=
  [ ("getMaterialName", getter "materialName");
    ("getBatchNumber", getter "batchNumber");
    ("getQuantity", getter "quantity");
    ("getManufacturer", getter "manufacturer");
    ("getManufactureDate", getter "manufactureDate");
    ("getPurchaser", getter "purchaser");
    ("setPurchaser", setter "purchaser");
    ("getPurchaseDate", getter "purchaseDate");
    ("setPurchaseDate", setter "purchaseDate");
    ("getPrice", getter "price");
    ("setPrice", setter "price");
    ("getDateMixedIn", getter "dateMixedIn");
    ("setDateMixedIn", setter "dateMixedIn");
    ("setOwnerMSP", setter "mspid");
    ("getOwnerMSP", getter "mspid");
    ("isSold", is_set "purchaseDate");
    ("isUsed", is_set "dateMixedIn") ].

Definition makeKey := State.makeKey.

(** [createInstance(materialName, batchNumber, quantity, manufacturer,
    manufactureDate)] *)
Definition createInstance (materialName batchNumber quantity manufacturer
    manufactureDate : value) : object :=
  Obj CRawMaterial (constructor
    (<["manufactureDate" := manufactureDate]>
      (<["manufacturer" := manufacturer]>
        (<["quantity" := quantity]>
          (<["batchNumber" := batchNumber]>
            (<["materialName" := materialName]> ∅)))))).

(** [toBuffer() { return Buffer.from(JSON.stringify(this)); }] *)
Definition toBuffer (this : object) : props := JSON_stringify (own this).

Definition deserialize (data : props) : object :=
  State.deserializeClass data CRawMaterial.

Definition fromBuffer (buffer : props) : object := deserialize buffer.

End RawMaterial.

Module VaccineBatch.

Definition getClass : string := "org.vaccine.vaccineBatch".

(** [batchState]: SHIPPED 1, ARRIVED 2, ISSUED 3, WAREHOUSED 4. *)
Definition SHIPPED : value := VNum 1.
Definition ARRIVED : value := VNum 2.
Definition ISSUED : value := VNum 3.
Definition WAREHOUSED : value := VNum 4.

(** [constructor(obj)]: key (batchNumber, manufacturer), the properties of
    [obj], the purchaser set to the manufacturer, the unknowns to [null],
    [ready] to [false] and the raw-material set to a new empty [Set]. *)
Definition constructor (obj : props) : props :=
  let this := State.constructor getClass [get obj "batchNumber"; get obj "manufacturer"] in
  let this := Object_assign this obj in
  let this := <["purchaser" := get obj "manufacturer"]> this in
  let this := <["purchaseDate" := VNull]> this in
  let this := <["currentState" := VNull]> this in
  let this := <["approver" := VNull]> this in
  let this := <["shippingProvider" := VNull]> this in
  let this := <["shipmentUUID" := VNull]> this in
  let this := <["temperature" := VNull]> this in
  let this := <["timestamp" := VNull]> this in
  let this := <["entityAllocated" := VNull]> this in
  let this := <["ready" := VBool false]> this in
  <["rawMaterialBatchSet" := VSet []]> this.

(** [setTemperature(t, ts) { this.temperature = t; this.timestamp = ts; }] *)
Definition setTemperature : method :=
  fun args this =>
    Ok (VUndefined, <["timestamp" := arg 1 args]> (<["temperature" := arg 0 args]> this)).

(** [addRawMaterial(material) { this.rawMaterialBatchSet.add(material); }]
    [add] compares the new member with the members by SameValueZero, which
    on the values here is [===] (the numbers are integers, so there is no
    NaN and no negative zero; a number and the string of its digits are
    two members), and leaves the set as it is when it finds the member.
    A property that is no [Set] has no [add]. *)
Definition addRawMaterial : method :=
  fun args this =>
    match get this "rawMaterialBatchSet" with
    | VSet members =>
        let material := arg 0 args in
        let members' :=
          if existsb (strict_eq material) members then members else (members ++ [material])%list in
        Ok (VUndefined, <["rawMaterialBatchSet" := VSet members']> this)
    | VUndefined | VNull =>
        Throw (TypeError "Cannot read properties of undefined (reading 'add')")
    | _ => Throw (TypeError "this.rawMaterialBatchSet.add is not a function")
    end.

(** [setReady() { this.ready = True; }]: [True] is not declared. *)
Definition setReady : method :=
  fun _ _ => Throw (ReferenceError "True is not defined").

Definition methods : list (string * method) :=
  [ ("getName", getter "vaccineName");
    ("getBatchNumber", getter "batchNumber");
    ("getQuantity", getter "quantity");
    ("getManufacturer", getter "manufacturer");
    ("getManufactureDate", getter "manufactureDate");
    ("setPurchaser", setter "purchaser");
    ("getPurchaser", getter "purchaser");
    ("setPurchaseDate", setter "purchaseDate");
    ("getPurchaseDate", getter "purchaseDate");
    ("setPrice", setter "price");
    ("getPrice", getter "price");
    ("setShipped", assigner "currentState" SHIPPED);
    ("setArrived", assigner "currentState" ARRIVED);
    ("setIssued", assigner "currentState" ISSUED);
    ("setWarehoused", assigner "currentState" WAREHOUSED);
    ("isShipped", tester "currentState" SHIPPED);
    ("isArrived", tester "currentState" ARRIVED);
    ("isIssued", tester "currentState" ISSUED);
    ("isWarehoused", tester "currentState" WAREHOUSED);
    ("setApprover", setter "approver");
    ("getApprover", getter "approver");
    ("setShippingProvider", setter "shippingProvider");
    ("getShippingProvider", getter "shippingProvider");
    ("setShipmentUUID", setter "shipmentUUID");
    ("getShipmentUUID", getter "shipmentUUID");
    ("setTemperature", setTemperature);
    ("setEntityAllocatedTo", setter "entityAllocated");
    ("getEntityAllocated", getter "entityAllocated");
    ("addRawMaterial", addRawMaterial);
    ("setReady", setReady);
    ("setOwnerMSP", setter "mspid");
    ("getOwnerMSP", getter "mspid") ].

Definition makeKey := State.makeKey.

(** [createInstance(vaccineName, batchNumber, quantity, manufacturer,
    manufactureDate)] *)
Definition createInstance (vaccineName batchNumber quantity manufacturer
    manufactureDate : value) : object :=
  Obj CVaccineBatch (constructor
    (<["manufactureDate" := manufactureDate]>
      (<["manufacturer" := manufacturer]>
        (<["quantity" := quantity]>
          (<["batchNumber" := batchNumber]>
            (<["vaccineName" := vaccineName]> ∅)))))).

Definition toBuffer (this : object) : props := JSON_stringify (own this).

Definition deserialize (data : props) : object :=
  State.deserializeClass data CVaccineBatch.

Definition fromBuffer (buffer : props) : object := deserialize buffer.

End VaccineBatch.

(** The other file that defines [VaccineBatch]: no [Set], no [ready], the
    purchaser starts as [null], and [createInstance] takes the raw-material
    set as a sixth argument. *)
Module VaccineBatchAlt.

Definition getClass : string := "org.vaccine.vaccineBatch".

(** [vaccineState]: SHIPPED 1, ARRIVED 2, ISSUED 3, WAREHOUSED 4. *)
Definition SHIPPED : value := VNum 1.
Definition ARRIVED : value := VNum 2.
Definition ISSUED : value := VNum 3.
Definition WAREHOUSED : value := VNum 4.

Definition constructor (obj : props) : props :=
  let this := State.constructor getClass [get obj "batchNumber"; get obj "manufacturer"] in
  let this := Object_assign this obj in
  let this := <["purchaser" := VNull]> this in
  let this := <["purchaseDate" := VNull]> this in
  let this := <["currentState" := VNull]> this in
  let this := <["approver" := VNull]> this in
  let this := <["shippingProvider" := VNull]> this in
  let this := <["shipmentUUID" := VNull]> this in
  let this := <["temperature" := VNull]> this in
  let this := <["timestamp" := VNull]> this in
  <["entityAllocated" := VNull]> this.

Definition methods : list (string * method) :=
  [ ("getName", getter "vaccineName");
    ("getBatchNumber", getter "batchNumber");
    ("getQuantity", getter "quantity");
    ("getManufacturer", getter "manufacturer");
    ("getManufactureDate", getter "manufactureDate");
    ("setPurchaser", setter "purchaser");
    ("getPurchaser", getter "purchaser");
    ("setPurchaseDate", setter "purchaseDate");
    ("getPurchaseDate", getter "purchaseDate");
    ("setPrice", setter "price");
    ("getPrice", getter "price");
    ("setShipped", assigner "currentState" SHIPPED);
    ("setArrived", assigner "currentState" ARRIVED);
    ("setIssued", assigner "currentState" ISSUED);
    ("setWarehoused", assigner "currentState" WAREHOUSED);
    ("isShipped", tester "currentState" SHIPPED);
    ("isArrived", tester "currentState" ARRIVED);
    ("isIssued", tester "currentState" ISSUED);
    ("isWarehoused", tester "currentState" WAREHOUSED);
    ("setApprover", setter "approver");
    ("getApprover", getter "approver");
    ("setShippingProvider", setter "shippingProvider");
    ("getShippingProvider", getter "shippingProvider");
    ("setShipmentUUID", setter "shipmentUUID");
    ("getShipmentUUID", getter "shipmentUUID");
    ("setTemperature", VaccineBatch.setTemperature);
    ("setEntityAllocatedTo", setter "entityAllocated");
    ("getEntityAllocated", getter "entityAllocated");
    ("setOwnerMSP", setter "mspid");
    ("getOwnerMSP", getter "mspid") ].

Definition makeKey := State.makeKey.

(** [createInstance(vaccineName, batchNumber, quantity, manufacturer,
    manufactureDate, rawMaterialBatchSet)] *)
Definition createInstance (vaccineName batchNumber quantity manufacturer
    manufactureDate rawMaterialBatchSet : value) : object :=
  Obj CVaccineBatchAlt (constructor
    (<["rawMaterialBatchSet" := rawMaterialBatchSet]>
      (<["manufactureDate" := manufactureDate]>
        (<["manufacturer" := manufacturer]>
          (<["quantity" := quantity]>
            (<["batchNumber" := batchNumber]>
              (<["vaccineName" := vaccineName]> ∅))))))).

Definition toBuffer (this : object) : props := JSON_stringify (own this).

Definition deserialize (data : props) : object :=
  State.deserializeClass data CVaccineBatchAlt.

Definition fromBuffer (buffer : props) : object := deserialize buffer.

End VaccineBatchAlt.

Module Vaccine.

Definition getClass : string := "org.vaccine.vaccine".

(** [vaccineState]: READY 1, ISSUED 2, EXPIRED 3. *)
Definition READY : value := VNum 1.
Definition ISSUED : value := VNum 2.
Definition EXPIRED : value := VNum 3.

(** [constructor(obj)]: key (vaccineUUID), the properties of [obj], then
    [issueDateTime], [currentState], [issuer], [recipient] set to [null]. *)
Definition constructor (obj : props) : props :=
  let this := State.constructor getClass [get obj "vaccineUUID"] in
  let this := Object_assign this obj in
  let this := <["issueDateTime" := VNull]> this in
  let this := <["currentState" := VNull]> this in
  let this := <["issuer" := VNull]> this in
  <["recipient" := VNull]> this.

(** The methods the class defines; there is no method for
    [issueDateTime]. *)
Definition methods : list (string * method) :=
  [ ("getVaccineUUID", getter "vaccineUUID");
    ("setVaccineUUID", setter "vaccineUUID");
    ("getBatchNum", getter "batchNum");
    ("setBatchNum", setter "batchNum");
    ("getExpirationDateTime", getter "expirationDateTime");
    ("setExpirationDateTime", setter "expirationDateTime");
    ("getManufacturer", getter "manufacturer");
    ("setManufacturer", setter "manufacturer");
    ("getIssuer", getter "issuer");
    ("setIssuer", setter "issuer");
    ("getRecipient", getter "recipient");
    ("setRecipient", setter "recipient");
    ("setOwnerMSP", setter "mspid");
    ("getOwnerMSP", getter "mspid");
    ("setReady", assigner "currentState" READY);
    ("setIssued", assigner "currentState" ISSUED);
    ("setExpired", assigner "currentState" EXPIRED);
    ("isReady", tester "currentState" READY);
    ("isIssued", tester "currentState" ISSUED);
    ("isExpired", tester "currentState" EXPIRED) ].

Definition makeKey := State.makeKey.

(** [createInstance(vaccineUUID, batchNum, expirationDateTime, manufacturer)] *)
Definition createInstance (vaccineUUID batchNum expirationDateTime manufacturer : value)
  : object :=
  Obj CVaccine (constructor
    (<["manufacturer" := manufacturer]>
      (<["expirationDateTime" := expirationDateTime]>
        (<["batchNum" := batchNum]>
          (<["vaccineUUID" := vaccineUUID]> ∅))))).

Definition toBuffer (this : object) : props := JSON_stringify (own this).

Definition deserialize (data : props) : object :=
  State.deserializeClass data CVaccine.

Definition fromBuffer (buffer : props) : object := deserialize buffer.

End Vaccine.

(** The [Shipment] class of [distributor/contract/lib/shipment.js]. *)
Module ShipmentDistributor.

Definition getClass : string := "org.vaccine.shipment".

(** [shipmentState]: LEFTSOURCE 1, ARRIVEDDEST 2. *)
Definition LEFTSOURCE : value := VNum 1.
Definition ARRIVEDDEST : value := VNum 2.

Definition constructor (obj : props) : props :=
  let this := State.constructor getClass [get obj "shipmentUUID"] in
  let this := Object_assign this obj in
  let this := <["vehicleUUID" := VNull]> this in
  let this := <["vehicleOperator" := VNull]> this in
  let this := <["currentLocation" := VNull]> this in
  let this := <["currentTemp" := VNull]> this in
  let this := <["tempTimestamp" := VNull]> this in
  let this := <["shipDate" := VNull]> this in
  <["arrivalDate" := VNull]> this.

Definition methods : list (string * method) :=
  [ ("getShipmentUUID", getter "shipmentUUID");
    ("getShipmentProvider", getter "shipmentProvider");
    ("getSource", getter "source");
    ("getDestination", getter "destination");
    ("setVehicleUUID", setter "vehicleUUID");
    ("getVehicleUUID", getter "vehicleUUID");
    ("setVehicleOperator", setter "vehicleOperator");
    ("getVehicleOperator", getter "vehicleOperator");
    ("setCurrentLocation", setter "currentLocation");
    ("getCurrentLocation", getter "currentLocation");
    ("setCurrentTemp", setter "currentTemp");
    ("getCurrentTemp", getter "currentTemp");
    ("setTempTimestamp", setter "tempTimestamp");
    ("getTempTimestamp", getter "tempTimestamp");
    ("setShipDate", setter "shipDate");
    ("getShipDate", getter "shipDate");
    ("setArrivalDate", setter "arrivalDate");
    ("getArrivalDate", getter "arrivalDate");
    ("setOwnerMSP", setter "mspid");
    ("getOwnerMSP", getter "mspid");
    ("setLeftSource", assigner "currentState" LEFTSOURCE);
    ("setArrivedDest", assigner "currentState" ARRIVEDDEST);
    ("isShipped", tester "currentState" LEFTSOURCE);
    ("isArrived", tester "currentState" ARRIVEDDEST) ].

Definition makeKey := State.makeKey.

(** [createInstance(shipmentUUID, shipmentProvider, source, destination)] *)
Definition createInstance (shipmentUUID shipmentProvider source destination : value)
  : object :=
  Obj CShipmentDistributor (constructor
    (<["destination" := destination]>
      (<["source" := source]>
        (<["shipmentProvider" := shipmentProvider]>
          (<["shipmentUUID" := shipmentUUID]> ∅))))).

Definition toBuffer (this : object) : props := JSON_stringify (own this).

Definition deserialize (data : props) : object :=
  State.deserializeClass data CShipmentDistributor.

Definition fromBuffer (buffer : props) : object := deserialize buffer.

End ShipmentDistributor.

(** The [Shipment] class of [manufacturer/contract/lib/shipment.js]. *)
Module ShipmentManufacturer.

Definition getClass : string := "org.vaccine.shipment".

Definition LEFTSOURCE : value := VNum 1.
Definition ARRIVEDDEST : value := VNum 2.

Definition constructor (obj : props) : props :=
  let this := State.constructor getClass [get obj "shipmentUUID"] in
  let this := Object_assign this obj in
  let this := <["vehicleUUID" := VNull]> this in
  let this := <["vehicleOperator" := VNull]> this in
  let this := <["currentLocation" := VNull]> this in
  let this := <["currentTemp" := VNull]> this in
  let this := <["timestamp" := VNull]> this in
  let this := <["shipDateTime" := VNull]> this in
  let this := <["arrivalDateTime" := VNull]> this in
  <["mspid" := VNull]> this.

Definition methods : list (string * method) :=
  [ ("getShipmentUUID", getter "shipmentUUID");
    ("getShipmentProvider", getter "shipmentProvider");
    ("getSource", getter "source");
    ("getDestination", getter "destination");
    ("setVehicleUUID", setter "vehicleUUID");
    ("getVehicleUUID", getter "vehicleUUID");
    ("setVehicleOperator", setter "vehicleOperator");
    ("getVehicleOperator", getter "vehicleOperator");
    ("setCurrentLocation", setter "currentLocation");
    ("getCurrentLocation", getter "currentLocation");
    ("setCurrentTemp", setter "currentTemp");
    ("getCurrentTemp", getter "currentTemp");
    ("setTimestamp", setter "timestamp");
    ("getTimestamp", getter "timestamp");
    ("setShipDateTime", setter "shipDateTime");
    ("getShipDateTime", getter "shipDateTime");
    ("setArrivalDateTime", setter "arrivalDateTime");
    ("getArrivalDateTime", getter "arrivalDateTime");
    ("setOwnerMSP", setter "mspid");
    ("getOwnerMSP", getter "mspid");
    ("setLeftSource", assigner "currentState" LEFTSOURCE);
    ("setArrivedDest", assigner "currentState" ARRIVEDDEST);
    ("isShipped", tester "currentState" LEFTSOURCE);
    ("isArrived", tester "currentState" ARRIVEDDEST) ].

Definition makeKey := State.makeKey.

Definition createInstance (shipmentUUID shipmentProvider source destination : value)
  : object :=
  Obj CShipmentManufacturer (constructor
    (<["destination" := destination]>
      (<["source" := source]>
        (<["shipmentProvider" := shipmentProvider]>
          (<["shipmentUUID" := shipmentUUID]> ∅))))).

Definition toBuffer (this : object) : props := JSON_stringify (own this).

Definition deserialize (data : props) : object :=
  State.deserializeClass data CShipmentManufacturer.

Definition fromBuffer (buffer : props) : object := deserialize buffer.

End ShipmentManufacturer.

(** ** Method dispatch *)

Definition methods_of (c : jsclass) : list (string * method) :=
  match c with
  | CRawMaterial => RawMaterial.methods
  | CVaccineBatch => VaccineBatch.methods
  | CVaccineBatchAlt => VaccineBatchAlt.methods
  | CVaccine => Vaccine.methods
  | CShipmentDistributor => ShipmentDistributor.methods
  | CShipmentManufacturer => ShipmentManufacturer.methods
  end.

Definition getClass_of (c : jsclass) : string :=
  match c with
  | CRawMaterial => RawMaterial.getClass
  | CVaccineBatch => VaccineBatch.getClass
  | CVaccineBatchAlt => VaccineBatchAlt.getClass
  | CVaccine => Vaccine.getClass
  | CShipmentDistributor => ShipmentDistributor.getClass
  | CShipmentManufacturer => ShipmentManufacturer.getClass
  end.

(** [o.name(args)]: the method of the class of [o], a [TypeError] when the
    class has none of that name. *)
Definition call (o : object) (name : string) (args : list value) : M (value * object) :=
  match lookup_method name (methods_of (proto o)) with
  | Some m =>
      match m args (own o) with
      | Ok (v, this) => mret (v, Obj (proto o) this)
      | Throw e => throw e
      end
  | None => throw (TypeError (name +:+ " is not a function"))
  end.

(** The first use of a reference that may be [null]: calling a method on
    [null] is a [TypeError]. *)
Definition deref (r : option object) : M object :=
  match r with
  | Some o => mret o
  | None => throw (TypeError "Cannot read properties of null")
  end.

(** What a contract file gets from [require] of an asset class file: the
    class and its [createInstance], called with the arguments in order
    (a parameter without an argument is [undefined]). *)
Record AssetModule : Type := {
  asset_class : jsclass;
  asset_createInstance : list value → object
}.

Definition VaccineBatch_js : AssetModule :=
  {| asset_class := CVaccineBatch;
     asset_createInstance := fun a =>
       VaccineBatch.createInstance (arg 0 a) (arg 1 a) (arg 2 a) (arg 3 a) (arg 4 a) |}.

Definition VaccineBatchAlt_js : AssetModule :=
  {| asset_class := CVaccineBatchAlt;
     asset_createInstance := fun a =>
       VaccineBatchAlt.createInstance (arg 0 a) (arg 1 a) (arg 2 a) (arg 3 a) (arg 4 a) (arg 5 a) |}.

Definition ShipmentDistributor_js : AssetModule :=
  {| asset_class := CShipmentDistributor;
     asset_createInstance := fun a =>
       ShipmentDistributor.createInstance (arg 0 a) (arg 1 a) (arg 2 a) (arg 3 a) |}.

Definition ShipmentManufacturer_js : AssetModule :=
  {| asset_class := CShipmentManufacturer;
     asset_createInstance := fun a =>
       ShipmentManufacturer.createInstance (arg 0 a) (arg 1 a) (arg 2 a) (arg 3 a) |}.

(** ** The ledger API: state lists *)

Module StateList.

Record t : Type := {
  name : string;
  supportedClasses : list (string * jsclass)
}.

Definition new (listName : string) : t :=
  {| name := listName; supportedClasses := [] |}.

(** [use(stateClass)]: registers the class under its type tag. *)
Definition use (l : t) (stateClass : jsclass) : t :=
  {| name := name l;
     supportedClasses := (getClass_of stateClass, stateClass) :: supportedClasses l |}.

(** The key of a state in the world state: namespace and record key. *)
Definition ledgerKey (l : t) (key : string) : string * string := (name l, key).

(** Modelled from the spec: [StateList.addState] of the missing
    [ledger-api/statelist.js].  Section 4.2: a mutating operation "is a
    single logical write to the backing key-value namespace"; of the
    sources it says that "the per-contract 'already exists' checks" are
    done in the contracts, and section 9 that "some creation paths check
    for existing key before insert, others do not": the list itself
    writes without looking. *)
Definition addState (l : t) (state : object) : M () :=
  fun σ => (Ok (), <[ledgerKey l (toStr (get (own state) "key")) := State.serialize state]> σ).

(** Modelled from the spec: [StateList.getState].  Section 4.2: of an
    absent key the sources "operate on an undefined record", so the
    lookup yields no record ([null]) rather than an error; a record that
    is there is decoded by its type tag. *)
Definition getState (l : t) (key : string) : M (option object) :=
  fun σ =>
    match σ !! ledgerKey l key with
    | None => (Ok None, σ)
    | Some data =>
        match State.deserialize data (supportedClasses l) with
        | Ok o => (Ok (Some o), σ)
        | Throw e => (Throw e, σ)
        end
    end.

(** Modelled from the spec: [StateList.updateState].  Section 4.2:
    "overwrites only if the key already exists; fails with NotFoundError
    otherwise". *)
Definition updateState (l : t) (state : object) : M () :=
  fun σ =>
    let k := ledgerKey l (toStr (get (own state) "key")) in
    match σ !! k with
    | Some _ => (Ok (), <[k := State.serialize state]> σ)
    | None => (Throw (Error ("NotFoundError: " +:+ k.2)), σ)
    end.

End StateList.

Module RawMaterialList.
Definition list : StateList.t :=
  StateList.use (StateList.new "org.vaccine.rawmaterial") CRawMaterial.
Definition addRawMaterial (material : object) : M () := StateList.addState list material.
Definition getRawMaterial (materialKey : string) : M (option object) :=
  StateList.getState list materialKey.
Definition updateRawMaterial (material : object) : M () :=
  StateList.updateState list material.
End RawMaterialList.

(** The list of vaccine batches, for the [VaccineBatch] class file that is
    installed as [./vaccinebatch.js]. *)
Module VaccineBatchList.
Definition list (VaccineBatch : AssetModule) : StateList.t :=
  StateList.use (StateList.new "org.vaccine.vaccineBatch") (asset_class VaccineBatch).
Definition addVaccineBatch VB (vaccineBatch : object) : M () :=
  StateList.addState (list VB) vaccineBatch.
Definition getVaccineBatch VB (vaccineBatchKey : string) : M (option object) :=
  StateList.getState (list VB) vaccineBatchKey.
Definition updateVaccineBatch VB (vaccineBatch : object) : M () :=
  StateList.updateState (list VB) vaccineBatch.
End VaccineBatchList.

Module VaccineList.
Definition list : StateList.t :=
  StateList.use (StateList.new "org.vaccine.vaccine") CVaccine.
Definition addVaccine (vaccine : object) : M () := StateList.addState list vaccine.
Definition getVaccine (vaccine : string) : M (option object) :=
  StateList.getState list vaccine.
Definition updateVaccine (vaccine : object) : M () := StateList.updateState list vaccine.
End VaccineList.

Module ShipmentList.
Definition list (Shipment : AssetModule) : StateList.t :=
  StateList.use (StateList.new "org.vaccine.shipment") (asset_class Shipment).
Definition addShipment S (shipment : object) : M () := StateList.addState (list S) shipment.
Definition getShipment S (shipment : string) : M (option object) :=
  StateList.getState (list S) shipment.
Definition updateShipment S (shipment : object) : M () :=
  StateList.updateState (list S) shipment.
End ShipmentList.

(** The transaction context: the identity of the invoking organization,
    [ctx.clientIdentity.getMSPID()]. *)
Record Context : Type := { getMSPID : string }.

Definition nl : string := String "010"%char "".

(** ** Contracts

    The chaincode interface delivers every transaction argument as a
    string. *)

(** The raw material contract, first file: [purchaseMaterial] and
    [addMaterial] as they are written.  Its [createMaterial] declares
    [let material] twice in one block, which the language rejects as an
    early error; that function has no behaviour to embed and is left
    out. *)
Module RawMaterialContract.
Section Runtime.

(** The conversion of a string to a number that the comparison of a
    string with a number applies ([None] for NaN); it is part of the
    language runtime. *)
Variable StringToNumber : string → option Z.

(** [v == 0] *)
Definition loose_eq_zero (v : value) : bool :=
  match v with
  | VNum n => (n =? 0)%Z
  | VBool b => negb b
  | VStr s => match StringToNumber s with Some n => (n =? 0)%Z | None => false end
  | _ => false
  end.

(** [!material || material.length == 0] *)
Definition missing_or_empty (material : option object) : bool :=
  match material with
  | None => true
  | Some o => loose_eq_zero (get (own o) "length")
  end.

Definition purchaseMaterial (ctx : Context)
    (manufacturer batchNumber purchaser price purchaseDateTime : string) : M object :=
  let primaryKey := RawMaterial.makeKey [VStr manufacturer; VStr batchNumber] in
  material ← RawMaterialList.getRawMaterial primaryKey;
  if missing_or_empty material then
    throw (Error ("Raw material " +:+ batchNumber +:+ " from " +:+ manufacturer
                  +:+ " doesn't exist"))
  else
    material ← deref material;
    '(p, material) ← call material "getPurchaser" [];
    if not_nullish p then
      '(n, material) ← call material "getMaterialName" [];
      throw (Error (nl +:+ "Raw material " +:+ toStr n +:+ " with batch number "
                    +:+ batchNumber +:+ " manufactured by " +:+ manufacturer
                    +:+ " is already purchased"))
    else
      '(_, material) ← call material "setPurchaser" [VStr purchaser];
      '(_, material) ← call material "setPurchaseDate" [VStr purchaseDateTime];
      '(_, material) ← call material "setPrice" [VStr price];
      let mspid := getMSPID ctx in
      '(_, material) ← call material "setOwnerMSP" [VStr mspid];
      RawMaterialList.updateRawMaterial material;;
      mret material.

Definition addMaterial (ctx : Context)
    (manufacturer batchNumber dateTimeAdded : string) : M object :=
  let primaryKey := RawMaterial.makeKey [VStr manufacturer; VStr batchNumber] in
  material ← RawMaterialList.getRawMaterial primaryKey;
  material ← deref material;
  '(d, material) ← call material "getDateMixedIn" [];
  if not_nullish d then
    '(n, material) ← call material "getMaterialName" [];
    throw (Error (nl +:+ "Raw material " +:+ toStr n +:+ " with batch number "
                  +:+ batchNumber +:+ " manufactured by " +:+ manufacturer
                  +:+ " is already used"))
  else
    '(_, material) ← call material "setDateMixedIn" [VStr dateTimeAdded];
    RawMaterialList.updateRawMaterial material;;
    mret material.

End Runtime.
End RawMaterialContract.

(** The raw material contract, second file: no look-up before the record
    is created, no existence check before a purchase. *)
Module RawMaterialContract2.

Definition createMaterial (ctx : Context)
    (materialName batchNumber quantity manufacturer manufactureDate : string) : M object :=
  let material := RawMaterial.createInstance (VStr materialName) (VStr batchNumber)
                    (VStr quantity) (VStr manufacturer) (VStr manufactureDate) in
  let mspid := getMSPID ctx in
  '(_, material) ← call material "setOwnerMSP" [VStr mspid];
  RawMaterialList.addRawMaterial material;;
  mret material.

Definition purchaseMaterial (ctx : Context)
    (manufacturer batchNumber purchaser price purchaseDateTime : string) : M object :=
  let primaryKey := RawMaterial.makeKey [VStr manufacturer; VStr batchNumber] in
  material ← RawMaterialList.getRawMaterial primaryKey;
  material ← deref material;
  '(p, material) ← call material "getPurchaser" [];
  if not_nullish p then
    '(n, material) ← call material "getMaterialName" [];
    throw (Error (nl +:+ "Raw material " +:+ toStr n +:+ " with batch number "
                  +:+ batchNumber +:+ " manufactured by " +:+ manufacturer
                  +:+ " is already purchased"))
  else
    '(_, material) ← call material "setPurchaser" [VStr purchaser];
    '(_, material) ← call material "setPurchaseDate" [VStr purchaseDateTime];
    '(_, material) ← call material "setPrice" [VStr price];
    let mspid := getMSPID ctx in
    '(_, material) ← call material "setOwnerMSP" [VStr mspid];
    RawMaterialList.updateRawMaterial material;;
    mret material.

Definition addMaterial (ctx : Context)
    (manufacturer batchNumber dateTimeAdded : string) : M object :=
  let primaryKey := RawMaterial.makeKey [VStr manufacturer; VStr batchNumber] in
  material ← RawMaterialList.getRawMaterial primaryKey;
  material ← deref material;
  '(d, material) ← call material "getDateMixedIn" [];
  if not_nullish d then
    '(n, material) ← call material "getMaterialName" [];
    throw (Error (nl +:+ "Raw material " +:+ toStr n +:+ " with batch number "
                  +:+ batchNumber +:+ " manufactured by " +:+ manufacturer
                  +:+ " is already used"))
  else
    '(_, material) ← call material "setDateMixedIn" [VStr dateTimeAdded];
    RawMaterialList.updateRawMaterial material;;
    mret material.

End RawMaterialContract2.

(** The vaccine batch contract, for either [VaccineBatch] class file. *)
Module VaccineBatchContract.
Section Required.

(** [const VaccineBatch = require('./vaccinebatch.js')] *)
Variable VaccineBatch : AssetModule.

Definition issue (ctx : Context)
    (vaccineName batchNumber quantity manufacturer manufactureDate : string) : M object :=
  let currVaccineBatch := asset_createInstance VaccineBatch
    [VStr vaccineName; VStr batchNumber; VStr quantity; VStr manufacturer;
     VStr manufactureDate] in
  '(_, currVaccineBatch) ← call currVaccineBatch "setWarehoused" [];
  let mspid := getMSPID ctx in
  '(_, currVaccineBatch) ← call currVaccineBatch "setOwnerMSP" [VStr mspid];
  VaccineBatchList.addVaccineBatch VaccineBatch currVaccineBatch;;
  mret currVaccineBatch.

(** The message of the ownership error mentions [issuer], which is not
    declared: building the message throws a [ReferenceError]. *)
Definition buy (ctx : Context)
    (batchNumber manufacturer currentOwner newOwner price purchaseDateTime : string)
  : M object :=
  let vaccineBatchKey := State.makeKey [VStr batchNumber; VStr manufacturer] in
  currVaccineBatch ← VaccineBatchList.getVaccineBatch VaccineBatch vaccineBatchKey;
  currVaccineBatch ← deref currVaccineBatch;
  '(p, currVaccineBatch) ← call currVaccineBatch "getPurchaser" [];
  if negb (strict_eq p (VStr currentOwner)) then
    throw (ReferenceError "issuer is not defined")
  else
    '(_, currVaccineBatch) ← call currVaccineBatch "setPurchaser" [VStr newOwner];
    '(_, currVaccineBatch) ← call currVaccineBatch "setPurchaseDate" [VStr purchaseDateTime];
    '(_, currVaccineBatch) ← call currVaccineBatch "setPrice" [VStr price];
    VaccineBatchList.updateVaccineBatch VaccineBatch currVaccineBatch;;
    mret currVaccineBatch.

Definition ship (ctx : Context)
    (batchNumber manufacturer shippingProvider shipmentUUID : string) : M object :=
  let vaccineBatchKey := State.makeKey [VStr batchNumber; VStr manufacturer] in
  currVaccineBatch ← VaccineBatchList.getVaccineBatch VaccineBatch vaccineBatchKey;
  currVaccineBatch ← deref currVaccineBatch;
  '(_, currVaccineBatch) ← call currVaccineBatch "setShippingProvider" [VStr shippingProvider];
  '(_, currVaccineBatch) ← call currVaccineBatch "setShipmentUUID" [VStr shipmentUUID];
  '(_, currVaccineBatch) ← call currVaccineBatch "setShipped" [];
  VaccineBatchList.updateVaccineBatch VaccineBatch currVaccineBatch;;
  mret currVaccineBatch.

Definition arrived (ctx : Context)
    (batchNumber manufacturer arrivalDate : string) : M object :=
  let vaccineBatchKey := State.makeKey [VStr batchNumber; VStr manufacturer] in
  currVaccineBatch ← VaccineBatchList.getVaccineBatch VaccineBatch vaccineBatchKey;
  currVaccineBatch ← deref currVaccineBatch;
  '(_, currVaccineBatch) ← call currVaccineBatch "setArrived" [];
  VaccineBatchList.updateVaccineBatch VaccineBatch currVaccineBatch;;
  mret currVaccineBatch.

End Required.
End VaccineBatchContract.

(** The vaccine dose contract. *)
Module VaccineContract.

Definition issue (ctx : Context)
    (vaccineUUID batchNum manufacturer issuer recipient expirationDateTime
     issueDateTime : string) : M object :=
  let currVaccine := Vaccine.createInstance (VStr vaccineUUID) (VStr batchNum)
                       (VStr expirationDateTime) (VStr manufacturer) in
  '(_, currVaccine) ← call currVaccine "setIssued" [];
  '(_, currVaccine) ← call currVaccine "setIssuer" [VStr issuer];
  '(_, currVaccine) ← call currVaccine "setRecipient" [VStr recipient];
  '(_, currVaccine) ← call currVaccine "setIssueDateTime" [VStr issueDateTime];
  let mspid := getMSPID ctx in
  '(_, currVaccine) ← call currVaccine "setOwnerMSP" [VStr mspid];
  VaccineList.addVaccine currVaccine;;
  mret currVaccine.

End VaccineContract.

(** The shipment contract, for either [Shipment] class file (the contract
    under [distributor/contract/lib] requires the class file next to it). *)
Module ShipmentContract.
Section Required.

(** [const Shipment = require('./shipment.js')] *)
Variable Shipment : AssetModule.

(** The lines that would record the creator's MSP are commented out. *)
Definition orderShipment (ctx : Context)
    (shipmentUUID shipmentProvider source destination : string) : M object :=
  let shipment := asset_createInstance Shipment
    [VStr shipmentUUID; VStr shipmentProvider; VStr source; VStr destination] in
  ShipmentList.addShipment Shipment shipment;;
  mret shipment.

Definition shipShipment (ctx : Context)
    (shipmentUUID vehicleUUID source timestamp vehicleOperator currentTemp : string)
  : M object :=
  let primaryKey := State.makeKey [VStr shipmentUUID] in
  shipment ← ShipmentList.getShipment Shipment primaryKey;
  shipment ← deref shipment;
  '(d, shipment) ← call shipment "getShipDateTime" [];
  if not_nullish d then
    throw (Error (nl +:+ "Shipment " +:+ shipmentUUID +:+ " has already been shipped."))
  else
    '(_, shipment) ← call shipment "setLeftSource" [];
    '(_, shipment) ← call shipment "setShipDateTime" [VStr timestamp];
    '(_, shipment) ← call shipment "setVehicleUUID" [VStr vehicleUUID];
    '(_, shipment) ← call shipment "setVehicleOperator" [VStr vehicleOperator];
    '(_, shipment) ← call shipment "setCurrentLocation" [VStr source];
    '(_, shipment) ← call shipment "setCurrentTemp" [VStr currentTemp];
    '(_, shipment) ← call shipment "setTimestamp" [VStr timestamp];
    ShipmentList.updateShipment Shipment shipment;;
    mret shipment.

Definition updateLocationTemp (ctx : Context)
    (shipmentUUID timestamp currentLocation currentTemp : string) : M object :=
  let primaryKey := State.makeKey [VStr shipmentUUID] in
  shipment ← ShipmentList.getShipment Shipment primaryKey;
  shipment ← deref shipment;
  '(_, shipment) ← call shipment "setCurrentLocation" [VStr currentLocation];
  '(_, shipment) ← call shipment "setCurrentTemp" [VStr currentTemp];
  '(_, shipment) ← call shipment "setTimestamp" [VStr timestamp];
  ShipmentList.updateShipment Shipment shipment;;
  mret shipment.

Definition shipmentArrival (ctx : Context) (shipmentUUID timestamp : string) : M object :=
  let primaryKey := State.makeKey [VStr shipmentUUID] in
  shipment ← ShipmentList.getShipment Shipment primaryKey;
  shipment ← deref shipment;
  '(d, shipment) ← call shipment "getArrivalDateTime" [];
  if not_nullish d then
    throw (Error (nl +:+ "Shipment " +:+ shipmentUUID +:+ " has already arrived."))
  else
    '(_, shipment) ← call shipment "setArrivedDest" [];
    '(_, shipment) ← call shipment "setArrivalDateTime" [VStr timestamp];
    ShipmentList.updateShipment Shipment shipment;;
    mret shipment.

End Required.
End ShipmentContract.

(** ** Dates *)

(** The [Date] objects of the language runtime.  A date holds a time value,
    the milliseconds since the epoch in UTC, or NaN (an invalid date),
    [None] here.  The time values below have no fraction. *)
Module Date.

Definition msPerDay : Z := 86400000.
Definition msPerHour : Z := 3600000.
Definition msPerMinute : Z := 60000.
Definition msPerSecond : Z := 1000.

Definition Day (t : Z) : Z := t `div` msPerDay.
Definition HourFromTime (t : Z) : Z := (t `div` msPerHour) `mod` 24.
Definition MinFromTime (t : Z) : Z := (t `div` msPerMinute) `mod` 60.
Definition SecFromTime (t : Z) : Z := (t `div` msPerSecond) `mod` 60.

Definition MakeTime (hour min sec ms : Z) : Z :=
  hour * msPerHour + min * msPerMinute + sec * msPerSecond + ms.

Definition MakeDate (day time : Z) : Z := day * msPerDay + time.

(** Beyond 8.64e15 milliseconds on either side of the epoch there is no
    date. *)
Definition TimeClip (time : Z) : option Z :=
  if (Z.abs time <=? 8640000000000000)%Z then Some time else None.

(** [new Date(value)] for a number. *)
Definition new (value : Z) : option Z := TimeClip value.

Section LocalTime.

(** The offset of the local time of the runtime from UTC, in milliseconds:
    [LocalTZA t true] at the UTC time value [t], [LocalTZA t false] at the
    local time value [t]. *)
Variable LocalTZA : Z → bool → Z.

Definition LocalTime (t : Z) : Z := t + LocalTZA t true.

Definition UTC (t : Z) : Z := t - LocalTZA t false.

(** [date.setMilliseconds(ms)], [ms] given by its integer part: the day,
    hour, minute and second of the local time are kept and its
    milliseconds replaced; an invalid date stays invalid. *)
Definition setMilliseconds (this : option Z) (ms : Z) : option Z :=
  match this with
  | None => None
  | Some tv =>
      let t := LocalTime tv in
      let time := MakeTime (HourFromTime t) (MinFromTime t) (SecFromTime t) ms in
      TimeClip (UTC (MakeDate (Day t) time))
  end.

End LocalTime.
End Date.

(** The time zone of the examples: local time is UTC. *)
Definition utc : Z → bool → Z := fun _ _ => 0.

(** ** The query helper *)

(** What the result iterators of the ledger stub hand out.  A timestamp
    holds its seconds as a 64-bit integer in two signed 32-bit words, of
    which the helper reads the low one, and its nanoseconds as a number. *)
Record Timestamp : Type := { seconds_low : Z; nanos : Z }.

(** An entry: key and value buffer ([None] when the entry carries no
    buffer), and for history entries the transaction id, the timestamp and
    the deletion mark. *)
Record KeyValue : Type := {
  kv_key : string;
  kv_value : option string;
  kv_txId : string;
  kv_timestamp : option Timestamp;
  kv_is_delete : bool
}.

(** [{ value, done }] as returned by [iterator.next()]. *)
Record IteratorResult : Type := { res_value : option KeyValue; res_done : bool }.

(** One call of [next()] resolves to a result or rejects. *)
Inductive next_outcome : Type :=
| Resolves (res : IteratorResult)
| Rejects (e : error).

(** An iterator: the outcomes of the calls of [next()] to come, and whether
    [close()] has been called.  Once the outcomes are used up, [next()]
    answers [{ done: true }] without a value. *)
Record Iterator : Type := { pending : list next_outcome; closed : bool }.

Definition exhausted : IteratorResult := {| res_value := None; res_done := true |}.

(** The query helper of the raw material contract; the helper of the
    vaccine batch contract has the same [getAllResults]. *)
Module RawMaterialQueryUtils.
Section Runtime.

(** [JSON.parse] of the language runtime ([None] when it throws) and the
    type of what it returns. *)
Variable json : Type.
Variable JSON_parse : string → option json.

(** The local time zone of the runtime, which [setMilliseconds] goes
    through. *)
Variable LocalTZA : Z → bool → Z.

(** A parsed record, or the text itself when parsing threw. *)
Inductive parsed : Type :=
| Parsed (j : json)
| Raw (s : string).

(** [jsonRes]; [Timestamp] is a [Date]. *)
Inductive jsonRes : Type :=
| HistoryDeleted (TxId : string) (Timestamp : option Z) (IsDelete : string)
| HistoryValue (TxId : string) (Timestamp : option Z) (Value : parsed)
| KeyRecord (Key : string) (Record_ : parsed).

(** [try { JSON.parse(text) } catch (err) { text }] *)
Definition parse_or_raw (text : string) : parsed :=
  match JSON_parse text with
  | Some j => Parsed j
  | None => Raw text
  end.

(** The body of the loop of [getAllResults] for one result [res], up to
    the test of [res.done]: the result to push, if any.  The logging
    statements read [res.value.value] and call its [toString] before
    [res.value] is tested.  In a history query [Timestamp] is
    [new Date(seconds.low * 1000)] after [setMilliseconds(nanos / 1000000)],
    of which [setMilliseconds] takes the integer part. *)
Definition materialize (isHistory : bool) (res : IteratorResult)
  : result (option jsonRes) :=
  match res_value res with
  | None => Throw (TypeError "Cannot read properties of undefined (reading 'value')")
  | Some kv =>
      match kv_value kv with
      | None => Throw (TypeError "Cannot read properties of undefined (reading 'toString')")
      | Some text =>
          if bool_decide (text = "") then Ok None
          else if isHistory then
            match kv_timestamp kv with
            | None =>
                Throw (TypeError "Cannot read properties of undefined (reading 'seconds')")
            | Some ts =>
                let time :=
                  Date.setMilliseconds LocalTZA (Date.new (seconds_low ts * 1000))
                    (nanos ts ÷ 1000000) in
                if kv_is_delete kv then
                  Ok (Some (HistoryDeleted (kv_txId kv) time "true"))
                else
                  Ok (Some (HistoryValue (kv_txId kv) time (parse_or_raw text)))
            end
          else Ok (Some (KeyRecord (kv_key kv) (parse_or_raw text)))
      end
  end.

Definition push (allResults : list jsonRes) (r : option jsonRes) : list jsonRes :=
  match r with
  | Some j => allResults ++ [j]
  | None => allResults
  end.

(** The loop of [getAllResults], on the outcomes of the calls of
    [next()]; [was_closed] is the state of the iterator on entry. *)
Fixpoint loop (isHistory : bool) (was_closed : bool) (outcomes : list next_outcome)
    (allResults : list jsonRes) : result (list jsonRes) * Iterator :=
  match outcomes with
  | [] =>
      match materialize isHistory exhausted with
      | Throw e => (Throw e, {| pending := []; closed := was_closed |})
      | Ok r => (Ok (push allResults r), {| pending := []; closed := true |})
      end
  | Rejects e :: rest => (Throw e, {| pending := rest; closed := was_closed |})
  | Resolves res :: rest =>
      match materialize isHistory res with
      | Throw e => (Throw e, {| pending := rest; closed := was_closed |})
      | Ok r =>
          if res_done res then
            (Ok (push allResults r), {| pending := rest; closed := true |})
          else loop isHistory was_closed rest (push allResults r)
      end
  end.

(** [getAllResults(iterator, isHistory)]: the results, or the error
    thrown, and the iterator as it is left. *)
Definition getAllResults (iterator : Iterator) (isHistory : bool)
  : result (list jsonRes) * Iterator :=
  loop isHistory (closed iterator) (pending iterator) [].

(** The ledger stub of the transaction context, [ctx.stub]: composite keys
    and the three functions that hand out result iterators. *)
Variable createCompositeKey : string → list string → string.
Variable getHistoryForKey : string → Iterator.
Variable getStateByPartialCompositeKey : string → list string → Iterator.
Variable getQueryResult : string → Iterator.

(** [JSON.stringify] of the runtime, on the query object
    [{ selector: { field: value } }] and on a parsed ad-hoc query, and the
    test [!queryString] on a parsed ad-hoc query. *)
Variable JSON_stringify_selector : string → string → string.
Variable JSON_stringify_json : json → string.
Variable falsy : json → bool.

(** The namespace the helper is constructed with, [this.name]. *)
Variable name : string.

(** What a query leaves behind: its results or the error thrown, and the
    iterator it obtained, if it obtained one, as it is left. *)
Definition outcome : Type := result (list jsonRes) * option Iterator.

Definition with_iterator (r : result (list jsonRes) * Iterator) : outcome :=
  (r.1, Some r.2).

(** History query: [getAssetHistory(batchNumber, manufacturer)]. *)
Definition getAssetHistory (batchNumber manufacturer : string) : outcome :=
  let ledgerKey := createCompositeKey name [manufacturer; batchNumber] in
  let resultsIterator := getHistoryForKey ledgerKey in
  with_iterator (getAllResults resultsIterator true).

(** Prefix scan: [queryKeyByPartial(manufacturer)]. *)
Definition queryKeyByPartial (manufacturer : string) : outcome :=
  let resultsIterator := getStateByPartialCompositeKey name [manufacturer] in
  with_iterator (getAllResults resultsIterator false).

(** [getQueryResultForQueryString(ctx, self, queryString)] *)
Definition getQueryResultForQueryString (queryString : string) : outcome :=
  let resultsIterator := getQueryResult queryString in
  with_iterator (getAllResults resultsIterator false).

(** Exact-match queries: one field, one value. *)
Definition queryByName (materialName : string) : outcome :=
  getQueryResultForQueryString (JSON_stringify_selector "name" materialName).

Definition queryByPurchaser (purchaser : string) : outcome :=
  getQueryResultForQueryString (JSON_stringify_selector "purchaser" purchaser).

Definition queryByDateMixedIn (dateMixedIn : string) : outcome :=
  getQueryResultForQueryString (JSON_stringify_selector "dateMixedIn" dateMixedIn).

Definition queryByBatchNumber (batchNumber : string) : outcome :=
  getQueryResultForQueryString (JSON_stringify_selector "batchNumber" batchNumber).

Definition queryByManufacturer (manufacturer : string) : outcome :=
  getQueryResultForQueryString (JSON_stringify_selector "manufacturer" manufacturer).

(** Ad-hoc query: [queryByAdhoc(queryString)], on the parsed query. *)
Definition queryByAdhoc (queryString : json) : outcome :=
  if falsy queryString then (Throw (Error "queryString must not be empty"), None)
  else getQueryResultForQueryString (JSON_stringify_json queryString).

End Runtime.
End RawMaterialQueryUtils.

(** ** Identifiers *)

(** The globals of the runtime that the sources mention. *)
Definition globals : list string :=
  ["JSON"; "console"; "Error"; "Date"; "Buffer"; "Object"; "Set"].

(** Evaluating an identifier: one that is bound neither in the function
    around it nor at the top level of its file (together [bound]) nor as a
    global cannot be resolved, and evaluating it throws a
    [ReferenceError]. *)
Definition resolve (bound : list string) (name : string) : result () :=
  if existsb (String.eqb name) (bound ++ globals)%list then Ok ()
  else Throw (ReferenceError (name +:+ " is not defined")).

(** A query class as the contracts use one: [new X(ctx, listName)] and the
    queries called on the object.  It stands for the classes the sources
    name without having them: [QueryUtils] of
    [digibank/contract/lib/queries.js], and a class name that is bound to
    nothing. *)
Record QueryClass (json : Type) : Type := {
  class_queryKeyByOwner : string → string → RawMaterialQueryUtils.outcome json;
  class_queryKeyByPartial : string → string → RawMaterialQueryUtils.outcome json;
  class_queryByBatchNumber : string → string → RawMaterialQueryUtils.outcome json;
  class_queryByAdhoc : string → json → RawMaterialQueryUtils.outcome json
}.
Arguments class_queryKeyByOwner {json} _ _ _.
Arguments class_queryKeyByPartial {json} _ _ _.
Arguments class_queryByBatchNumber {json} _ _ _.
Arguments class_queryByAdhoc {json} _ _ _.

(** [new X(ctx, listName)] followed by the query [k] on the object: the
    identifier [X] is evaluated first. *)
Definition new_query {json} (bound : list string) (X : string)
    (k : RawMaterialQueryUtils.outcome json) : RawMaterialQueryUtils.outcome json :=
  match resolve bound X with
  | Ok _ => k
  | Throw e => (Throw e, None)
  end.

(** [console.log(..., x, ...)] between a query and the return of its
    results [r]: the identifier [x] is evaluated when the query has
    returned. *)
Definition then_log {json} (bound : list string) (x : string)
    (r : RawMaterialQueryUtils.outcome json) : RawMaterialQueryUtils.outcome json :=
  match r.1, resolve bound x with
  | Ok _, Throw e => (Throw e, r.2)
  | _, _ => r
  end.

(** The query helper of the vaccine batch contract,
    [vaccinebatchquery.js]; its [getQueryResultForQueryString] and
    [getAllResults] are those of the raw material helper, line for line. *)
Module VaccineBatchQueryUtils.
Section Runtime.

Variable json : Type.
Variable JSON_parse : string → option json.
Variable LocalTZA : Z → bool → Z.
Variable createCompositeKey : string → list string → string.
Variable getHistoryForKey : string → Iterator.
Variable getQueryResult : string → Iterator.
Variable JSON_stringify_selector : string → string → string.
Variable JSON_stringify_json : json → string.
Variable falsy : json → bool.
Variable name : string.

(** What [QueryUtils] would be, were it bound. *)
Variable QueryUtils : QueryClass json.

(** Bound at the top level of the file: [State] and the class. *)
Definition top_level : list string := ["State"; "VaccineBatchQueryUtils"].

Definition getAllResults := RawMaterialQueryUtils.getAllResults json JSON_parse LocalTZA.

Definition getQueryResultForQueryString :=
  RawMaterialQueryUtils.getQueryResultForQueryString json JSON_parse LocalTZA getQueryResult.

(** History query: [getAssetHistory(batchNumber, manufacturer)]. *)
Definition getAssetHistory (batchNumber manufacturer : string)
  : RawMaterialQueryUtils.outcome json :=
  let ledgerKey := createCompositeKey name [batchNumber; manufacturer] in
  let resultsIterator := getHistoryForKey ledgerKey in
  RawMaterialQueryUtils.with_iterator json (getAllResults resultsIterator true).

(** [queryKeyByPartial(prefix)]: [new QueryUtils(ctx, ...)], the scan of
    that class, the log of [results], the return. *)
Definition queryKeyByPartial (prefix : string) : RawMaterialQueryUtils.outcome json :=
  let bound := ("prefix" :: "query" :: "partial_results" :: top_level) in
  new_query bound "QueryUtils"
    (new_query bound "ctx"
       (then_log bound "results"
          (class_queryKeyByPartial QueryUtils "org.vaccine.vaccineBatch" prefix))).

(** Exact-match queries: one field, one value. *)
Definition queryByIssueDateTime (issueDateTime : string) :=
  getQueryResultForQueryString (JSON_stringify_selector "issueDateTime" issueDateTime).

Definition queryByBatchNumber (batchNum : string) :=
  getQueryResultForQueryString (JSON_stringify_selector "batchNum" batchNum).

Definition queryByManufacturer (manufacturer : string) :=
  getQueryResultForQueryString (JSON_stringify_selector "manufacturer" manufacturer).

Definition queryByAdhoc (queryString : json) : RawMaterialQueryUtils.outcome json :=
  if falsy queryString then (Throw (Error "queryString must not be empty"), None)
  else getQueryResultForQueryString (JSON_stringify_json queryString).

End Runtime.
End VaccineBatchQueryUtils.

(** The query functions of the contracts. *)

(** [JSON.parse(queryString)] followed by the ad-hoc query [k] on the
    parsed query; on a text that is not JSON, [JSON.parse] throws (a
    [SyntaxError], written as an [Error]). *)
Definition parse_then {json} (JSON_parse : string → option json) (queryString : string)
    (k : json → RawMaterialQueryUtils.outcome json) : RawMaterialQueryUtils.outcome json :=
  match JSON_parse queryString with
  | Some querySelector => k querySelector
  | None => (Throw (Error "SyntaxError: the query string is not JSON"), None)
  end.

(** The first raw material contract file, which requires [QueryUtils]
    from [digibank/contract/lib/queries.js]. *)
Module RawMaterialContract_queries.
Section Runtime.

Variable json : Type.
Variable JSON_parse : string → option json.
Variable LocalTZA : Z → bool → Z.
Variable createCompositeKey : string → list string → string.
Variable getHistoryForKey : string → Iterator.
Variable getStateByPartialCompositeKey : string → list string → Iterator.
Variable getQueryResult : string → Iterator.
Variable JSON_stringify_selector : string → string → string.
Variable JSON_stringify_json : json → string.
Variable falsy : json → bool.

(** The class the file requires as [QueryUtils]. *)
Variable QueryUtils : QueryClass json.

Definition top_level : list string :=
  ["Contract"; "Context"; "QueryUtils"; "RawMaterial"; "RawMaterialList";
   "RawMaterialQueryUtils"; "RawMaterialContext"; "RawMaterialContract"].

Definition queryHistory (batchNumber manufacturer : string) :=
  let bound := "ctx" :: "batchNumber" :: "manufacturer" :: "query" :: "results" :: top_level in
  new_query bound "RawMaterialQueryUtils"
    (RawMaterialQueryUtils.getAssetHistory json JSON_parse LocalTZA createCompositeKey getHistoryForKey
       "org.vaccine.rawmaterial" batchNumber manufacturer).

Definition queryName (name : string) :=
  let bound := "ctx" :: "name" :: "query" :: "results" :: top_level in
  new_query bound "RawMaterialQueryUtils"
    (then_log bound "results"
       (RawMaterialQueryUtils.queryByName json JSON_parse LocalTZA getQueryResult
          JSON_stringify_selector name)).

Definition queryPurchaser (owner : string) :=
  let bound := "ctx" :: "owner" :: "query" :: "results" :: top_level in
  new_query bound "RawMaterialQueryUtils"
    (then_log bound "results"
       (RawMaterialQueryUtils.queryByPurchaser json JSON_parse LocalTZA getQueryResult
          JSON_stringify_selector owner)).

Definition queryDateMixedIn (dateMixedIn : string) :=
  let bound := "ctx" :: "dateMixedIn" :: "query" :: "results" :: top_level in
  new_query bound "RawMaterialQueryUtils"
    (then_log bound "results"
       (RawMaterialQueryUtils.queryByDateMixedIn json JSON_parse LocalTZA getQueryResult
          JSON_stringify_selector dateMixedIn)).

Definition queryBatchNumber (batchNumber : string) :=
  let bound := "ctx" :: "batchNumber" :: "query" :: "results" :: top_level in
  new_query bound "RawMaterialQueryUtils"
    (then_log bound "results"
       (RawMaterialQueryUtils.queryByBatchNumber json JSON_parse LocalTZA getQueryResult
          JSON_stringify_selector batchNumber)).

Definition queryManufacturer (manufacturer : string) :=
  let bound := "ctx" :: "manufacturer" :: "query" :: "results" :: top_level in
  new_query bound "RawMaterialQueryUtils"
    (then_log bound "results"
       (RawMaterialQueryUtils.queryByManufacturer json JSON_parse LocalTZA getQueryResult
          JSON_stringify_selector manufacturer)).

(** The log names [results]; the variable of the function is
    [partial_results]. *)
Definition queryPartial (prefix : string) :=
  let bound := "ctx" :: "prefix" :: "query" :: "partial_results" :: top_level in
  new_query bound "QueryUtils"
    (then_log bound "results"
       (class_queryKeyByPartial QueryUtils "org.vaccine.rawmaterial" prefix)).

Definition queryAdhoc (queryString : string) :=
  let bound := "ctx" :: "queryString" :: "query" :: "querySelector" :: "adhoc_results"
               :: top_level in
  new_query bound "QueryUtils"
    (parse_then JSON_parse queryString
       (class_queryByAdhoc QueryUtils "org.vaccine.rawmaterial")).

End Runtime.
End RawMaterialContract_queries.

(** The second raw material contract file, which does not require
    [QueryUtils]. *)
Module RawMaterialContract2_queries.
Section Runtime.

Variable json : Type.
Variable JSON_parse : string → option json.
Variable LocalTZA : Z → bool → Z.
Variable createCompositeKey : string → list string → string.
Variable getHistoryForKey : string → Iterator.

(** What [QueryUtils] would be, were it bound, and the selector objects
    of the named queries. *)
Variable QueryUtils : QueryClass json.
Variable named_selector : string → json.

Definition top_level : list string :=
  ["Contract"; "Context"; "RawMaterial"; "RawMaterialList"; "RawMaterialQueryUtils";
   "RawMaterialContext"; "RawMaterialContract"].

Definition queryHistory (batchNumber manufacturer : string) :=
  let bound := "ctx" :: "batchNumber" :: "manufacturer" :: "query" :: "results" :: top_level in
  new_query bound "RawMaterialQueryUtils"
    (RawMaterialQueryUtils.getAssetHistory json JSON_parse LocalTZA createCompositeKey getHistoryForKey
       "org.vaccine.rawmaterial" batchNumber manufacturer).

Definition queryOwner (owner : string) :=
  let bound := "ctx" :: "owner" :: "query" :: "owner_results" :: top_level in
  new_query bound "QueryUtils" (class_queryKeyByOwner QueryUtils "org.papernet.paper" owner).

Definition queryPartial (prefix : string) :=
  let bound := "ctx" :: "prefix" :: "query" :: "partial_results" :: top_level in
  new_query bound "QueryUtils"
    (class_queryKeyByPartial QueryUtils "org.papernet.paper" prefix).

Definition queryAdhoc (queryString : string) :=
  let bound := "ctx" :: "queryString" :: "query" :: "querySelector" :: "adhoc_results"
               :: top_level in
  new_query bound "QueryUtils"
    (parse_then JSON_parse queryString (class_queryByAdhoc QueryUtils "org.papernet.paper")).

(** The [switch] on the name comes first: an unknown name throws before
    [QueryUtils] is evaluated. *)
Definition queryNamed (queryname : string) : RawMaterialQueryUtils.outcome json :=
  let bound := "ctx" :: "queryname" :: "querySelector" :: "query" :: "adhoc_results"
               :: top_level in
  if existsb (String.eqb queryname) ["redeemed"; "trading"; "value"] then
    new_query bound "QueryUtils"
      (class_queryByAdhoc QueryUtils "org.papernet.paper" (named_selector queryname))
  else
    (Throw (Error ("invalid named query supplied: " +:+ queryname +:+ "- please try again ")),
     None).

End Runtime.
End RawMaterialContract2_queries.

(** The query functions of the vaccine batch contract, which requires
    neither [QueryUtils] nor [RawMaterialQueryUtils]. *)
Module VaccineBatchContract_queries.
Section Runtime.

Variable json : Type.
Variable JSON_parse : string → option json.
Variable LocalTZA : Z → bool → Z.
Variable createCompositeKey : string → list string → string.
Variable getHistoryForKey : string → Iterator.
Variable getQueryResult : string → Iterator.
Variable JSON_stringify_selector : string → string → string.

(** What [QueryUtils] and [RawMaterialQueryUtils] would be, were they
    bound. *)
Variable QueryUtils : QueryClass json.
Variable RawMaterialQueryUtils_ : QueryClass json.

Definition top_level : list string :=
  ["Contract"; "Context"; "VaccineBatch"; "VaccineBatchList"; "VaccineBatchQueryUtils";
   "VaccineBatchContext"; "VaccineBatchContract"].

Definition queryHistory (batchNumber manufacturer : string) :=
  let bound := "ctx" :: "batchNumber" :: "manufacturer" :: "query" :: "results" :: top_level in
  new_query bound "VaccineBatchQueryUtils"
    (VaccineBatchQueryUtils.getAssetHistory json JSON_parse LocalTZA createCompositeKey
       getHistoryForKey "org.vaccine.vaccineBatch" batchNumber manufacturer).

Definition queryIssueDateTime (issueDateTime : string) :=
  let bound := "ctx" :: "issueDateTime" :: "query" :: "results" :: top_level in
  new_query bound "VaccineBatchQueryUtils"
    (then_log bound "results"
       (VaccineBatchQueryUtils.queryByIssueDateTime json JSON_parse LocalTZA getQueryResult
          JSON_stringify_selector issueDateTime)).

Definition queryBatchNumber (batchNumber : string) :=
  let bound := "ctx" :: "batchNumber" :: "query" :: "results" :: top_level in
  new_query bound "RawMaterialQueryUtils"
    (then_log bound "results"
       (class_queryByBatchNumber RawMaterialQueryUtils_ "org.vaccine.vaccineBatch"
          batchNumber)).

Definition queryManufacturer (manufacturer : string) :=
  let bound := "ctx" :: "manufacturer" :: "query" :: "results" :: top_level in
  new_query bound "VaccineBatchQueryUtils"
    (then_log bound "results"
       (VaccineBatchQueryUtils.queryByManufacturer json JSON_parse LocalTZA getQueryResult
          JSON_stringify_selector manufacturer)).

Definition queryPartial (prefix : string) :=
  let bound := "ctx" :: "prefix" :: "query" :: "partial_results" :: top_level in
  new_query bound "QueryUtils"
    (then_log bound "results"
       (class_queryKeyByPartial QueryUtils "org.vaccine.vaccineBatch" prefix)).

Definition queryAdhoc (queryString : string) :=
  let bound := "ctx" :: "queryString" :: "query" :: "querySelector" :: "adhoc_results"
               :: top_level in
  new_query bound "QueryUtils"
    (parse_then JSON_parse queryString
       (class_queryByAdhoc QueryUtils "org.vaccine.vaccineBatch")).

End Runtime.
End VaccineBatchContract_queries.

(** ** Vocabulary of the statements *)

(** A record of class [c] stored under [key] in namespace [ns]: the
    document at the ledger key carries the type tag of the class and the
    key it is stored under, and is a JSON document (what a state list
    writes). *)
Definition stored (ns : string) (c : jsclass) (σ : ledger) (key : string) (doc : props)
  : Prop :=
  σ !! (ns, key) = Some doc ∧
  doc !! "class" = Some (VStr (getClass_of c)) ∧
  doc !! "key" = Some (VStr key) ∧
  JSON_stringify doc = doc.

(** The values that are no object references. *)
Definition primitive (v : value) : bool :=
  match v with
  | VSet _ | VEmptyObject => false
  | _ => true
  end.

(** A create operation rejects an existing key: on every ledger that has a
    record at the key it fails and leaves the ledger as it is. *)
Definition rejects_existing_key (create : M object) (k : string * string) : Prop :=
  ∀ σ : ledger, is_Some (σ !! k) → ∃ e, create σ = (Throw e, σ).

(** The raw material a fetch returns right after its creation: the purchase
    and mixing fields are [null], the supplied fields are as supplied. *)
Definition is_created_material (r : object)
    (materialName batchNumber quantity manufacturer manufactureDate : string) : Prop :=
  proto r = CRawMaterial
  ∧ get (own r) "purchaser" = VNull
  ∧ get (own r) "purchaseDate" = VNull
  ∧ get (own r) "price" = VNull
  ∧ get (own r) "dateMixedIn" = VNull
  ∧ get (own r) "materialName" = VStr materialName
  ∧ get (own r) "batchNumber" = VStr batchNumber
  ∧ get (own r) "quantity" = VStr quantity
  ∧ get (own r) "manufacturer" = VStr manufacturer
  ∧ get (own r) "manufactureDate" = VStr manufactureDate.

(** Running [create] and then fetching the raw material stored under [key]
    succeeds, and the fetched record satisfies [P]. *)
Definition create_then_fetch (create : M object) (key : string) (P : object → Prop)
    (σ : ledger) : Prop :=
  ∃ material σ' fetched,
    create σ = (Ok material, σ')
    ∧ RawMaterialList.getRawMaterial key σ' = (Ok (Some fetched), σ')
    ∧ P fetched.

(** The ledger after a run of [updateLocationTemp] calls on one shipment,
    each call given as (timestamp, currentLocation, currentTemp); a call
    that throws leaves the ledger as it was. *)
Definition after_updates (Shipment : AssetModule) (ctx : Context) (shipmentUUID : string)
    (calls : list (string * string * string)) (σ : ledger) : ledger :=
  foldl (fun σ '(timestamp, currentLocation, currentTemp) =>
           (ShipmentContract.updateLocationTemp Shipment ctx shipmentUUID
              timestamp currentLocation currentTemp σ).2) σ calls.

(** The properties [updateLocationTemp] writes. *)
Definition location_temp_fields : list string :=
  ["currentLocation"; "currentTemp"; "timestamp"].

(** The properties [buy] writes. *)
Definition purchase_fields : list string := ["purchaser"; "purchaseDate"; "price"].

(** The document at a ledger key (the empty document when there is none). *)
Definition record_at (σ : ledger) (k : string * string) : props := default ∅ (σ !! k).

(** Sample transactions used in the examples. *)
Definition Org1 : Context := {| getMSPID := "Org1MSP" |}.
Definition Org2 : Context := {| getMSPID := "Org2MSP" |}.
Definition Org3 : Context := {| getMSPID := "Org3MSP" |}.

Definition ledger_material : ledger :=
  (RawMaterialContract2.createMaterial Org1 "lipid" "RM-1" "40" "Acme" "2021-03-01" ∅).2.

Definition ledger_purchased : ledger :=
  (RawMaterialContract2.purchaseMaterial Org2 "Acme" "RM-1" "Pfizer" "900" "2021-03-05"
     ledger_material).2.

Definition ledger_batch (VaccineBatch : AssetModule) : ledger :=
  (VaccineBatchContract.issue VaccineBatch Org2 "Covax" "B1" "100" "Pfizer" "2021-04-01" ∅).2.

Definition ledger_shipment (Shipment : AssetModule) : ledger :=
  (ShipmentContract.orderShipment Shipment Org3 "S1" "DHL" "Philadelphia" "Boston" ∅).2.

Definition ledger_shipped : ledger :=
  (ShipmentContract.shipShipment ShipmentManufacturer_js Org3 "S1" "V7" "Philadelphia"
     "2021-04-02 08:00" "Ann" "-70" (ledger_shipment ShipmentManufacturer_js)).2.

(** A batch with one raw material added, and the batch as created. *)
Definition batch_created : object :=
  VaccineBatch.createInstance (VStr "Covax") (VStr "B1") (VStr "100") (VStr "Pfizer")
    (VStr "2021-04-01").

Definition batch_with_material : object :=
  match VaccineBatch.addRawMaterial [VStr "RM-1"] (own batch_created) with
  | Ok (_, this) => Obj CVaccineBatch this
  | Throw _ => batch_created
  end.

(** The iterator is closed exactly when the query returns its results:
    closed after a return, left as it was obtained after an error. *)
Definition closed_iff_returned {A} (obtained : Iterator)
    (out : result A * option Iterator) : Prop :=
  match out with
  | (Ok _, Some iterator') => closed iterator' = true
  | (Throw _, Some iterator') => closed iterator' = closed obtained
  | (_, None) => False
  end.

(** A ledger stub for the examples: every query gets the same iterator. *)
Definition history_of (iterator : Iterator) : string → Iterator := fun _ => iterator.
Definition scan_of (iterator : Iterator) : string → list string → Iterator :=
  fun _ _ => iterator.

(** Sample iterators: a record entry, a history entry without timestamp. *)
Definition entry_record (done : bool) : next_outcome :=
  Resolves {| res_value := Some {| kv_key := "org.vaccine.rawmaterial:Acme:RM-1";
                                   kv_value := Some "{}";
                                   kv_txId := ""; kv_timestamp := None;
                                   kv_is_delete := false |};
              res_done := done |}.

Definition entry_history (timestamp : option Timestamp) (done : bool) : next_outcome :=
  Resolves {| res_value := Some {| kv_key := ""; kv_value := Some "{}";
                                   kv_txId := "tx1"; kv_timestamp := timestamp;
                                   kv_is_delete := false |};
              res_done := done |}.

(** ** Transactions *)

(** A transaction proposal: the contract function invoked and its string
    arguments, in the order of the parameters of the function after
    [ctx]. *)
Inductive transaction : Type :=
| CreateMaterial (materialName batchNumber quantity manufacturer manufactureDate : string)
| PurchaseMaterial (manufacturer batchNumber purchaser price purchaseDateTime : string)
| AddMaterial (manufacturer batchNumber dateTimeAdded : string)
| IssueBatch (vaccineName batchNumber quantity manufacturer manufactureDate : string)
| BuyBatch (batchNumber manufacturer currentOwner newOwner price purchaseDateTime : string)
| ShipBatch (batchNumber manufacturer shippingProvider shipmentUUID : string)
| BatchArrived (batchNumber manufacturer arrivalDate : string)
| IssueVaccine (vaccineUUID batchNum manufacturer issuer recipient expirationDateTime
    issueDateTime : string)
| OrderShipment (shipmentUUID shipmentProvider source destination : string)
| ShipShipment (shipmentUUID vehicleUUID source timestamp vehicleOperator currentTemp : string)
| UpdateLocationTemp (shipmentUUID timestamp currentLocation currentTemp : string)
| ShipmentArrival (shipmentUUID timestamp : string).

(** Running a transaction: the function of its contract -- the second raw
    material contract file, the vaccine batch, vaccine and shipment
    contracts -- with the class files the contracts require. *)
Definition submit (VaccineBatch Shipment : AssetModule) (ctx : Context) (t : transaction)
  : M object :=
  match t with
  | CreateMaterial n b q m d => RawMaterialContract2.createMaterial ctx n b q m d
  | PurchaseMaterial m b p pr d => RawMaterialContract2.purchaseMaterial ctx m b p pr d
  | AddMaterial m b d => RawMaterialContract2.addMaterial ctx m b d
  | IssueBatch n b q m d => VaccineBatchContract.issue VaccineBatch ctx n b q m d
  | BuyBatch b m c n pr d => VaccineBatchContract.buy VaccineBatch ctx b m c n pr d
  | ShipBatch b m p u => VaccineBatchContract.ship VaccineBatch ctx b m p u
  | BatchArrived b m d => VaccineBatchContract.arrived VaccineBatch ctx b m d
  | IssueVaccine u b m i r e d => VaccineContract.issue ctx u b m i r e d
  | OrderShipment u p s d => ShipmentContract.orderShipment Shipment ctx u p s d
  | ShipShipment u v s t o c => ShipmentContract.shipShipment Shipment ctx u v s t o c
  | UpdateLocationTemp u t l c => ShipmentContract.updateLocationTemp Shipment ctx u t l c
  | ShipmentArrival u t => ShipmentContract.shipmentArrival Shipment ctx u t
  end.

(** The ledger key of the record a transaction is about: the namespace of
    the list of its contract and the key made of its key arguments. *)
Definition target (t : transaction) : string * string :=
  match t with
  | CreateMaterial _ b _ m _ | PurchaseMaterial m b _ _ _ | AddMaterial m b _ =>
      ("org.vaccine.rawmaterial", State.makeKey [VStr m; VStr b])
  | IssueBatch _ b _ m _ | BuyBatch b m _ _ _ _ | ShipBatch b m _ _ | BatchArrived b m _ =>
      ("org.vaccine.vaccineBatch", State.makeKey [VStr b; VStr m])
  | IssueVaccine u _ _ _ _ _ _ => ("org.vaccine.vaccine", State.makeKey [VStr u])
  | OrderShipment u _ _ _ | ShipShipment u _ _ _ _ _ | UpdateLocationTemp u _ _ _
  | ShipmentArrival u _ =>
      ("org.vaccine.shipment", State.makeKey [VStr u])
  end.

(** The transactions that create their record; the others look it up. *)
Definition is_create (t : transaction) : bool :=
  match t with
  | CreateMaterial _ _ _ _ _ | IssueBatch _ _ _ _ _ | IssueVaccine _ _ _ _ _ _ _
  | OrderShipment _ _ _ _ => true
  | _ => false
  end.

(** The ledger after a run of transactions, each with the context of its
    caller; a transaction that throws leaves the ledger as it was. *)
Definition execute (VaccineBatch Shipment : AssetModule)
    (txs : list (Context * transaction)) (σ : ledger) : ledger :=
  foldl (fun σ '(ctx, t) => (submit VaccineBatch Shipment ctx t σ).2) σ txs.

(** No transaction of the run creates a record at [k] again. *)
Definition never_recreated (k : string * string) (txs : list (Context * transaction)) : Prop :=
  Forall (fun ct => is_create ct.2 = true → target ct.2 ≠ k) txs.

(** A ledger whose every record carries the namespace of its list as type
    tag and the key it is stored under, and is a JSON document. *)
Definition well_formed (σ : ledger) : Prop :=
  ∀ ns key doc, σ !! (ns, key) = Some doc →
    doc !! "class" = Some (VStr ns) ∧ doc !! "key" = Some (VStr key)
    ∧ JSON_stringify doc = doc.

(** A step that reads: the ledger is as before, and a result satisfies [Q]. *)
Definition reads {A} (m : M A) (Q : A → Prop) : Prop :=
  ∀ σ, well_formed σ →
    match m σ with
    | (Ok a, σ') => σ' = σ ∧ Q a
    | (Throw _, σ') => σ' = σ
    end.

(** A step that writes a record at [k], or throws and writes nothing. *)
Definition writes_at {A} (k : string * string) (m : M A) : Prop :=
  ∀ σ, well_formed σ →
    match m σ with
    | (Ok _, σ') => well_formed σ' ∧ ∃ doc, σ' = <[k := doc]> σ
    | (Throw _, σ') => σ' = σ
    end.

(** An object of class [c] in flight that belongs under [key] in
    namespace [ns]. *)
Definition tagged (ns key : string) (c : jsclass) (o : object) : Prop :=
  proto o = c ∧ own o !! "class" = Some (VStr ns) ∧ own o !! "key" = Some (VStr key).

(** A method that leaves the type tag and the key of [this] alone. *)
Definition keeps_identity (m : method) : Prop :=
  ∀ args this v this', m args this = Ok (v, this') →
    this' !! "class" = this !! "class" ∧ this' !! "key" = this !! "key".

(** The properties a purchase of a raw material writes, and the ones any
    transaction on a raw material writes. *)
Definition material_purchase_fields : list string :=
  ["purchaser"; "purchaseDate"; "price"; "mspid"].

Definition material_written_fields : list string :=
  ["purchaser"; "purchaseDate"; "price"; "mspid"; "dateMixedIn"].

(** How a raw material record may differ from an earlier version of it:
    only in the written properties, and in those of a purchase or of the
    mixing only if the earlier version had none. *)
Definition material_evolves (doc doc' : props) : Prop :=
  (∀ field, field ∉ material_written_fields → doc' !! field = doc !! field)
  ∧ (not_nullish (get doc "purchaser") = true →
     ∀ field, field ∈ material_purchase_fields → doc' !! field = doc !! field)
  ∧ (not_nullish (get doc "dateMixedIn") = true → doc' !! "dateMixedIn" = doc !! "dateMixedIn").

(** The properties only [shipShipment] writes, and the ones any
    transaction on a shipment writes. *)
Definition shipment_ship_fields : list string :=
  ["shipDateTime"; "vehicleUUID"; "vehicleOperator"].

Definition shipment_written_fields : list string :=
  ["currentState"; "shipDateTime"; "vehicleUUID"; "vehicleOperator"; "currentLocation";
   "currentTemp"; "timestamp"; "arrivalDateTime"].

Definition shipment_evolves (doc doc' : props) : Prop :=
  (∀ field, field ∉ shipment_written_fields → doc' !! field = doc !! field)
  ∧ (not_nullish (get doc "shipDateTime") = true →
     ∀ field, field ∈ shipment_ship_fields → doc' !! field = doc !! field)
  ∧ (not_nullish (get doc "arrivalDateTime") = true →
     doc' !! "arrivalDateTime" = doc !! "arrivalDateTime").

(** The properties the transactions on a vaccine batch write. *)
Definition batch_written_fields : list string :=
  ["purchaser"; "purchaseDate"; "price"; "shippingProvider"; "shipmentUUID"; "currentState"].

Definition batch_evolves (doc doc' : props) : Prop :=
  ∀ field, field ∉ batch_written_fields → doc' !! field = doc !! field.

(** The time value of the [Timestamp] of a history result ([None] for an
    invalid date and for a result of another query). *)
Definition history_time {json} (j : RawMaterialQueryUtils.jsonRes json) : option Z :=
  match j with
  | RawMaterialQueryUtils.HistoryDeleted _ _ t _ => t
  | RawMaterialQueryUtils.HistoryValue _ _ t _ => t
  | RawMaterialQueryUtils.KeyRecord _ _ _ => None
  end.

(** Two runs of [getAllResults] that end alike: the iterator is left in the
    same state, and both return, with as many results, or both throw, the
    same error. *)
Definition same_outcome {A B} (x : result (list A) * Iterator)
    (y : result (list B) * Iterator) : Prop :=
  x.2 = y.2 ∧
  match x.1, y.1 with
  | Ok a, Ok b => length a = length b
  | Throw e, Throw e' => e = e'
  | _, _ => False
  end.

(** A history entry of the examples, with its payload. *)
Definition sample_entry (text : string) (done : bool) : IteratorResult :=
  {| res_value := Some {| kv_key := "org.vaccine.rawmaterial:Acme:RM-1";
                          kv_value := Some text; kv_txId := "tx1";
                          kv_timestamp := Some {| seconds_low := 1617350400;
                                                  nanos := 1999999 |};
                          kv_is_delete := false |};
     res_done := done |}.

(** A document that a create transaction of namespace [ns] stored. *)
Definition created_by (VaccineBatch Shipment : AssetModule) (ns : string) (doc : props)
  : Prop :=
  ∃ ctx t σ o σ',
    is_create t = true ∧ (target t).1 = ns
    ∧ submit VaccineBatch Shipment ctx t σ = (Ok o, σ')
    ∧ σ' !! target t = Some doc.

(** A document [doc'] that a transaction of namespace [ns] stored in place
    of [doc], on a well-formed ledger. *)
Definition changed_by (VaccineBatch Shipment : AssetModule) (ns : string) (doc doc' : props)
  : Prop :=
  ∃ ctx t σ o σ',
    well_formed σ ∧ is_create t = false ∧ (target t).1 = ns
    ∧ σ !! target t = Some doc
    ∧ submit VaccineBatch Shipment ctx t σ = (Ok o, σ')
    ∧ σ' !! target t = Some doc'.

(** The properties of a raw material record. *)
Definition material_schema : list string :=
  ["class"; "key"; "materialName"; "batchNumber"; "quantity"; "manufacturer";
   "manufactureDate"; "purchaser"; "purchaseDate"; "price"; "dateMixedIn"; "mspid"].

(** What holds of every raw material record. *)
Definition material_invariant (doc : props) : Prop :=
  (∃ manufacturer batchNumber,
     get doc "manufacturer" = VStr manufacturer
     ∧ get doc "batchNumber" = VStr batchNumber
     ∧ get doc "key" = VStr (State.makeKey [VStr manufacturer; VStr batchNumber]))
  ∧ (∀ field, field ∉ material_schema → doc !! field = None)
  ∧ not_nullish (get doc "purchaseDate") = not_nullish (get doc "purchaser")
  ∧ not_nullish (get doc "price") = not_nullish (get doc "purchaser")
  ∧ not_nullish (get doc "mspid") = true.

(** The properties of a vaccine batch record, of either class. *)
Definition batch_schema : list string :=
  ["class"; "key"; "vaccineName"; "batchNumber"; "quantity"; "manufacturer";
   "manufactureDate"; "purchaser"; "purchaseDate"; "price"; "currentState"; "approver";
   "shippingProvider"; "shipmentUUID"; "temperature"; "timestamp"; "entityAllocated";
   "ready"; "rawMaterialBatchSet"; "mspid"].

(** What holds of every vaccine batch record. *)
Definition batch_invariant (doc : props) : Prop :=
  (∃ batchNumber manufacturer,
     get doc "batchNumber" = VStr batchNumber
     ∧ get doc "manufacturer" = VStr manufacturer
     ∧ get doc "key" = VStr (State.makeKey [VStr batchNumber; VStr manufacturer]))
  ∧ (∀ field, field ∉ batch_schema → doc !! field = None)
  ∧ (get doc "currentState" = VaccineBatch.WAREHOUSED
     ∨ get doc "currentState" = VaccineBatch.SHIPPED
     ∨ get doc "currentState" = VaccineBatch.ARRIVED)
  ∧ (get doc "rawMaterialBatchSet" = VEmptyObject ∨ get doc "rawMaterialBatchSet" = VUndefined)
  ∧ get doc "temperature" = VNull
  ∧ get doc "approver" = VNull
  ∧ get doc "entityAllocated" = VNull
  ∧ not_nullish (get doc "mspid") = true.

(** The properties of a shipment record of the manufacturer's class. *)
Definition shipment_schema : list string :=
  ["class"; "key"; "shipmentUUID"; "shipmentProvider"; "source"; "destination";
   "vehicleUUID"; "vehicleOperator"; "currentLocation"; "currentTemp"; "timestamp";
   "shipDateTime"; "arrivalDateTime"; "mspid"; "currentState"].

(** What holds of every shipment record of the manufacturer's class. *)
Definition shipment_invariant (doc : props) : Prop :=
  (∃ shipmentUUID,
     get doc "shipmentUUID" = VStr shipmentUUID
     ∧ get doc "key" = VStr (State.makeKey [VStr shipmentUUID]))
  ∧ (∀ field, field ∉ shipment_schema → doc !! field = None)
  ∧ get doc "mspid" = VNull
  ∧ (get doc "currentState" = VUndefined
     ∧ not_nullish (get doc "shipDateTime") = false
     ∧ not_nullish (get doc "arrivalDateTime") = false
     ∨ get doc "currentState" = ShipmentManufacturer.LEFTSOURCE
       ∧ not_nullish (get doc "shipDateTime") = true
     ∨ get doc "currentState" = ShipmentManufacturer.ARRIVEDDEST
       ∧ not_nullish (get doc "arrivalDateTime") = true)
  ∧ not_nullish (get doc "vehicleUUID") = not_nullish (get doc "shipDateTime")
  ∧ not_nullish (get doc "vehicleOperator") = not_nullish (get doc "shipDateTime").

(** ** The client application of the raw material contract *)

Module RawMaterialApplication.

(** [contract.submitTransaction(name, ...args)] on the raw material
    contract: the function of that name, on the arguments in order;
    [None] when the contract has no function of that name for as many
    arguments. *)
Definition submitTransaction (name : string) (args : list string) : option transaction :=
  match args with
  | [a; b; c; d; e] =>
      if String.eqb name "createMaterial" then Some (CreateMaterial a b c d e)
      else if String.eqb name "purchaseMaterial" then Some (PurchaseMaterial a b c d e)
      else None
  | [a; b; c] => if String.eqb name "addMaterial" then Some (AddMaterial a b c) else None
  | _ => None
  end.

Definition purchaseRequest (manufacturer batchNumber purchaser price purchaseDateTime : string)
  : option transaction :=
  submitTransaction "purchaseMaterial"
    [manufacturer; batchNumber; purchaser; price; purchaseDateTime].

Definition createRequest (manufacturer batchNumber quantity materialName manufactureDate
    : string) : option transaction :=
  submitTransaction "createMaterial"
    [materialName; batchNumber; quantity; manufacturer; manufactureDate].

Definition addRequest (manufacturer batchNumber dateTimeAdded : string) : option transaction :=
  submitTransaction "addMaterial" [manufacturer; batchNumber; dateTimeAdded].

End RawMaterialApplication.

(** The requests of a client, each with the identity that submits it; a
    request that names no transaction of the contract is not run. *)
Definition run_requests (VaccineBatch Shipment : AssetModule)
    (requests : list (Context * option transaction)) (σ : ledger) : ledger :=
  execute VaccineBatch Shipment
    (omap (fun r => match r.2 with Some t => Some (r.1, t) | None => None end) requests) σ.

(** * Properties *)

(** ** Running a transaction step by step *)

Lemma bind_Ok {A B} (m : M A) (k : A → M B) (σ σ' : ledger) (a : A) :
  m σ = (Ok a, σ') → (m ≫= k) σ = k a σ'.
Proof. intros H. unfold mbind, M_bind, bind. by rewrite H. Qed.

Lemma bind_Throw {A B} (m : M A) (k : A → M B) (σ σ' : ledger) (e : error) :
  m σ = (Throw e, σ') → (m ≫= k) σ = (Throw e, σ').
Proof. intros H. unfold mbind, M_bind, bind. by rewrite H. Qed.

Lemma mret_bind {A B} (a : A) (k : A → M B) (σ : ledger) : (mret a ≫= k) σ = k a σ.
Proof. reflexivity. Qed.

Lemma bind_call {B} (o : object) (name : string) (args : list value)
    (k : value * object → M B) (σ : ledger) :
  (call o name args ≫= k) σ =
    match lookup_method name (methods_of (proto o)) with
    | Some m =>
        match m args (own o) with
        | Ok (v, this) => k (v, Obj (proto o) this) σ
        | Throw e => (Throw e, σ)
        end
    | None => (Throw (TypeError (name +:+ " is not a function")), σ)
    end.
Proof.
  unfold call, mbind, M_bind, bind.
  destruct (lookup_method _ _) as [m|]; [|done].
  by destruct (m args (own o)) as [[v this]|e].
Qed.

(** One method call at the head of a transaction. *)
Ltac call_step :=
  rewrite bind_call;
  cbn [proto own lookup_method methods_of RawMaterial.methods VaccineBatch.methods
       VaccineBatchAlt.methods Vaccine.methods ShipmentDistributor.methods
       ShipmentManufacturer.methods String.eqb Ascii.eqb Bool.eqb
       asset_class VaccineBatch_js VaccineBatchAlt_js ShipmentDistributor_js
       ShipmentManufacturer_js getter setter assigner tester is_set arg lookup list_lookup default from_option id].

Lemma getState_stored (ns : string) (c : jsclass) (σ : ledger) (key : string) (doc : props) :
  stored ns c σ key doc →
  StateList.getState (StateList.use (StateList.new ns) c) key σ = (Ok (Some (Obj c doc)), σ).
Proof.
  intros (Hat & Hclass & _ & _).
  unfold StateList.getState, StateList.ledgerKey. cbn. rewrite Hat.
  unfold State.deserialize, get. rewrite Hclass. cbn.
  by rewrite String.eqb_refl.
Qed.

Lemma getState_unchanged (l : StateList.t) (key : string) (σ : ledger) :
  (StateList.getState l key σ).2 = σ.
Proof.
  unfold StateList.getState. destruct (σ !! _) as [data|]; [|done].
  by destruct (State.deserialize _ _).
Qed.

Lemma updateState_stored (ns : string) (c : jsclass) (σ : ledger) (key : string)
    (doc this : props) :
  σ !! (ns, key) = Some doc →
  this !! "key" = Some (VStr key) →
  StateList.updateState (StateList.use (StateList.new ns) c) (Obj c this) σ
  = (Ok (), <[(ns, key) := JSON_stringify this]> σ).
Proof.
  intros Hat Hkey. unfold StateList.updateState, StateList.ledgerKey, get. cbn.
  rewrite Hkey. cbn. by rewrite Hat.
Qed.

Lemma JSON_stringify_insert_str (k s : string) (m : props) :
  JSON_stringify (<[k := VStr s]> m) = <[k := VStr s]> (JSON_stringify m).
Proof. unfold JSON_stringify. by apply omap_insert_Some. Qed.

Lemma JSON_stringify_insert_num (k : string) (n : Z) (m : props) :
  JSON_stringify (<[k := VNum n]> m) = <[k := VNum n]> (JSON_stringify m).
Proof. unfold JSON_stringify. by apply omap_insert_Some. Qed.

(** A stored record that is rewritten with more string properties is
    stored. *)
Lemma stored_insert (ns : string) (c : jsclass) (σ : ledger) (key : string) (doc doc' : props) :
  stored ns c σ key doc →
  doc' !! "class" = doc !! "class" →
  doc' !! "key" = doc !! "key" →
  JSON_stringify doc' = doc' →
  stored ns c (<[(ns, key) := doc']> σ) key doc'.
Proof.
  intros (Hat & Hclass & Hkey & Hjson) Hc Hk Hj.
  split; [by rewrite lookup_insert_eq|].
  split; [by rewrite Hc|]. split; [by rewrite Hk|done].
Qed.

(** ** Creation *)

Example issue_batch_stored :
  ledger_batch VaccineBatch_js !! ("org.vaccine.vaccineBatch", "B1:Pfizer")
  = Some (State.serialize (Obj CVaccineBatch
      (<["mspid" := VStr "Org2MSP"]> (<["currentState" := VaccineBatch.WAREHOUSED]>
         (own batch_created))))).
Proof. reflexivity. Qed.

Lemma createMaterial2_run (ctx : Context)
    (materialName batchNumber quantity manufacturer manufactureDate : string) (σ : ledger) :
  let material := Obj CRawMaterial (<["mspid" := VStr (getMSPID ctx)]>
    (own (RawMaterial.createInstance (VStr materialName) (VStr batchNumber) (VStr quantity)
            (VStr manufacturer) (VStr manufactureDate)))) in
  RawMaterialContract2.createMaterial ctx materialName batchNumber quantity manufacturer
    manufactureDate σ
  = (Ok material,
     <[("org.vaccine.rawmaterial", State.makeKey [VStr manufacturer; VStr batchNumber])
       := State.serialize material]> σ).
Proof. reflexivity. Qed.

Lemma issue_run (VaccineBatch : AssetModule) (ctx : Context)
    (vaccineName batchNumber quantity manufacturer manufactureDate : string) (σ : ledger) :
  VaccineBatch = VaccineBatch_js ∨ VaccineBatch = VaccineBatchAlt_js →
  let batch := Obj (asset_class VaccineBatch) (<["mspid" := VStr (getMSPID ctx)]>
    (<["currentState" := VNum 4]>
      (own (asset_createInstance VaccineBatch
         [VStr vaccineName; VStr batchNumber; VStr quantity; VStr manufacturer;
          VStr manufactureDate])))) in
  VaccineBatchContract.issue VaccineBatch ctx vaccineName batchNumber quantity manufacturer
    manufactureDate σ
  = (Ok batch,
     <[("org.vaccine.vaccineBatch", State.makeKey [VStr batchNumber; VStr manufacturer])
       := State.serialize batch]> σ).
Proof. intros [-> | ->]; reflexivity. Qed.

Lemma orderShipment_run (Shipment : AssetModule) (ctx : Context)
    (shipmentUUID shipmentProvider source destination : string) (σ : ledger) :
  Shipment = ShipmentDistributor_js ∨ Shipment = ShipmentManufacturer_js →
  let shipment := asset_createInstance Shipment
    [VStr shipmentUUID; VStr shipmentProvider; VStr source; VStr destination] in
  ShipmentContract.orderShipment Shipment ctx shipmentUUID shipmentProvider source
    destination σ
  = (Ok shipment,
     <[("org.vaccine.shipment", State.makeKey [VStr shipmentUUID])
       := State.serialize shipment]> σ).
Proof. intros [-> | ->]; reflexivity. Qed.

(** C1, at the failing input: [issue] of the vaccine batch contract hands
    the new batch to the list without looking the key up.  With a list
    that writes what it is given, a second [issue] for the batch number and
    manufacturer of a stored batch returns the new batch and the stored
    record is replaced by it: the create operation does not reject the
    existing key. *)
Theorem C1_issue_does_not_reject :
  let σ := ledger_batch VaccineBatch_js in
  let k := ("org.vaccine.vaccineBatch", "B1:Pfizer") in
  let issue_again :=
    VaccineBatchContract.issue VaccineBatch_js Org1 "Other" "B1" "5" "Pfizer" "2021-05-05" in
  is_Some (σ !! k)
  ∧ (∃ batch σ',
       issue_again σ = (Ok batch, σ')
       ∧ get (record_at σ k) "vaccineName" = VStr "Covax"
       ∧ get (record_at σ' k) "vaccineName" = VStr "Other"
       ∧ get (record_at σ' k) "mspid" = VStr "Org1MSP")
  ∧ ¬ rejects_existing_key issue_again k.
Proof.
  intros σ k issue_again.
  split; [by eexists|].
  split.
  - unfold issue_again. rewrite issue_run by (by left).
    eexists _, _. split; [reflexivity|]. by repeat split.
  - intros H. destruct (H σ) as [e He].
    + by eexists.
    + unfold issue_again in He. rewrite issue_run in He by (by left). discriminate He.
Qed.

(** ** The vaccine dose *)

(** C7: [issue] of the vaccine contract calls [setIssueDateTime], which the
    [Vaccine] class does not define: every call throws before anything is
    stored. *)
Theorem C7_issue_throws (ctx : Context)
    (vaccineUUID batchNum manufacturer issuer recipient expirationDateTime
     issueDateTime : string) (σ : ledger) :
  VaccineContract.issue ctx vaccineUUID batchNum manufacturer issuer recipient
    expirationDateTime issueDateTime σ
  = (Throw (TypeError "setIssueDateTime is not a function"), σ).
Proof. reflexivity. Qed.

Example Vaccine_has_no_setIssueDateTime :
  lookup_method "setIssueDateTime" Vaccine.methods = None
  ∧ is_Some (lookup_method "setIssuer" Vaccine.methods)
  ∧ is_Some (lookup_method "setRecipient" Vaccine.methods).
Proof. by repeat split. Qed.

(** ** Raw materials *)

Lemma getRawMaterial_after_create (ctx : Context)
    (materialName batchNumber quantity manufacturer manufactureDate : string) (σ : ledger) :
  let key := RawMaterial.makeKey [VStr manufacturer; VStr batchNumber] in
  let material := Obj CRawMaterial (<["mspid" := VStr (getMSPID ctx)]>
    (own (RawMaterial.createInstance (VStr materialName) (VStr batchNumber) (VStr quantity)
            (VStr manufacturer) (VStr manufactureDate)))) in
  let σ' := <[("org.vaccine.rawmaterial", key) := State.serialize material]> σ in
  RawMaterialList.getRawMaterial key σ' = (Ok (Some material), σ').
Proof.
  intros key material σ'.
  unfold RawMaterialList.getRawMaterial, StateList.getState, StateList.ledgerKey.
  cbn [StateList.name RawMaterialList.list StateList.use StateList.new].
  unfold σ'. rewrite lookup_insert_eq. reflexivity.
Qed.

Lemma created_material_fields (ctx : Context)
    (materialName batchNumber quantity manufacturer manufactureDate : string) :
  is_created_material
    (Obj CRawMaterial (<["mspid" := VStr (getMSPID ctx)]>
       (own (RawMaterial.createInstance (VStr materialName) (VStr batchNumber)
               (VStr quantity) (VStr manufacturer) (VStr manufactureDate)))))
    materialName batchNumber quantity manufacturer manufactureDate.
Proof. repeat split. Qed.

(** C5: for all (materialName, batchNumber, quantity, manufacturer,
    manufactureDate) and on every ledger, [createMaterial] followed by a
    fetch under the key (manufacturer, batchNumber) returns a RawMaterial
    with purchaser, purchaseDate, price and dateMixedIn [null] and the five
    supplied fields as supplied. *)
Theorem C5_create_then_fetch (ctx : Context)
    (materialName batchNumber quantity manufacturer manufactureDate : string) (σ : ledger) :
  let key := RawMaterial.makeKey [VStr manufacturer; VStr batchNumber] in
  let P r := is_created_material r materialName batchNumber quantity manufacturer
               manufactureDate in
  create_then_fetch
    (RawMaterialContract2.createMaterial ctx materialName batchNumber quantity manufacturer
       manufactureDate) key P σ.
Proof.
  intros key P. eexists _, _, _. split; [apply createMaterial2_run|].
  split; [apply getRawMaterial_after_create|apply created_material_fields].
Qed.

Lemma C5_create_then_fetch_witness :
  create_then_fetch
    (RawMaterialContract2.createMaterial Org1 "lipid" "RM-1" "40" "Acme" "2021-03-01")
    "Acme:RM-1"
    (fun r => is_created_material r "lipid" "RM-1" "40" "Acme" "2021-03-01") ledger_purchased.
Proof.
  exact (C5_create_then_fetch Org1 "lipid" "RM-1" "40" "Acme" "2021-03-01" ledger_purchased).
Defined.

(** Reading a property through a stack of assignments of other or the same
    property. *)
Ltac read_field :=
  unfold get;
  repeat first
    [ rewrite lookup_insert_eq
    | rewrite lookup_insert_ne by (let H := fresh in intros H; discriminate H) ].

(** A document that is rewritten with string properties stays a JSON
    document. *)
Ltac json_doc H :=
  repeat first [ rewrite JSON_stringify_insert_str | rewrite JSON_stringify_insert_num ];
  rewrite H.

Lemma purchaseMaterial2_guard (ctx : Context)
    (manufacturer batchNumber purchaser price purchaseDateTime : string)
    (σ : ledger) (doc : props) :
  let key := RawMaterial.makeKey [VStr manufacturer; VStr batchNumber] in
  stored "org.vaccine.rawmaterial" CRawMaterial σ key doc →
  not_nullish (get doc "purchaser") = true →
  ∃ msg,
    RawMaterialContract2.purchaseMaterial ctx manufacturer batchNumber purchaser price
      purchaseDateTime σ = (Throw (Error msg), σ).
Proof.
  intros key Hst Hp. eexists.
  unfold RawMaterialContract2.purchaseMaterial, RawMaterialList.getRawMaterial,
    RawMaterialList.list.
  rewrite (bind_Ok _ _ _ _ _ (getState_stored _ _ _ _ _ Hst)).
  cbn [deref]. rewrite mret_bind.
  call_step. rewrite Hp. call_step. reflexivity.
Qed.

Lemma purchaseMaterial2_success (ctx : Context)
    (manufacturer batchNumber purchaser price purchaseDateTime : string)
    (σ : ledger) (doc : props) :
  let key := RawMaterial.makeKey [VStr manufacturer; VStr batchNumber] in
  let doc' := <["mspid" := VStr (getMSPID ctx)]> (<["price" := VStr price]>
      (<["purchaseDate" := VStr purchaseDateTime]> (<["purchaser" := VStr purchaser]> doc))) in
  stored "org.vaccine.rawmaterial" CRawMaterial σ key doc →
  not_nullish (get doc "purchaser") = false →
  RawMaterialContract2.purchaseMaterial ctx manufacturer batchNumber purchaser price
    purchaseDateTime σ
  = (Ok (Obj CRawMaterial doc'), <[("org.vaccine.rawmaterial", key) := doc']> σ).
Proof.
  intros key doc' Hst Hp.
  unfold RawMaterialContract2.purchaseMaterial, RawMaterialList.getRawMaterial,
    RawMaterialList.list.
  rewrite (bind_Ok _ _ _ _ _ (getState_stored _ _ _ _ _ Hst)).
  cbn [deref]. rewrite mret_bind.
  call_step. rewrite Hp. do 4 call_step.
  unfold RawMaterialList.updateRawMaterial, RawMaterialList.list.
  destruct Hst as (Hat & Hclass & Hkey & Hjson).
  erewrite bind_Ok; last first.
  { eapply updateState_stored; [exact Hat|]. by read_field. }
  json_doc Hjson. reflexivity.
Qed.

(** On a stored raw material (which has no property [length]) the first
    contract purchases as the second does. *)
Lemma purchaseMaterial_as_second (StringToNumber : string → option Z) (ctx : Context)
    (manufacturer batchNumber purchaser price purchaseDateTime : string)
    (σ : ledger) (doc : props) :
  let key := RawMaterial.makeKey [VStr manufacturer; VStr batchNumber] in
  stored "org.vaccine.rawmaterial" CRawMaterial σ key doc →
  doc !! "length" = None →
  RawMaterialContract.purchaseMaterial StringToNumber ctx manufacturer batchNumber purchaser
    price purchaseDateTime σ
  = RawMaterialContract2.purchaseMaterial ctx manufacturer batchNumber purchaser price
      purchaseDateTime σ.
Proof.
  intros key Hst Hlen.
  unfold RawMaterialContract.purchaseMaterial, RawMaterialContract2.purchaseMaterial,
    RawMaterialList.getRawMaterial, RawMaterialList.list.
  rewrite !(bind_Ok _ _ _ _ _ (getState_stored _ _ _ _ _ Hst)).
  cbn [RawMaterialContract.missing_or_empty own]. unfold get. rewrite Hlen.
  reflexivity.
Qed.

Lemma purchased_doc_stored (ctx : Context) (purchaser price purchaseDateTime : string)
    (σ : ledger) (key : string) (doc : props) :
  let doc' := <["mspid" := VStr (getMSPID ctx)]> (<["price" := VStr price]>
      (<["purchaseDate" := VStr purchaseDateTime]> (<["purchaser" := VStr purchaser]> doc))) in
  stored "org.vaccine.rawmaterial" CRawMaterial σ key doc →
  stored "org.vaccine.rawmaterial" CRawMaterial
    (<[("org.vaccine.rawmaterial", key) := doc']> σ) key doc'.
Proof.
  intros doc' Hst. apply (stored_insert _ _ _ _ _ _ Hst); unfold doc'.
  - by read_field.
  - by read_field.
  - destruct Hst as (_ & _ & _ & Hjson). by json_doc Hjson.
Qed.

(** C2: on a stored raw material whose purchaser is not [null],
    [purchaseMaterial] fails and the ledger -- so the purchaser, purchase
    date and price of the record -- is as before; when the purchaser is
    [null] it succeeds and sets purchaser, purchaseDate and price, after
    which any further purchase of the record fails and changes nothing.
    Both raw material contracts. *)
Theorem C2_purchaseMaterial (StringToNumber : string → option Z) (ctx ctx' : Context)
    (manufacturer batchNumber purchaser price purchaseDateTime : string)
    (purchaser' price' purchaseDateTime' : string) (σ : ledger) (doc : props) :
  let key := RawMaterial.makeKey [VStr manufacturer; VStr batchNumber] in
  let k := ("org.vaccine.rawmaterial", key) in
  let purchase1 c p pr d :=
    RawMaterialContract.purchaseMaterial StringToNumber c manufacturer batchNumber p pr d in
  let purchase2 c p pr d :=
    RawMaterialContract2.purchaseMaterial c manufacturer batchNumber p pr d in
  stored "org.vaccine.rawmaterial" CRawMaterial σ key doc →
  doc !! "length" = None →
  (not_nullish (get doc "purchaser") = true →
     (∃ msg, purchase1 ctx purchaser price purchaseDateTime σ = (Throw (Error msg), σ))
     ∧ (∃ msg, purchase2 ctx purchaser price purchaseDateTime σ = (Throw (Error msg), σ)))
  ∧ (not_nullish (get doc "purchaser") = false →
     let doc' := <["mspid" := VStr (getMSPID ctx)]> (<["price" := VStr price]>
       (<["purchaseDate" := VStr purchaseDateTime]> (<["purchaser" := VStr purchaser]> doc))) in
     let σ' := <[k := doc']> σ in
     purchase1 ctx purchaser price purchaseDateTime σ = (Ok (Obj CRawMaterial doc'), σ')
     ∧ purchase2 ctx purchaser price purchaseDateTime σ = (Ok (Obj CRawMaterial doc'), σ')
     ∧ get doc' "purchaser" = VStr purchaser
     ∧ get doc' "purchaseDate" = VStr purchaseDateTime
     ∧ get doc' "price" = VStr price
     ∧ (∃ msg, purchase1 ctx' purchaser' price' purchaseDateTime' σ' = (Throw (Error msg), σ'))
     ∧ (∃ msg, purchase2 ctx' purchaser' price' purchaseDateTime' σ' = (Throw (Error msg), σ'))).
Proof.
  intros key k purchase1 purchase2 Hst Hlen. split.
  - intros Hp. unfold purchase1. rewrite (purchaseMaterial_as_second _ _ _ _ _ _ _ _ _ Hst Hlen).
    split; by eapply purchaseMaterial2_guard.
  - intros Hp doc' σ'.
    assert (Hst' : stored "org.vaccine.rawmaterial" CRawMaterial σ' key doc')
      by by apply purchased_doc_stored.
    assert (Hlen' : doc' !! "length" = None) by (unfold doc'; by read_field).
    assert (Hp' : not_nullish (get doc' "purchaser") = true) by (unfold doc'; by read_field).
    unfold purchase1.
    rewrite (purchaseMaterial_as_second _ _ _ _ _ _ _ _ _ Hst Hlen).
    rewrite (purchaseMaterial_as_second _ _ _ _ _ _ _ _ _ Hst' Hlen').
    split; [by apply purchaseMaterial2_success|].
    split; [by apply purchaseMaterial2_success|].
    split; [unfold doc'; by read_field|].
    split; [unfold doc'; by read_field|].
    split; [unfold doc'; by read_field|].
    split; by eapply purchaseMaterial2_guard.
Qed.

Lemma C2_purchaseMaterial_witness :
  (∃ msg,
     RawMaterialContract.purchaseMaterial (fun _ => None) Org1 "Acme" "RM-1" "Moderna" "1"
       "2021-03-09" ledger_purchased = (Throw (Error msg), ledger_purchased))
  ∧ (∃ doc',
       RawMaterialContract.purchaseMaterial (fun _ => None) Org2 "Acme" "RM-1" "Pfizer" "900"
         "2021-03-05" ledger_material
       = (Ok (Obj CRawMaterial doc'),
          <[("org.vaccine.rawmaterial", "Acme:RM-1") := doc']> ledger_material)
       ∧ get doc' "purchaser" = VStr "Pfizer").
Proof.
  split.
  - refine (proj1 (proj1 (C2_purchaseMaterial (fun _ => None) Org1 Org1
      "Acme" "RM-1" "Moderna" "1" "2021-03-09" "" "" "" ledger_purchased
      (record_at ledger_purchased ("org.vaccine.rawmaterial", "Acme:RM-1")) _ _) _)).
    + repeat split; reflexivity.
    + reflexivity.
    + reflexivity.
  - eexists. refine ((fun H => conj (proj1 H) (proj1 (proj2 (proj2 H))))
      (proj2 (C2_purchaseMaterial (fun _ => None) Org2 Org1
        "Acme" "RM-1" "Pfizer" "900" "2021-03-05" "" "" "" ledger_material
        (record_at ledger_material ("org.vaccine.rawmaterial", "Acme:RM-1")) _ _) _)).
    + repeat split; reflexivity.
    + reflexivity.
    + reflexivity.
Defined.

(** ** Shipments *)

Lemma getState_proto (ns : string) (c : jsclass) (key : string) (σ σ' : ledger) (o : object) :
  StateList.getState (StateList.use (StateList.new ns) c) key σ = (Ok (Some o), σ') →
  proto o = c.
Proof.
  unfold StateList.getState. destruct (σ !! _) as [data|]; [|discriminate].
  unfold State.deserialize. cbn [StateList.supportedClasses StateList.use StateList.new find fst].
  destruct (String.eqb _ _); [|discriminate].
  intros H. injection H as <- _. reflexivity.
Qed.

(** With the [Shipment] class of the distributor, [shipShipment] and
    [shipmentArrival] never succeed, on any ledger and for any arguments:
    the class has [getShipDate] and [getArrivalDate], not the
    [getShipDateTime] and [getArrivalDateTime] the contract calls. *)
Lemma distributor_ship_and_arrival_never_succeed (ctx : Context)
    (shipmentUUID vehicleUUID source timestamp vehicleOperator currentTemp : string)
    (σ : ledger) :
  (∃ e, ShipmentContract.shipShipment ShipmentDistributor_js ctx shipmentUUID vehicleUUID
          source timestamp vehicleOperator currentTemp σ = (Throw e, σ))
  ∧ (∃ e, ShipmentContract.shipmentArrival ShipmentDistributor_js ctx shipmentUUID
            timestamp σ = (Throw e, σ)).
Proof.
  unfold ShipmentContract.shipShipment, ShipmentContract.shipmentArrival,
    ShipmentList.getShipment, ShipmentList.list.
  cbn [asset_class ShipmentDistributor_js].
  pose proof (getState_unchanged
    (StateList.use (StateList.new "org.vaccine.shipment") CShipmentDistributor)
    (State.makeKey [VStr shipmentUUID]) σ) as Hσ.
  destruct (StateList.getState _ _ σ) as [[[o|]|e] σ'] eqn:Hget; cbn in Hσ; subst σ'.
  - apply getState_proto in Hget as Hproto.
    split; eexists; rewrite (bind_Ok _ _ _ _ _ Hget); cbn [deref]; rewrite mret_bind;
      rewrite bind_call, Hproto; reflexivity.
  - split; eexists; rewrite (bind_Ok _ _ _ _ _ Hget); reflexivity.
  - split; eexists; rewrite (bind_Throw _ _ _ _ _ Hget); reflexivity.
Qed.

(** C3, at the failing input: after [orderShipment] with the classes under
    [distributor/contract/lib], the first [shipShipment] and the first
    [shipmentArrival] throw a [TypeError] and store nothing. *)
Theorem C3_distributor_shipment_cannot_ship :
  let σ := ledger_shipment ShipmentDistributor_js in
  ShipmentContract.shipShipment ShipmentDistributor_js Org3 "S1" "V7" "Philadelphia"
    "2021-04-02 08:00" "Ann" "-70" σ
  = (Throw (TypeError "getShipDateTime is not a function"), σ)
  ∧ ShipmentContract.shipmentArrival ShipmentDistributor_js Org3 "S1" "2021-04-03 09:00" σ
    = (Throw (TypeError "getArrivalDateTime is not a function"), σ)
  ∧ get (record_at σ ("org.vaccine.shipment", "S1")) "currentState" = VUndefined.
Proof. repeat split. Qed.

(** The life of a shipment with the [Shipment] class of the manufacturer,
    whose method names are the ones the contract calls: ordered with both
    dates [null], shipped once, arrived once. *)
Example manufacturer_shipment_lifecycle :
  let k := ("org.vaccine.shipment", "S1") in
  let order := ShipmentContract.orderShipment ShipmentManufacturer_js Org3 "S1" "DHL"
                 "Philadelphia" "Boston" in
  let ship := ShipmentContract.shipShipment ShipmentManufacturer_js Org3 "S1" "V7"
                "Philadelphia" "2021-04-02 08:00" "Ann" "-70" in
  let arrive := ShipmentContract.shipmentArrival ShipmentManufacturer_js Org3 "S1"
                  "2021-04-03 09:00" in
  let σ1 := (order ∅).2 in
  let σ2 := (ship σ1).2 in
  let σ3 := (arrive σ2).2 in
  get (record_at σ1 k) "shipDateTime" = VNull
  ∧ get (record_at σ1 k) "arrivalDateTime" = VNull
  ∧ get (record_at σ2 k) "shipDateTime" = VStr "2021-04-02 08:00"
  ∧ get (record_at σ2 k) "currentState" = ShipmentManufacturer.LEFTSOURCE
  ∧ (ship σ2).1 = Throw (Error (nl +:+ "Shipment S1 has already been shipped."))
  ∧ (ship σ2).2 = σ2
  ∧ get (record_at σ3 k) "arrivalDateTime" = VStr "2021-04-03 09:00"
  ∧ get (record_at σ3 k) "currentState" = ShipmentManufacturer.ARRIVEDDEST
  ∧ (arrive σ3).1 = Throw (Error (nl +:+ "Shipment S1 has already arrived."))
  ∧ (arrive σ3).2 = σ3.
Proof. repeat split. Qed.

(** ** Serialization *)

(** An object all of whose properties are JSON values is read back as it
    was written. *)
Lemma fromBuffer_toBuffer (x : object) :
  JSON_stringify (own x) = own x →
  State.deserializeClass (State.serialize x) (proto x) = x.
Proof.
  intros H. unfold State.deserializeClass, State.serialize. rewrite H. by destruct x.
Qed.

(** The records as created, apart from the batch with its [Set], are read
    back as they were written. *)
Lemma created_records_round_trip (a b c d e : string) :
  (let x := RawMaterial.createInstance (VStr a) (VStr b) (VStr c) (VStr d) (VStr e) in
   RawMaterial.fromBuffer (RawMaterial.toBuffer x) = x)
  ∧ (let x := Vaccine.createInstance (VStr a) (VStr b) (VStr c) (VStr d) in
     Vaccine.fromBuffer (Vaccine.toBuffer x) = x)
  ∧ (let x := ShipmentDistributor.createInstance (VStr a) (VStr b) (VStr c) (VStr d) in
     ShipmentDistributor.fromBuffer (ShipmentDistributor.toBuffer x) = x)
  ∧ (let x := ShipmentManufacturer.createInstance (VStr a) (VStr b) (VStr c) (VStr d) in
     ShipmentManufacturer.fromBuffer (ShipmentManufacturer.toBuffer x) = x).
Proof. repeat split. Qed.

(** Whatever object a constructor is given, the fields it initializes are
    as for a new record. *)
Lemma constructors_initialize (obj : props) :
  get (RawMaterial.constructor obj) "purchaser" = VNull
  ∧ get (RawMaterial.constructor obj) "dateMixedIn" = VNull
  ∧ get (VaccineBatch.constructor obj) "currentState" = VNull
  ∧ get (VaccineBatch.constructor obj) "purchaser" = get obj "manufacturer"
  ∧ get (VaccineBatchAlt.constructor obj) "currentState" = VNull
  ∧ get (ShipmentManufacturer.constructor obj) "shipDateTime" = VNull
  ∧ get (ShipmentManufacturer.constructor obj) "arrivalDateTime" = VNull.
Proof.
  unfold RawMaterial.constructor, VaccineBatch.constructor, VaccineBatchAlt.constructor,
    ShipmentManufacturer.constructor.
  cbv zeta. repeat split; by read_field.
Qed.

(** Two batches that differ in their raw materials are written as the same
    buffer, so no way of reading buffers can give both back. *)
Lemma batches_share_a_buffer (decode : props → object) :
  VaccineBatch.toBuffer batch_with_material = VaccineBatch.toBuffer batch_created
  ∧ batch_with_material ≠ batch_created
  ∧ ¬ (decode (VaccineBatch.toBuffer batch_with_material) = batch_with_material
       ∧ decode (VaccineBatch.toBuffer batch_created) = batch_created).
Proof.
  assert (Hne : batch_with_material ≠ batch_created).
  { intros H. apply (f_equal (fun o => get (own o) "rawMaterialBatchSet")) in H.
    vm_compute in H. discriminate H. }
  split; [reflexivity|]. split; [exact Hne|].
  intros [H1 H0]. apply Hne. rewrite <- H1, <- H0. reflexivity.
Qed.

(** C4, at the failing input: a vaccine batch to which a raw material was
    added is not what [fromBuffer] returns for its [toBuffer]: the [Set] is
    written as an empty object and read back as one. *)
Theorem C4_batch_set_not_restored :
  get (own batch_with_material) "rawMaterialBatchSet" = VSet [VStr "RM-1"]
  ∧ get (VaccineBatch.toBuffer batch_with_material) "rawMaterialBatchSet" = VEmptyObject
  ∧ get (own (VaccineBatch.fromBuffer (VaccineBatch.toBuffer batch_with_material)))
      "rawMaterialBatchSet" = VEmptyObject
  ∧ VaccineBatch.fromBuffer (VaccineBatch.toBuffer batch_with_material)
    ≠ batch_with_material.
Proof.
  repeat split.
  intros H. apply (f_equal (fun o => get (own o) "rawMaterialBatchSet")) in H.
  vm_compute in H. discriminate H.
Qed.

(** ** Vaccine batches *)

Lemma strict_eq_VStr (v : value) (s : string) : strict_eq v (VStr s) = true ↔ v = VStr s.
Proof.
  destruct v; cbn; try (split; [discriminate|discriminate]).
  rewrite bool_decide_eq_true. split; [by intros -> | by intros [= ->]].
Qed.

Lemma buy_guard (VaccineBatch : AssetModule) (ctx : Context)
    (batchNumber manufacturer currentOwner newOwner price purchaseDateTime : string)
    (σ : ledger) (doc : props) :
  VaccineBatch = VaccineBatch_js ∨ VaccineBatch = VaccineBatchAlt_js →
  stored "org.vaccine.vaccineBatch" (asset_class VaccineBatch) σ
    (State.makeKey [VStr batchNumber; VStr manufacturer]) doc →
  get doc "purchaser" ≠ VStr currentOwner →
  VaccineBatchContract.buy VaccineBatch ctx batchNumber manufacturer currentOwner newOwner
    price purchaseDateTime σ
  = (Throw (ReferenceError "issuer is not defined"), σ).
Proof.
  intros HVB Hst Hp.
  assert (Hneq : strict_eq (get doc "purchaser") (VStr currentOwner) = false).
  { destruct (strict_eq _ _) eqn:E; [|done]. by apply strict_eq_VStr in E. }
  unfold VaccineBatchContract.buy, VaccineBatchList.getVaccineBatch, VaccineBatchList.list.
  rewrite (bind_Ok _ _ _ _ _ (getState_stored _ _ _ _ _ Hst)).
  cbn [deref]. rewrite mret_bind.
  destruct HVB as [-> | ->]; call_step; by rewrite Hneq.
Qed.

Lemma buy_success (VaccineBatch : AssetModule) (ctx : Context)
    (batchNumber manufacturer currentOwner newOwner price purchaseDateTime : string)
    (σ : ledger) (doc : props) :
  let key := State.makeKey [VStr batchNumber; VStr manufacturer] in
  let doc' := <["price" := VStr price]> (<["purchaseDate" := VStr purchaseDateTime]>
                (<["purchaser" := VStr newOwner]> doc)) in
  VaccineBatch = VaccineBatch_js ∨ VaccineBatch = VaccineBatchAlt_js →
  stored "org.vaccine.vaccineBatch" (asset_class VaccineBatch) σ key doc →
  get doc "purchaser" = VStr currentOwner →
  VaccineBatchContract.buy VaccineBatch ctx batchNumber manufacturer currentOwner newOwner
    price purchaseDateTime σ
  = (Ok (Obj (asset_class VaccineBatch) doc'), <[("org.vaccine.vaccineBatch", key) := doc']> σ).
Proof.
  intros key doc' HVB Hst Hp.
  assert (Heq : strict_eq (get doc "purchaser") (VStr currentOwner) = true)
    by by apply strict_eq_VStr.
  unfold VaccineBatchContract.buy, VaccineBatchList.getVaccineBatch,
    VaccineBatchList.updateVaccineBatch, VaccineBatchList.list.
  rewrite (bind_Ok _ _ _ _ _ (getState_stored _ _ _ _ _ Hst)).
  cbn [deref]. rewrite mret_bind.
  destruct Hst as (Hat & Hclass & Hkey & Hjson).
  destruct HVB as [-> | ->]; call_step; rewrite Heq; cbn [negb]; do 3 call_step;
    (erewrite bind_Ok; last first;
      [ eapply updateState_stored; [exact Hat | by read_field] | ]);
    json_doc Hjson; reflexivity.
Qed.

(** C10: on a stored vaccine batch, [buy] fails and leaves the ledger as it
    is when the supplied current owner differs from the purchaser of the
    record; when they are equal it sets purchaser (to the new owner),
    purchaseDate and price, and every other property of the record,
    [currentState] among them, is as before.  Either [VaccineBatch] class. *)
Theorem C10_buy (VaccineBatch : AssetModule) (ctx : Context)
    (batchNumber manufacturer currentOwner newOwner price purchaseDateTime : string)
    (σ : ledger) (doc : props) :
  let key := State.makeKey [VStr batchNumber; VStr manufacturer] in
  let k := ("org.vaccine.vaccineBatch", key) in
  let buy := VaccineBatchContract.buy VaccineBatch ctx batchNumber manufacturer currentOwner
               newOwner price purchaseDateTime in
  VaccineBatch = VaccineBatch_js ∨ VaccineBatch = VaccineBatchAlt_js →
  stored "org.vaccine.vaccineBatch" (asset_class VaccineBatch) σ key doc →
  (get doc "purchaser" ≠ VStr currentOwner → ∃ e, buy σ = (Throw e, σ))
  ∧ (get doc "purchaser" = VStr currentOwner →
     ∃ batch σ',
       buy σ = (Ok batch, σ')
       ∧ σ' !! k = Some (own batch)
       ∧ (∀ k', k' ≠ k → σ' !! k' = σ !! k')
       ∧ get (own batch) "purchaser" = VStr newOwner
       ∧ get (own batch) "purchaseDate" = VStr purchaseDateTime
       ∧ get (own batch) "price" = VStr price
       ∧ get (own batch) "currentState" = get doc "currentState"
       ∧ (∀ field, field ∉ purchase_fields → own batch !! field = doc !! field)).
Proof.
  intros key k buy HVB Hst. split.
  - intros Hp. eexists. by eapply buy_guard.
  - intros Hp. eexists _, _. split; [by eapply buy_success|]. cbn [own].
    split; [by rewrite lookup_insert_eq|].
    split; [by intros k' Hk'; rewrite lookup_insert_ne|].
    split; [by read_field|]. split; [by read_field|]. split; [by read_field|].
    split; [by read_field|].
    intros field Hfield. unfold purchase_fields in Hfield.
    rewrite !lookup_insert_ne; [done|..]; intros <-; apply Hfield; repeat constructor.
Qed.

Lemma C10_buy_witness :
  let σ := ledger_batch VaccineBatch_js in
  (∃ e, VaccineBatchContract.buy VaccineBatch_js Org3 "B1" "Pfizer" "Moderna" "CVS" "10"
          "2021-05-01" σ = (Throw e, σ))
  ∧ (∃ batch σ',
       VaccineBatchContract.buy VaccineBatch_js Org3 "B1" "Pfizer" "Pfizer" "CVS" "10"
         "2021-05-01" σ = (Ok batch, σ')
       ∧ get (own batch) "purchaser" = VStr "CVS"
       ∧ get (own batch) "currentState" = VaccineBatch.WAREHOUSED).
Proof.
  intros σ. split.
  - refine (proj1 (C10_buy VaccineBatch_js Org3 "B1" "Pfizer" "Moderna" "CVS" "10"
      "2021-05-01" σ (record_at σ ("org.vaccine.vaccineBatch", "B1:Pfizer")) _ _) _).
    + by left.
    + repeat split; reflexivity.
    + vm_compute. discriminate.
  - destruct (proj2 (C10_buy VaccineBatch_js Org3 "B1" "Pfizer" "Pfizer" "CVS" "10"
      "2021-05-01" σ (record_at σ ("org.vaccine.vaccineBatch", "B1:Pfizer"))
      (or_introl eq_refl)
      (conj eq_refl (conj eq_refl (conj eq_refl eq_refl)))) eq_refl)
      as (batch & σ' & Hrun & _ & _ & Hp & _ & _ & Hs & _).
    exists batch, σ'. split; [exact Hrun|]. split; [exact Hp|]. exact Hs.
Defined.

(** ** Location and temperature updates *)

Lemma updateLocationTemp_manufacturer (ctx : Context)
    (shipmentUUID timestamp currentLocation currentTemp : string) (σ : ledger) (doc : props) :
  let key := State.makeKey [VStr shipmentUUID] in
  let doc' := <["timestamp" := VStr timestamp]> (<["currentTemp" := VStr currentTemp]>
                (<["currentLocation" := VStr currentLocation]> doc)) in
  stored "org.vaccine.shipment" CShipmentManufacturer σ key doc →
  ShipmentContract.updateLocationTemp ShipmentManufacturer_js ctx shipmentUUID timestamp
    currentLocation currentTemp σ
  = (Ok (Obj CShipmentManufacturer doc'), <[("org.vaccine.shipment", key) := doc']> σ).
Proof.
  intros key doc' Hst.
  unfold ShipmentContract.updateLocationTemp, ShipmentList.getShipment,
    ShipmentList.updateShipment, ShipmentList.list.
  rewrite (bind_Ok _ _ _ _ _ (getState_stored _ _ _ _ _ Hst)).
  cbn [deref]. rewrite mret_bind. do 3 call_step.
  destruct Hst as (Hat & Hclass & Hkey & Hjson).
  erewrite bind_Ok; last first.
  { eapply updateState_stored; [exact Hat | by read_field]. }
  json_doc Hjson. reflexivity.
Qed.

(** With the [Shipment] class of the distributor, which has
    [setTempTimestamp] and no [setTimestamp], the update throws and stores
    nothing. *)
Lemma updateLocationTemp_distributor (ctx : Context)
    (shipmentUUID timestamp currentLocation currentTemp : string) (σ : ledger) :
  ∃ e, ShipmentContract.updateLocationTemp ShipmentDistributor_js ctx shipmentUUID timestamp
         currentLocation currentTemp σ = (Throw e, σ).
Proof.
  unfold ShipmentContract.updateLocationTemp, ShipmentList.getShipment, ShipmentList.list.
  cbn [asset_class ShipmentDistributor_js].
  pose proof (getState_unchanged
    (StateList.use (StateList.new "org.vaccine.shipment") CShipmentDistributor)
    (State.makeKey [VStr shipmentUUID]) σ) as Hσ.
  destruct (StateList.getState _ _ σ) as [[[o|]|e] σ'] eqn:Hget; cbn in Hσ; subst σ'.
  - apply getState_proto in Hget as Hproto. destruct o as [c this]. cbn in Hproto. subst c.
    eexists. rewrite (bind_Ok _ _ _ _ _ Hget). cbn [deref]. rewrite mret_bind.
    do 3 call_step. reflexivity.
  - eexists. rewrite (bind_Ok _ _ _ _ _ Hget). reflexivity.
  - eexists. rewrite (bind_Throw _ _ _ _ _ Hget). reflexivity.
Qed.

Lemma after_updates_cons (Shipment : AssetModule) (ctx : Context) (shipmentUUID : string)
    (timestamp currentLocation currentTemp : string)
    (calls : list (string * string * string)) (σ : ledger) :
  after_updates Shipment ctx shipmentUUID ((timestamp, currentLocation, currentTemp) :: calls) σ
  = after_updates Shipment ctx shipmentUUID calls
      (ShipmentContract.updateLocationTemp Shipment ctx shipmentUUID timestamp
         currentLocation currentTemp σ).2.
Proof. reflexivity. Qed.

Lemma after_updates_distributor (ctx : Context) (shipmentUUID : string)
    (calls : list (string * string * string)) (σ : ledger) :
  after_updates ShipmentDistributor_js ctx shipmentUUID calls σ = σ.
Proof.
  revert σ. induction calls as [|[[timestamp currentLocation] currentTemp] calls IH];
    intros σ; [done|].
  rewrite after_updates_cons.
  destruct (updateLocationTemp_distributor ctx shipmentUUID timestamp currentLocation
              currentTemp σ) as [e ->].
  apply IH.
Qed.

Lemma after_updates_manufacturer (ctx : Context) (shipmentUUID : string)
    (calls : list (string * string * string)) (σ : ledger) (doc : props) :
  let key := State.makeKey [VStr shipmentUUID] in
  let k := ("org.vaccine.shipment", key) in
  stored "org.vaccine.shipment" CShipmentManufacturer σ key doc →
  ∃ doc',
    stored "org.vaccine.shipment" CShipmentManufacturer
      (after_updates ShipmentManufacturer_js ctx shipmentUUID calls σ) key doc'
    ∧ (∀ field, field ∉ location_temp_fields → doc' !! field = doc !! field)
    ∧ (∀ k', k' ≠ k →
         after_updates ShipmentManufacturer_js ctx shipmentUUID calls σ !! k' = σ !! k').
Proof.
  intros key k. revert σ doc.
  induction calls as [|[[timestamp currentLocation] currentTemp] calls IH]; intros σ doc Hst.
  - exists doc. split; [exact Hst|]. by split.
  - rewrite after_updates_cons.
    rewrite (updateLocationTemp_manufacturer ctx shipmentUUID timestamp currentLocation
               currentTemp σ doc Hst). cbn [snd].
    set (doc1 := <["timestamp" := VStr timestamp]> _).
    assert (Hst1 : stored "org.vaccine.shipment" CShipmentManufacturer
                     (<[k := doc1]> σ) key doc1).
    { apply (stored_insert _ _ _ _ _ _ Hst); unfold doc1.
      - by read_field.
      - by read_field.
      - destruct Hst as (_ & _ & _ & Hjson). by json_doc Hjson. }
    destruct (IH _ _ Hst1) as (doc' & Hst' & Hfields & Hkeys).
    exists doc'. split; [exact Hst'|]. split.
    + intros field Hfield. rewrite (Hfields field Hfield). unfold doc1.
      unfold location_temp_fields in Hfield.
      rewrite !lookup_insert_ne; [done|..]; intros <-; apply Hfield; repeat constructor.
    + intros k' Hk'. etrans; [exact (Hkeys k' Hk')|]. by rewrite lookup_insert_ne.
Qed.

(** C9: for an existing shipment, in whatever state, after any number of
    [updateLocationTemp] calls every property of the stored record other
    than currentLocation, currentTemp and timestamp -- currentState,
    shipDateTime and arrivalDateTime among them -- is what it was, and no
    other record is touched; with the [Shipment] class that defines
    [setTimestamp] each call succeeds and stores the three values it was
    given.  Either [Shipment] class. *)
Theorem C9_updateLocationTemp_frame (Shipment : AssetModule) (ctx : Context)
    (shipmentUUID : string) (calls : list (string * string * string))
    (σ : ledger) (doc : props) :
  let key := State.makeKey [VStr shipmentUUID] in
  let k := ("org.vaccine.shipment", key) in
  let σ' := after_updates Shipment ctx shipmentUUID calls σ in
  Shipment = ShipmentDistributor_js ∨ Shipment = ShipmentManufacturer_js →
  stored "org.vaccine.shipment" (asset_class Shipment) σ key doc →
  (∀ field, field ∉ location_temp_fields → record_at σ' k !! field = doc !! field)
  ∧ get (record_at σ' k) "currentState" = get doc "currentState"
  ∧ get (record_at σ' k) "shipDateTime" = get doc "shipDateTime"
  ∧ get (record_at σ' k) "arrivalDateTime" = get doc "arrivalDateTime"
  ∧ (∀ k', k' ≠ k → σ' !! k' = σ !! k')
  ∧ (Shipment = ShipmentManufacturer_js →
     ∀ timestamp currentLocation currentTemp,
       ∃ shipment σ1,
         ShipmentContract.updateLocationTemp Shipment ctx shipmentUUID timestamp
           currentLocation currentTemp σ = (Ok shipment, σ1)
         ∧ get (record_at σ1 k) "currentLocation" = VStr currentLocation
         ∧ get (record_at σ1 k) "currentTemp" = VStr currentTemp
         ∧ get (record_at σ1 k) "timestamp" = VStr timestamp).
Proof.
  intros key k σ' HS Hst.
  assert (Hframe : ∀ field, field ∉ location_temp_fields →
                     record_at σ' k !! field = doc !! field).
  { destruct HS as [-> | ->].
    - unfold σ'. rewrite after_updates_distributor.
      intros field _. unfold record_at, k. by rewrite (proj1 Hst).
    - destruct (after_updates_manufacturer ctx shipmentUUID calls σ doc Hst)
        as (doc' & Hst' & Hfields & _).
      intros field Hfield. unfold record_at, σ', k, key. rewrite (proj1 Hst'). cbn.
      by apply Hfields. }
  split; [exact Hframe|].
  assert (Hin : ∀ f, f ∈ location_temp_fields →
                  f = "currentLocation" ∨ f = "currentTemp" ∨ f = "timestamp").
  { intros f Hf. unfold location_temp_fields in Hf.
    repeat (apply elem_of_cons in Hf as [Hf|Hf]; [by auto|]). by apply elem_of_nil in Hf. }
  split; [unfold get; rewrite Hframe; [done|]; intros [H|[H|H]]%Hin; discriminate H|].
  split; [unfold get; rewrite Hframe; [done|]; intros [H|[H|H]]%Hin; discriminate H|].
  split; [unfold get; rewrite Hframe; [done|]; intros [H|[H|H]]%Hin; discriminate H|].
  split.
  - destruct HS as [-> | ->].
    + unfold σ'. by rewrite after_updates_distributor.
    + by destruct (after_updates_manufacturer ctx shipmentUUID calls σ doc Hst)
        as (doc' & _ & _ & Hkeys).
  - intros -> timestamp currentLocation currentTemp. eexists _, _.
    split; [by apply updateLocationTemp_manufacturer|].
    unfold record_at. rewrite lookup_insert_eq. cbn [default from_option id].
    split; [by read_field|]. split; by read_field.
Qed.

Lemma C9_updateLocationTemp_frame_witness :
  let k := ("org.vaccine.shipment", "S1") in
  let σ' := after_updates ShipmentManufacturer_js Org3 "S1"
              [("2021-04-02 12:00", "Trenton", "-69"); ("2021-04-02 16:00", "New York", "-68")]
              ledger_shipped in
  get (record_at σ' k) "currentState" = ShipmentManufacturer.LEFTSOURCE
  ∧ get (record_at σ' k) "shipDateTime" = VStr "2021-04-02 08:00"
  ∧ get (record_at σ' k) "arrivalDateTime" = VNull.
Proof.
  intros k σ'.
  destruct (C9_updateLocationTemp_frame ShipmentManufacturer_js Org3 "S1"
              [("2021-04-02 12:00", "Trenton", "-69"); ("2021-04-02 16:00", "New York", "-68")]
              ledger_shipped (record_at ledger_shipped k)
              (or_intror eq_refl)
              (conj eq_refl (conj eq_refl (conj eq_refl eq_refl))))
    as (_ & Hstate & Hship & Harrival & _).
  split; [exact Hstate|]. split; [exact Hship|exact Harrival].
Defined.

(** ** The owner MSP *)

Lemma addMaterial2_success (ctx : Context) (manufacturer batchNumber dateTimeAdded : string)
    (σ : ledger) (doc : props) :
  let key := RawMaterial.makeKey [VStr manufacturer; VStr batchNumber] in
  let doc' := <["dateMixedIn" := VStr dateTimeAdded]> doc in
  stored "org.vaccine.rawmaterial" CRawMaterial σ key doc →
  not_nullish (get doc "dateMixedIn") = false →
  RawMaterialContract2.addMaterial ctx manufacturer batchNumber dateTimeAdded σ
  = (Ok (Obj CRawMaterial doc'), <[("org.vaccine.rawmaterial", key) := doc']> σ).
Proof.
  intros key doc' Hst Hd.
  unfold RawMaterialContract2.addMaterial, RawMaterialList.getRawMaterial,
    RawMaterialList.updateRawMaterial, RawMaterialList.list.
  rewrite (bind_Ok _ _ _ _ _ (getState_stored _ _ _ _ _ Hst)).
  cbn [deref]. rewrite mret_bind.
  call_step. rewrite Hd. call_step.
  destruct Hst as (Hat & Hclass & Hkey & Hjson).
  erewrite bind_Ok; last first.
  { eapply updateState_stored; [exact Hat | by read_field]. }
  json_doc Hjson. reflexivity.
Qed.

Lemma ship_success (VaccineBatch : AssetModule) (ctx : Context)
    (batchNumber manufacturer shippingProvider shipmentUUID : string)
    (σ : ledger) (doc : props) :
  let key := State.makeKey [VStr batchNumber; VStr manufacturer] in
  let doc' := <["currentState" := VNum 1]> (<["shipmentUUID" := VStr shipmentUUID]>
                (<["shippingProvider" := VStr shippingProvider]> doc)) in
  VaccineBatch = VaccineBatch_js ∨ VaccineBatch = VaccineBatchAlt_js →
  stored "org.vaccine.vaccineBatch" (asset_class VaccineBatch) σ key doc →
  VaccineBatchContract.ship VaccineBatch ctx batchNumber manufacturer shippingProvider
    shipmentUUID σ
  = (Ok (Obj (asset_class VaccineBatch) doc'), <[("org.vaccine.vaccineBatch", key) := doc']> σ).
Proof.
  intros key doc' HVB Hst.
  unfold VaccineBatchContract.ship, VaccineBatchList.getVaccineBatch,
    VaccineBatchList.updateVaccineBatch, VaccineBatchList.list.
  rewrite (bind_Ok _ _ _ _ _ (getState_stored _ _ _ _ _ Hst)).
  cbn [deref]. rewrite mret_bind.
  destruct Hst as (Hat & Hclass & Hkey & Hjson).
  destruct HVB as [-> | ->]; do 3 call_step;
    (erewrite bind_Ok; last first;
      [ eapply updateState_stored; [exact Hat | by read_field] | ]);
    unfold VaccineBatch.SHIPPED, VaccineBatchAlt.SHIPPED; json_doc Hjson; reflexivity.
Qed.

(** C6, as stated, fails: ordering a shipment stores a record without the
    MSP of the caller, and [addMaterial] by another organization leaves the
    MSP of the creator on the record. *)
Lemma C6_owner_not_recorded :
  (∃ shipment σ',
     ShipmentContract.orderShipment ShipmentDistributor_js Org3 "S1" "DHL" "Philadelphia"
       "Boston" ∅ = (Ok shipment, σ')
     ∧ get (record_at σ' ("org.vaccine.shipment", "S1")) "mspid" = VUndefined
     ∧ get (record_at σ' ("org.vaccine.shipment", "S1")) "mspid" ≠ VStr (getMSPID Org3))
  ∧ (∃ material σ',
       RawMaterialContract2.addMaterial Org2 "Acme" "RM-1" "2021-03-20" ledger_material
       = (Ok material, σ')
       ∧ get (record_at σ' ("org.vaccine.rawmaterial", "Acme:RM-1")) "mspid" = VStr "Org1MSP"
       ∧ get (record_at σ' ("org.vaccine.rawmaterial", "Acme:RM-1")) "mspid"
         ≠ VStr (getMSPID Org2)).
Proof.
  split; eexists _, _; (split; [reflexivity|]); split; [reflexivity|discriminate|
    reflexivity|discriminate].
Qed.

(** C6 (amended): [createMaterial], [purchaseMaterial] and [issue] of the
    vaccine batch contract record the MSP of the invoking organization on
    the record they store; [addMaterial] and [ship] store the record with
    the owner MSP it had, and [orderShipment] stores a record without one
    ([undefined] with the class of the distributor, [null] with the class
    of the manufacturer). *)
Theorem C6_owner_msp (VaccineBatch : AssetModule) (ctx : Context)
    (materialName batchNumber quantity manufacturer manufactureDate : string)
    (purchaser price purchaseDateTime dateTimeAdded : string)
    (vaccineName shippingProvider shipmentUUID shipmentProvider source destination : string)
    (σ : ledger) (material batch : props) :
  let km := ("org.vaccine.rawmaterial", State.makeKey [VStr manufacturer; VStr batchNumber]) in
  let kb := ("org.vaccine.vaccineBatch", State.makeKey [VStr batchNumber; VStr manufacturer]) in
  let ks := ("org.vaccine.shipment", State.makeKey [VStr shipmentUUID]) in
  VaccineBatch = VaccineBatch_js ∨ VaccineBatch = VaccineBatchAlt_js →
  (∃ o σ',
     RawMaterialContract2.createMaterial ctx materialName batchNumber quantity manufacturer
       manufactureDate σ = (Ok o, σ')
     ∧ get (record_at σ' km) "mspid" = VStr (getMSPID ctx))
  ∧ (∃ o σ',
       VaccineBatchContract.issue VaccineBatch ctx vaccineName batchNumber quantity
         manufacturer manufactureDate σ = (Ok o, σ')
       ∧ get (record_at σ' kb) "mspid" = VStr (getMSPID ctx))
  ∧ (stored "org.vaccine.rawmaterial" CRawMaterial σ km.2 material →
     not_nullish (get material "purchaser") = false →
     ∃ o σ',
       RawMaterialContract2.purchaseMaterial ctx manufacturer batchNumber purchaser price
         purchaseDateTime σ = (Ok o, σ')
       ∧ get (record_at σ' km) "mspid" = VStr (getMSPID ctx))
  ∧ (stored "org.vaccine.rawmaterial" CRawMaterial σ km.2 material →
     not_nullish (get material "dateMixedIn") = false →
     ∃ o σ',
       RawMaterialContract2.addMaterial ctx manufacturer batchNumber dateTimeAdded σ
       = (Ok o, σ')
       ∧ get (record_at σ' km) "mspid" = get material "mspid")
  ∧ (stored "org.vaccine.vaccineBatch" (asset_class VaccineBatch) σ kb.2 batch →
     ∃ o σ',
       VaccineBatchContract.ship VaccineBatch ctx batchNumber manufacturer shippingProvider
         shipmentUUID σ = (Ok o, σ')
       ∧ get (record_at σ' kb) "mspid" = get batch "mspid")
  ∧ (∃ o σ',
       ShipmentContract.orderShipment ShipmentDistributor_js ctx shipmentUUID
         shipmentProvider source destination σ = (Ok o, σ')
       ∧ get (record_at σ' ks) "mspid" = VUndefined)
  ∧ (∃ o σ',
       ShipmentContract.orderShipment ShipmentManufacturer_js ctx shipmentUUID
         shipmentProvider source destination σ = (Ok o, σ')
       ∧ get (record_at σ' ks) "mspid" = VNull).
Proof.
  intros km kb ks HVB.
  split.
  { eexists _, _. split; [apply createMaterial2_run|].
    unfold record_at, km. by rewrite lookup_insert_eq. }
  split.
  { eexists _, _. split; [by apply issue_run|].
    unfold record_at, kb. rewrite lookup_insert_eq. by destruct HVB as [-> | ->]. }
  split.
  { intros Hst Hp. eexists _, _. split; [by eapply purchaseMaterial2_success|].
    unfold record_at, km. rewrite lookup_insert_eq. cbn [default from_option id].
    by read_field. }
  split.
  { intros Hst Hd. eexists _, _. split; [by eapply addMaterial2_success|].
    unfold record_at, km. rewrite lookup_insert_eq. cbn [default from_option id].
    by read_field. }
  split.
  { intros Hst. eexists _, _. split; [by eapply ship_success|].
    unfold record_at, kb. rewrite lookup_insert_eq. cbn [default from_option id].
    by read_field. }
  split.
  { eexists _, _. split; [apply orderShipment_run; by left|].
    unfold record_at, ks. by rewrite lookup_insert_eq. }
  { eexists _, _. split; [apply orderShipment_run; by right|].
    unfold record_at, ks. by rewrite lookup_insert_eq. }
Qed.

Lemma C6_owner_msp_witness :
  (∃ o σ',
     RawMaterialContract2.purchaseMaterial Org2 "Acme" "RM-1" "Pfizer" "900" "2021-03-05"
       ledger_material = (Ok o, σ')
     ∧ get (record_at σ' ("org.vaccine.rawmaterial", "Acme:RM-1")) "mspid" = VStr "Org2MSP")
  ∧ (∃ o σ',
       RawMaterialContract2.addMaterial Org3 "Acme" "RM-1" "2021-03-20" ledger_purchased
       = (Ok o, σ')
       ∧ get (record_at σ' ("org.vaccine.rawmaterial", "Acme:RM-1")) "mspid" = VStr "Org2MSP")
  ∧ (∃ o σ',
       VaccineBatchContract.ship VaccineBatch_js Org3 "B1" "Pfizer" "DHL" "S1"
         (ledger_batch VaccineBatch_js) = (Ok o, σ')
       ∧ get (record_at σ' ("org.vaccine.vaccineBatch", "B1:Pfizer")) "mspid" = VStr "Org2MSP").
Proof.
  split; [|split].
  - refine (proj1 (proj2 (proj2 (C6_owner_msp VaccineBatch_js Org2
      "" "RM-1" "" "Acme" "" "Pfizer" "900" "2021-03-05" "" "" "" "" "" "" ""
      ledger_material (record_at ledger_material ("org.vaccine.rawmaterial", "Acme:RM-1")) ∅
      (or_introl eq_refl)))) _ _).
    + repeat split; reflexivity.
    + reflexivity.
  - refine (proj1 (proj2 (proj2 (proj2 (C6_owner_msp VaccineBatch_js Org3
      "" "RM-1" "" "Acme" "" "" "" "" "2021-03-20" "" "" "" "" "" ""
      ledger_purchased (record_at ledger_purchased ("org.vaccine.rawmaterial", "Acme:RM-1")) ∅
      (or_introl eq_refl))))) _ _).
    + repeat split; reflexivity.
    + reflexivity.
  - refine (proj1 (proj2 (proj2 (proj2 (proj2 (C6_owner_msp VaccineBatch_js Org3
      "" "B1" "" "Pfizer" "" "" "" "" "" "" "DHL" "S1" "" "" ""
      (ledger_batch VaccineBatch_js) ∅
      (record_at (ledger_batch VaccineBatch_js) ("org.vaccine.vaccineBatch", "B1:Pfizer"))
      (or_introl eq_refl)))))) _).
    repeat split; reflexivity.
Defined.

(** ** Queries *)

Section Queries.

Variable json : Type.
Variable JSON_parse : string → option json.
Variable LocalTZA : Z → bool → Z.
Variable createCompositeKey : string → list string → string.
Variable getHistoryForKey : string → Iterator.
Variable getStateByPartialCompositeKey : string → list string → Iterator.
Variable getQueryResult : string → Iterator.
Variable JSON_stringify_selector : string → string → string.
Variable JSON_stringify_json : json → string.
Variable falsy : json → bool.
Variable name : string.

Lemma loop_closes (isHistory was_closed : bool) (outcomes : list next_outcome)
    (allResults : list (RawMaterialQueryUtils.jsonRes json)) :
  match RawMaterialQueryUtils.loop json JSON_parse LocalTZA isHistory was_closed outcomes
          allResults with
  | (Ok _, iterator') => closed iterator' = true
  | (Throw _, iterator') => closed iterator' = was_closed
  end.
Proof.
  revert allResults. induction outcomes as [|[res|e] rest IH]; intros allResults; cbn.
  - reflexivity.
  - destruct (RawMaterialQueryUtils.materialize json JSON_parse LocalTZA isHistory res) as [r|e];
      [|reflexivity].
    destruct (res_done res); [reflexivity|apply IH].
  - reflexivity.
Qed.

Lemma getAllResults_closes (iterator : Iterator) (isHistory : bool) :
  closed_iff_returned iterator
    (RawMaterialQueryUtils.with_iterator json
       (RawMaterialQueryUtils.getAllResults json JSON_parse LocalTZA iterator isHistory)).
Proof.
  unfold closed_iff_returned, RawMaterialQueryUtils.with_iterator,
    RawMaterialQueryUtils.getAllResults.
  pose proof (loop_closes isHistory (closed iterator) (pending iterator) []) as H.
  by destruct (RawMaterialQueryUtils.loop _ _ _ _ _ _) as [[r|e] iterator'].
Qed.

(** C8 (amended): for each of the four query shapes -- history, prefix
    scan, exact match (every [queryBy...] function goes through
    [getQueryResultForQueryString]), ad hoc -- the iterator the query
    obtained is closed when the results are returned, and only then: when a
    call of [next()] rejects, or when handling an entry throws, the error
    leaves the query and the iterator is as it was obtained, not closed. *)
Theorem C8_iterator_closed_on_return_only (batchNumber manufacturer purchaser text : string)
    (queryString : json) :
  let getAssetHistory := RawMaterialQueryUtils.getAssetHistory json JSON_parse LocalTZA
    createCompositeKey getHistoryForKey name in
  let queryKeyByPartial := RawMaterialQueryUtils.queryKeyByPartial json JSON_parse LocalTZA
    getStateByPartialCompositeKey name in
  let queryByPurchaser := RawMaterialQueryUtils.queryByPurchaser json JSON_parse LocalTZA
    getQueryResult JSON_stringify_selector in
  let getQueryResultForQueryString := RawMaterialQueryUtils.getQueryResultForQueryString
    json JSON_parse LocalTZA getQueryResult in
  let queryByAdhoc := RawMaterialQueryUtils.queryByAdhoc json JSON_parse LocalTZA
    getQueryResult JSON_stringify_json falsy in
  closed_iff_returned
    (getHistoryForKey (createCompositeKey name [manufacturer; batchNumber]))
    (getAssetHistory batchNumber manufacturer)
  ∧ closed_iff_returned
      (getStateByPartialCompositeKey name [manufacturer])
      (queryKeyByPartial manufacturer)
  ∧ closed_iff_returned
      (getQueryResult (JSON_stringify_selector "purchaser" purchaser))
      (queryByPurchaser purchaser)
  ∧ closed_iff_returned (getQueryResult text) (getQueryResultForQueryString text)
  ∧ (if falsy queryString
     then queryByAdhoc queryString = (Throw (Error "queryString must not be empty"), None)
     else closed_iff_returned
            (getQueryResult (JSON_stringify_json queryString))
            (queryByAdhoc queryString)).
Proof.
  intros getAssetHistory queryKeyByPartial queryByPurchaser getQueryResultForQueryString
    queryByAdhoc.
  split; [apply getAllResults_closes|].
  split; [apply getAllResults_closes|].
  split; [apply getAllResults_closes|].
  split; [apply getAllResults_closes|].
  unfold queryByAdhoc, RawMaterialQueryUtils.queryByAdhoc.
  destruct (falsy queryString); [reflexivity|apply getAllResults_closes].
Qed.

End Queries.

(** A run that returns: two entries, the second with [done], in a prefix
    scan. *)
Example prefix_scan_returns_and_closes :
  RawMaterialQueryUtils.queryKeyByPartial unit (fun _ => None) utc
    (scan_of {| pending := [entry_record false; entry_record true]; closed := false |})
    "org.vaccine.rawmaterial" "Acme"
  = (Ok [RawMaterialQueryUtils.KeyRecord unit "org.vaccine.rawmaterial:Acme:RM-1"
           (RawMaterialQueryUtils.Raw unit "{}");
         RawMaterialQueryUtils.KeyRecord unit "org.vaccine.rawmaterial:Acme:RM-1"
           (RawMaterialQueryUtils.Raw unit "{}")],
     Some {| pending := []; closed := true |}).
Proof. reflexivity. Qed.

(** C8, as stated, fails: in a history query, handling an entry without a
    timestamp throws before the iterator is drained, and in a prefix scan a
    rejected [next()] does; in both the iterator is left open. *)
Lemma C8_iterator_left_open :
  RawMaterialQueryUtils.getAssetHistory unit (fun _ => None) utc (fun _ _ => "k")
    (history_of {| pending := [entry_history None false; entry_history None true];
                   closed := false |})
    "org.vaccine.rawmaterial" "RM-1" "Acme"
  = (Throw (TypeError "Cannot read properties of undefined (reading 'seconds')"),
     Some {| pending := [entry_history None true]; closed := false |})
  ∧ RawMaterialQueryUtils.queryKeyByPartial unit (fun _ => None) utc
      (scan_of {| pending := [entry_record false; Rejects (Error "peer unavailable");
                              entry_record true];
                  closed := false |})
      "org.vaccine.rawmaterial" "Acme"
    = (Throw (Error "peer unavailable"),
       Some {| pending := [entry_record true]; closed := false |}).
Proof. split; reflexivity. Qed.

(** ** The footprint of a transaction *)

Lemma writes_at_bind {A B} (k : string * string) (m : M A) (f : A → M B) (Q : A → Prop) :
  reads m Q → (∀ a, Q a → writes_at k (f a)) → writes_at k (m ≫= f).
Proof.
  intros Hm Hf σ Hwf. specialize (Hm σ Hwf).
  unfold mbind, M_bind, bind. destruct (m σ) as [[a|e] σ'].
  - destruct Hm as [-> HQ]. by apply Hf.
  - done.
Qed.

Lemma writes_at_throw {A} (k : string * string) (e : error) : writes_at k (@throw A e).
Proof. by intros σ _. Qed.

Lemma to_json_idemp (v w : value) : to_json v = Some w → to_json w = Some w.
Proof. destruct v; intros [= <-]; reflexivity. Qed.

Lemma JSON_stringify_idemp (o : props) : JSON_stringify (JSON_stringify o) = JSON_stringify o.
Proof.
  unfold JSON_stringify. apply map_eq. intros i. rewrite !lookup_omap.
  destruct (o !! i) as [v|]; [|done]. cbn.
  destruct (to_json v) as [w|] eqn:Hv; [|done]. cbn. by eapply to_json_idemp.
Qed.

Lemma JSON_stringify_lookup_str (o : props) (i s : string) :
  o !! i = Some (VStr s) → JSON_stringify o !! i = Some (VStr s).
Proof. intros H. unfold JSON_stringify. rewrite lookup_omap, H. reflexivity. Qed.

Lemma well_formed_insert (σ : ledger) (ns key : string) (this : props) :
  well_formed σ →
  this !! "class" = Some (VStr ns) → this !! "key" = Some (VStr key) →
  well_formed (<[(ns, key) := JSON_stringify this]> σ).
Proof.
  intros Hwf Hc Hk ns' key' doc.
  destruct (decide ((ns, key) = (ns', key'))) as [[= <- <-]|Hne].
  - rewrite lookup_insert_eq. intros [= <-].
    split; [by apply JSON_stringify_lookup_str|].
    split; [by apply JSON_stringify_lookup_str|apply JSON_stringify_idemp].
  - rewrite lookup_insert_ne by done. apply Hwf.
Qed.

Lemma writes_at_update {A} (ns key : string) (c : jsclass) (o : object) (x : A) :
  tagged ns key c o →
  writes_at (ns, key) (StateList.updateState (StateList.use (StateList.new ns) c) o ;; mret x).
Proof.
  intros (_ & Hc & Hk) σ Hwf.
  unfold mbind, M_bind, bind, StateList.updateState, StateList.ledgerKey, get.
  cbn [StateList.name StateList.use StateList.new]. rewrite Hk. cbn [default from_option id toStr].
  destruct (σ !! (ns, key)); cbn; [|done].
  split; [by apply well_formed_insert|by eexists].
Qed.

Lemma writes_at_add {A} (ns key : string) (c : jsclass) (o : object) (x : A) :
  tagged ns key c o →
  writes_at (ns, key) (StateList.addState (StateList.use (StateList.new ns) c) o ;; mret x).
Proof.
  intros (_ & Hc & Hk) σ Hwf.
  unfold mbind, M_bind, bind, StateList.addState, StateList.ledgerKey, get.
  cbn [StateList.name StateList.use StateList.new]. rewrite Hk. cbn [default from_option id toStr].
  split; [by apply well_formed_insert|by eexists].
Qed.

Lemma reads_getState (ns key : string) (c : jsclass) :
  getClass_of c = ns →
  reads (StateList.getState (StateList.use (StateList.new ns) c) key)
    (fun r => ∀ o, r = Some o → tagged ns key c o).
Proof.
  intros Hns σ Hwf. unfold StateList.getState, StateList.ledgerKey.
  cbn [StateList.name StateList.use StateList.new StateList.supportedClasses].
  destruct (σ !! (ns, key)) as [doc|] eqn:Hat; [|by split].
  destruct (Hwf _ _ _ Hat) as (Hc & Hk & _).
  unfold State.deserialize, get. rewrite Hc. cbn. rewrite Hns, String.eqb_refl.
  split; [done|]. intros o [= <-]. by split.
Qed.

Lemma reads_deref (r : option object) : reads (deref r) (fun o => r = Some o).
Proof. intros σ _. by destruct r. Qed.

Lemma keeps_getter k : keeps_identity (getter k).
Proof. by intros args this v this' [= _ <-]. Qed.
Lemma keeps_tester k c : keeps_identity (tester k c).
Proof. by intros args this v this' [= _ <-]. Qed.
Lemma keeps_is_set k : keeps_identity (is_set k).
Proof. by intros args this v this' [= _ <-]. Qed.
Lemma keeps_setter k : k ≠ "class" → k ≠ "key" → keeps_identity (setter k).
Proof. intros ? ? args this v this' [= _ <-]. by rewrite !lookup_insert_ne. Qed.
Lemma keeps_assigner k c : k ≠ "class" → k ≠ "key" → keeps_identity (assigner k c).
Proof. intros ? ? args this v this' [= _ <-]. by rewrite !lookup_insert_ne. Qed.

Lemma keeps_lookup (table : list (string * method)) (name : string) (m : method) :
  Forall (fun nm => keeps_identity nm.2) table →
  lookup_method name table = Some m → keeps_identity m.
Proof.
  induction 1 as [|[n m'] table Hm _ IH]; cbn; [done|].
  destruct (String.eqb n name); [by intros [= <-]|done].
Qed.

Lemma methods_keep_identity (c : jsclass) :
  Forall (fun nm => keeps_identity nm.2) (methods_of c).
Proof.
  destruct c; cbn [methods_of]; unfold RawMaterial.methods, VaccineBatch.methods,
    VaccineBatchAlt.methods, Vaccine.methods, ShipmentDistributor.methods,
    ShipmentManufacturer.methods.
  all: repeat (apply Forall_cons; split;
    [ cbn [snd];
      first [ apply keeps_getter | apply keeps_tester | apply keeps_is_set
            | apply keeps_setter; discriminate | apply keeps_assigner; discriminate
            | intros args this v this'; cbn; intros [= _ <-]; by rewrite !lookup_insert_ne
            | intros args this v this'; unfold VaccineBatch.addRawMaterial;
              destruct (get this "rawMaterialBatchSet"); intros [= _ <-];
              by rewrite !lookup_insert_ne
            | by intros args this v this' ] | ]).
  all: try apply Forall_nil_2.
Qed.

Lemma reads_call (ns key : string) (c : jsclass) (o : object) (name : string)
    (args : list value) :
  tagged ns key c o →
  reads (call o name args) (fun r => tagged ns key c r.2).
Proof.
  intros (Hp & Hc & Hk) σ _. unfold call.
  destruct (lookup_method name (methods_of (proto o))) as [m|] eqn:Hm; [|done].
  destruct (m args (own o)) as [[v this]|e] eqn:Hrun; [|done].
  split; [done|].
  destruct (keeps_lookup _ _ _ (methods_keep_identity _) Hm _ _ _ _ Hrun) as [Hc' Hk'].
  split; [done|]. cbn. by rewrite Hc', Hk'.
Qed.

Lemma writes_at_get {B} (k : string * string) (ns key : string) (c : jsclass)
    (f : object → M B) :
  getClass_of c = ns →
  (∀ o, tagged ns key c o → writes_at k (f o)) →
  writes_at k (StateList.getState (StateList.use (StateList.new ns) c) key
               ≫= fun r => deref r ≫= f).
Proof.
  intros Hns Hf. eapply writes_at_bind; [by apply reads_getState|].
  intros r Hr. eapply writes_at_bind; [apply reads_deref|].
  intros o ->. by apply Hf, Hr.
Qed.

Ltac footprint_step :=
  first
    [ apply writes_at_throw
    | eapply writes_at_update; eassumption
    | eapply writes_at_add; first [ eassumption | by repeat split ]
    | eapply writes_at_get;
      [ reflexivity | let o := fresh "o" in let Ho := fresh "Ho" in intros o Ho ]
    | eapply writes_at_bind;
      [ eapply reads_call; first [ eassumption | by repeat split ]
      | let v := fresh "v" in let o := fresh "o" in let Ho := fresh "Ho" in
        intros [v o] Ho; cbn [snd] in Ho; cbv beta iota ]
    | match goal with |- writes_at _ (if ?b then _ else _) => destruct b end ].

Lemma submit_footprint (VaccineBatch Shipment : AssetModule) (ctx : Context)
    (t : transaction) :
  VaccineBatch = VaccineBatch_js ∨ VaccineBatch = VaccineBatchAlt_js →
  Shipment = ShipmentDistributor_js ∨ Shipment = ShipmentManufacturer_js →
  writes_at (target t) (submit VaccineBatch Shipment ctx t).
Proof.
  intros [-> | ->] [-> | ->]; destruct t; cbn [submit target];
    unfold RawMaterialContract2.createMaterial, RawMaterialContract2.purchaseMaterial,
      RawMaterialContract2.addMaterial, VaccineBatchContract.issue, VaccineBatchContract.buy,
      VaccineBatchContract.ship, VaccineBatchContract.arrived, VaccineContract.issue,
      ShipmentContract.orderShipment, ShipmentContract.shipShipment,
      ShipmentContract.updateLocationTemp, ShipmentContract.shipmentArrival,
      RawMaterialList.getRawMaterial, RawMaterialList.updateRawMaterial,
      RawMaterialList.addRawMaterial, RawMaterialList.list,
      VaccineBatchList.getVaccineBatch, VaccineBatchList.updateVaccineBatch,
      VaccineBatchList.addVaccineBatch, VaccineBatchList.list,
      VaccineList.addVaccine, VaccineList.list,
      ShipmentList.getShipment, ShipmentList.updateShipment, ShipmentList.addShipment,
      ShipmentList.list;
    cbv zeta; repeat footprint_step.
Qed.

(** ** Transactions on a stored record *)

Lemma getState_absent (ns : string) (c : jsclass) (key : string) (σ : ledger) :
  σ !! (ns, key) = None →
  StateList.getState (StateList.use (StateList.new ns) c) key σ = (Ok None, σ).
Proof. intros H. unfold StateList.getState, StateList.ledgerKey. cbn. by rewrite H. Qed.

Lemma well_formed_stored (σ : ledger) (ns key : string) (c : jsclass) (doc : props) :
  well_formed σ → getClass_of c = ns → σ !! (ns, key) = Some doc → stored ns c σ key doc.
Proof.
  intros Hwf <- Hat. destruct (Hwf _ _ _ Hat) as (Hc & Hk & Hj). by repeat split.
Qed.

Lemma addMaterial2_guard (ctx : Context) (manufacturer batchNumber dateTimeAdded : string)
    (σ : ledger) (doc : props) :
  let key := RawMaterial.makeKey [VStr manufacturer; VStr batchNumber] in
  stored "org.vaccine.rawmaterial" CRawMaterial σ key doc →
  not_nullish (get doc "dateMixedIn") = true →
  ∃ msg, RawMaterialContract2.addMaterial ctx manufacturer batchNumber dateTimeAdded σ
         = (Throw (Error msg), σ).
Proof.
  intros key Hst Hd. eexists.
  unfold RawMaterialContract2.addMaterial, RawMaterialList.getRawMaterial,
    RawMaterialList.list.
  rewrite (bind_Ok _ _ _ _ _ (getState_stored _ _ _ _ _ Hst)).
  cbn [deref]. rewrite mret_bind.
  call_step. rewrite Hd. call_step. reflexivity.
Qed.

Lemma arrived_success (VaccineBatch : AssetModule) (ctx : Context)
    (batchNumber manufacturer arrivalDate : string) (σ : ledger) (doc : props) :
  let key := State.makeKey [VStr batchNumber; VStr manufacturer] in
  let doc' := <["currentState" := VNum 2]> doc in
  VaccineBatch = VaccineBatch_js ∨ VaccineBatch = VaccineBatchAlt_js →
  stored "org.vaccine.vaccineBatch" (asset_class VaccineBatch) σ key doc →
  VaccineBatchContract.arrived VaccineBatch ctx batchNumber manufacturer arrivalDate σ
  = (Ok (Obj (asset_class VaccineBatch) doc'), <[("org.vaccine.vaccineBatch", key) := doc']> σ).
Proof.
  intros key doc' HVB Hst.
  unfold VaccineBatchContract.arrived, VaccineBatchList.getVaccineBatch,
    VaccineBatchList.updateVaccineBatch, VaccineBatchList.list.
  rewrite (bind_Ok _ _ _ _ _ (getState_stored _ _ _ _ _ Hst)).
  cbn [deref]. rewrite mret_bind.
  destruct Hst as (Hat & Hclass & Hkey & Hjson).
  destruct HVB as [-> | ->]; call_step;
    (erewrite bind_Ok; last first;
      [ eapply updateState_stored; [exact Hat | by read_field] | ]);
    unfold VaccineBatch.ARRIVED, VaccineBatchAlt.ARRIVED; json_doc Hjson; reflexivity.
Qed.

Lemma shipShipment_guard (ctx : Context)
    (shipmentUUID vehicleUUID source timestamp vehicleOperator currentTemp : string)
    (σ : ledger) (doc : props) :
  stored "org.vaccine.shipment" CShipmentManufacturer σ (State.makeKey [VStr shipmentUUID]) doc →
  not_nullish (get doc "shipDateTime") = true →
  ShipmentContract.shipShipment ShipmentManufacturer_js ctx shipmentUUID vehicleUUID source
    timestamp vehicleOperator currentTemp σ
  = (Throw (Error (nl +:+ "Shipment " +:+ shipmentUUID +:+ " has already been shipped.")), σ).
Proof.
  intros Hst Hd.
  unfold ShipmentContract.shipShipment, ShipmentList.getShipment, ShipmentList.list.
  rewrite (bind_Ok _ _ _ _ _ (getState_stored _ _ _ _ _ Hst)).
  cbn [deref]. rewrite mret_bind. call_step. by rewrite Hd.
Qed.

Lemma shipShipment_success (ctx : Context)
    (shipmentUUID vehicleUUID source timestamp vehicleOperator currentTemp : string)
    (σ : ledger) (doc : props) :
  let key := State.makeKey [VStr shipmentUUID] in
  let doc' := <["timestamp" := VStr timestamp]> (<["currentTemp" := VStr currentTemp]>
      (<["currentLocation" := VStr source]> (<["vehicleOperator" := VStr vehicleOperator]>
        (<["vehicleUUID" := VStr vehicleUUID]> (<["shipDateTime" := VStr timestamp]>
          (<["currentState" := VNum 1]> doc)))))) in
  stored "org.vaccine.shipment" CShipmentManufacturer σ key doc →
  not_nullish (get doc "shipDateTime") = false →
  ShipmentContract.shipShipment ShipmentManufacturer_js ctx shipmentUUID vehicleUUID source
    timestamp vehicleOperator currentTemp σ
  = (Ok (Obj CShipmentManufacturer doc'), <[("org.vaccine.shipment", key) := doc']> σ).
Proof.
  intros key doc' Hst Hd.
  unfold ShipmentContract.shipShipment, ShipmentList.getShipment,
    ShipmentList.updateShipment, ShipmentList.list.
  rewrite (bind_Ok _ _ _ _ _ (getState_stored _ _ _ _ _ Hst)).
  cbn [deref]. rewrite mret_bind. call_step. rewrite Hd. do 7 call_step.
  destruct Hst as (Hat & Hclass & Hkey & Hjson).
  erewrite bind_Ok; last first.
  { eapply updateState_stored; [exact Hat | by read_field]. }
  unfold ShipmentManufacturer.LEFTSOURCE. json_doc Hjson. reflexivity.
Qed.

Lemma shipmentArrival_guard (ctx : Context) (shipmentUUID timestamp : string)
    (σ : ledger) (doc : props) :
  stored "org.vaccine.shipment" CShipmentManufacturer σ (State.makeKey [VStr shipmentUUID]) doc →
  not_nullish (get doc "arrivalDateTime") = true →
  ShipmentContract.shipmentArrival ShipmentManufacturer_js ctx shipmentUUID timestamp σ
  = (Throw (Error (nl +:+ "Shipment " +:+ shipmentUUID +:+ " has already arrived.")), σ).
Proof.
  intros Hst Hd.
  unfold ShipmentContract.shipmentArrival, ShipmentList.getShipment, ShipmentList.list.
  rewrite (bind_Ok _ _ _ _ _ (getState_stored _ _ _ _ _ Hst)).
  cbn [deref]. rewrite mret_bind. call_step. by rewrite Hd.
Qed.

Lemma shipmentArrival_success (ctx : Context) (shipmentUUID timestamp : string)
    (σ : ledger) (doc : props) :
  let key := State.makeKey [VStr shipmentUUID] in
  let doc' := <["arrivalDateTime" := VStr timestamp]> (<["currentState" := VNum 2]> doc) in
  stored "org.vaccine.shipment" CShipmentManufacturer σ key doc →
  not_nullish (get doc "arrivalDateTime") = false →
  ShipmentContract.shipmentArrival ShipmentManufacturer_js ctx shipmentUUID timestamp σ
  = (Ok (Obj CShipmentManufacturer doc'), <[("org.vaccine.shipment", key) := doc']> σ).
Proof.
  intros key doc' Hst Hd.
  unfold ShipmentContract.shipmentArrival, ShipmentList.getShipment,
    ShipmentList.updateShipment, ShipmentList.list.
  rewrite (bind_Ok _ _ _ _ _ (getState_stored _ _ _ _ _ Hst)).
  cbn [deref]. rewrite mret_bind. call_step. rewrite Hd. do 2 call_step.
  destruct Hst as (Hat & Hclass & Hkey & Hjson).
  erewrite bind_Ok; last first.
  { eapply updateState_stored; [exact Hat | by read_field]. }
  unfold ShipmentManufacturer.ARRIVEDDEST. json_doc Hjson. reflexivity.
Qed.

(** ** Guards, order and composition of the transactions *)
(** X7: a transaction that looks its record up and finds none at the key
    -- purchase and mixing of a raw material, [buy], [ship] and [arrived]
    of a batch, the three shipment updates -- throws the [TypeError] of a
    method call on [null] and leaves the ledger as it was; only
    [purchaseMaterial] of the first raw material contract tests for the
    record and reports that it does not exist. *)
Theorem missing_record_throws (StringToNumber : string → option Z)
    (VaccineBatch Shipment : AssetModule) (ctx : Context) (t : transaction) (σ : ledger) :
  VaccineBatch = VaccineBatch_js ∨ VaccineBatch = VaccineBatchAlt_js →
  Shipment = ShipmentDistributor_js ∨ Shipment = ShipmentManufacturer_js →
  is_create t = false →
  σ !! target t = None →
  submit VaccineBatch Shipment ctx t σ = (Throw (TypeError "Cannot read properties of null"), σ)
  ∧ (∀ manufacturer batchNumber purchaser price purchaseDateTime,
       t = PurchaseMaterial manufacturer batchNumber purchaser price purchaseDateTime →
       RawMaterialContract.purchaseMaterial StringToNumber ctx manufacturer batchNumber
         purchaser price purchaseDateTime σ
       = (Throw (Error ("Raw material " +:+ batchNumber +:+ " from " +:+ manufacturer
                        +:+ " doesn't exist")), σ))
  ∧ (∀ manufacturer batchNumber dateTimeAdded,
       t = AddMaterial manufacturer batchNumber dateTimeAdded →
       RawMaterialContract.addMaterial ctx manufacturer batchNumber dateTimeAdded σ
       = (Throw (TypeError "Cannot read properties of null"), σ)).
Proof.
  intros HVB HS Hc Hnone. split; [|split].
  - destruct t; try discriminate Hc; cbn [submit target] in *;
      unfold RawMaterialContract2.purchaseMaterial, RawMaterialContract2.addMaterial,
        VaccineBatchContract.buy, VaccineBatchContract.ship, VaccineBatchContract.arrived,
        ShipmentContract.shipShipment, ShipmentContract.updateLocationTemp,
        ShipmentContract.shipmentArrival, RawMaterialList.getRawMaterial,
        RawMaterialList.list, VaccineBatchList.getVaccineBatch, VaccineBatchList.list,
        ShipmentList.getShipment, ShipmentList.list;
      by rewrite (bind_Ok _ _ _ _ _ (getState_absent _ _ _ _ Hnone)).
  - intros m b p pr d ->. cbn [target] in Hnone.
    unfold RawMaterialContract.purchaseMaterial, RawMaterialList.getRawMaterial,
      RawMaterialList.list.
    by rewrite (bind_Ok _ _ _ _ _ (getState_absent _ _ _ _ Hnone)).
  - intros m b d ->. cbn [target] in Hnone.
    unfold RawMaterialContract.addMaterial, RawMaterialList.getRawMaterial,
      RawMaterialList.list.
    by rewrite (bind_Ok _ _ _ _ _ (getState_absent _ _ _ _ Hnone)).
Qed.

Lemma missing_record_throws_witness :
  submit VaccineBatch_js ShipmentManufacturer_js Org2
    (BuyBatch "B2" "Pfizer" "Pfizer" "CVS" "10" "2021-05-01") (ledger_batch VaccineBatch_js)
  = (Throw (TypeError "Cannot read properties of null"), ledger_batch VaccineBatch_js).
Proof.
  apply (missing_record_throws (fun _ => None) VaccineBatch_js ShipmentManufacturer_js Org2
           (BuyBatch "B2" "Pfizer" "Pfizer" "CVS" "10" "2021-05-01")
           (ledger_batch VaccineBatch_js)); [by left | by right | reflexivity | reflexivity].
Defined.

(** X8: on a stored raw material [addMaterial] fails, leaving the ledger as
    it is, when [dateMixedIn] is set; otherwise it succeeds whether or not
    the material was purchased, writes [dateMixedIn] and no other
    property, and any later [addMaterial] on the record fails.  The two
    raw material contracts agree. *)
Theorem addMaterial_once (ctx ctx' : Context)
    (manufacturer batchNumber dateTimeAdded dateTimeAdded' : string)
    (σ : ledger) (doc : props) :
  let key := RawMaterial.makeKey [VStr manufacturer; VStr batchNumber] in
  let k := ("org.vaccine.rawmaterial", key) in
  let add c d := RawMaterialContract2.addMaterial c manufacturer batchNumber d in
  stored "org.vaccine.rawmaterial" CRawMaterial σ key doc →
  RawMaterialContract.addMaterial ctx manufacturer batchNumber dateTimeAdded σ
  = add ctx dateTimeAdded σ
  ∧ (not_nullish (get doc "dateMixedIn") = true →
     ∃ msg, add ctx dateTimeAdded σ = (Throw (Error msg), σ))
  ∧ (not_nullish (get doc "dateMixedIn") = false →
     let doc' := <["dateMixedIn" := VStr dateTimeAdded]> doc in
     let σ' := <[k := doc']> σ in
     add ctx dateTimeAdded σ = (Ok (Obj CRawMaterial doc'), σ')
     ∧ (∀ field, field ≠ "dateMixedIn" → doc' !! field = doc !! field)
     ∧ ∃ msg, add ctx' dateTimeAdded' σ' = (Throw (Error msg), σ')).
Proof.
  intros key k add Hst. subst add. cbv beta. split; [reflexivity|]. split.
  - intros Hd. exact (addMaterial2_guard ctx manufacturer batchNumber dateTimeAdded σ doc Hst Hd).
  - intros Hd doc' σ'.
    split; [exact (addMaterial2_success ctx manufacturer batchNumber dateTimeAdded σ doc Hst Hd)|].
    split; [by intros field Hf; unfold doc'; rewrite lookup_insert_ne|].
    apply (addMaterial2_guard ctx' manufacturer batchNumber dateTimeAdded' σ' doc').
    + apply (stored_insert _ _ _ _ _ _ Hst); unfold doc'.
      * by read_field.
      * by read_field.
      * destruct Hst as (_ & _ & _ & Hjson). by json_doc Hjson.
    + unfold doc'. by read_field.
Qed.

Lemma addMaterial_once_witness :
  ∃ msg, RawMaterialContract2.addMaterial Org2 "Acme" "RM-1" "2021-03-21"
           (<[("org.vaccine.rawmaterial", "Acme:RM-1") :=
                <["dateMixedIn" := VStr "2021-03-20"]>
                  (record_at ledger_material ("org.vaccine.rawmaterial", "Acme:RM-1"))]>
              ledger_material)
         = (Throw (Error msg),
            <[("org.vaccine.rawmaterial", "Acme:RM-1") :=
                <["dateMixedIn" := VStr "2021-03-20"]>
                  (record_at ledger_material ("org.vaccine.rawmaterial", "Acme:RM-1"))]>
              ledger_material).
Proof.
  refine (proj2 (proj2 (proj2 (proj2 (addMaterial_once Org3 Org2 "Acme" "RM-1"
    "2021-03-20" "2021-03-21" ledger_material
    (record_at ledger_material ("org.vaccine.rawmaterial", "Acme:RM-1")) _)) _))).
  - repeat split; reflexivity.
  - reflexivity.
Defined.

Lemma stored_after_insert (ns : string) (c : jsclass) (σ : ledger) (key : string)
    (doc this : props) :
  stored ns c σ key doc →
  this !! "class" = doc !! "class" → this !! "key" = doc !! "key" →
  stored ns c (<[(ns, key) := JSON_stringify this]> σ) key (JSON_stringify this).
Proof.
  intros (Hat & Hclass & Hkey & Hjson) Hc Hk.
  split; [by rewrite lookup_insert_eq|].
  split; [apply JSON_stringify_lookup_str; by rewrite Hc|].
  split; [apply JSON_stringify_lookup_str; by rewrite Hk|apply JSON_stringify_idemp].
Qed.

(** X9: on a stored raw material that is neither purchased nor mixed in,
    [purchaseMaterial] and [addMaterial] succeed in either order, and both
    orders end in the same ledger. *)
Theorem purchase_and_addMaterial_commute (ctx ctx' : Context)
    (manufacturer batchNumber purchaser price purchaseDateTime dateTimeAdded : string)
    (σ : ledger) (doc : props) :
  let key := RawMaterial.makeKey [VStr manufacturer; VStr batchNumber] in
  let purchase := RawMaterialContract2.purchaseMaterial ctx manufacturer batchNumber purchaser
                    price purchaseDateTime in
  let add := RawMaterialContract2.addMaterial ctx' manufacturer batchNumber dateTimeAdded in
  stored "org.vaccine.rawmaterial" CRawMaterial σ key doc →
  not_nullish (get doc "purchaser") = false →
  not_nullish (get doc "dateMixedIn") = false →
  (∃ material, purchase (add σ).2 = (Ok material, (add (purchase σ).2).2))
  ∧ (∃ material, add (purchase σ).2 = (Ok material, (purchase (add σ).2).2))
  ∧ (add σ).2 ≠ σ ∧ (purchase σ).2 ≠ σ.
Proof.
  intros key purchase add Hst Hp Hd. subst purchase add. subst key.
  rewrite (purchaseMaterial2_success ctx _ _ purchaser price purchaseDateTime σ doc Hst Hp).
  rewrite (addMaterial2_success ctx' _ _ dateTimeAdded σ doc Hst Hd). cbn [snd].
  set (key := RawMaterial.makeKey [VStr manufacturer; VStr batchNumber]) in *.
  set (docp := <["mspid" := _]> _). set (doca := <["dateMixedIn" := _]> doc).
  assert (Hstp : stored "org.vaccine.rawmaterial" CRawMaterial
                   (<[("org.vaccine.rawmaterial", key) := docp]> σ) key docp).
  { apply (stored_insert _ _ _ _ _ _ Hst); unfold docp; [by read_field..|].
    destruct Hst as (_ & _ & _ & Hjson). by json_doc Hjson. }
  assert (Hsta : stored "org.vaccine.rawmaterial" CRawMaterial
                   (<[("org.vaccine.rawmaterial", key) := doca]> σ) key doca).
  { apply (stored_insert _ _ _ _ _ _ Hst); unfold doca; [by read_field..|].
    destruct Hst as (_ & _ & _ & Hjson). by json_doc Hjson. }
  assert (Hpa : not_nullish (get doca "purchaser") = false) by (unfold doca; by read_field).
  assert (Hdp : not_nullish (get docp "dateMixedIn") = false) by (unfold docp; by read_field).
  rewrite (purchaseMaterial2_success ctx _ _ purchaser price purchaseDateTime _ doca Hsta Hpa).
  rewrite (addMaterial2_success ctx' _ _ dateTimeAdded _ docp Hstp Hdp). cbn [snd].
  assert (Hdocs : <["mspid" := VStr (getMSPID ctx)]> (<["price" := VStr price]>
                    (<["purchaseDate" := VStr purchaseDateTime]>
                      (<["purchaser" := VStr purchaser]> doca)))
                  = <["dateMixedIn" := VStr dateTimeAdded]> docp).
  { unfold doca, docp. symmetry.
    rewrite (insert_insert_ne _ "dateMixedIn" "mspid") by done. f_equal.
    rewrite (insert_insert_ne _ "dateMixedIn" "price") by done. f_equal.
    rewrite (insert_insert_ne _ "dateMixedIn" "purchaseDate") by done. f_equal.
    by rewrite (insert_insert_ne _ "dateMixedIn" "purchaser"). }
  rewrite !insert_insert_eq, Hdocs.
  split; [by eexists|]. split; [by eexists|].
  destruct Hst as (Hat & _).
  split; intros Heq; apply (f_equal (fun m => m !! ("org.vaccine.rawmaterial", key))) in Heq;
    rewrite lookup_insert_eq, Hat in Heq; injection Heq as Heq.
  - apply (f_equal (fun m => not_nullish (get m "dateMixedIn"))) in Heq.
    rewrite Hd in Heq. unfold doca in Heq. revert Heq. by read_field.
  - apply (f_equal (fun m => not_nullish (get m "purchaser"))) in Heq.
    rewrite Hp in Heq. unfold docp in Heq. revert Heq. by read_field.
Qed.

Lemma purchase_and_addMaterial_commute_witness :
  (∃ material,
     RawMaterialContract2.purchaseMaterial Org2 "Acme" "RM-1" "Pfizer" "900" "2021-03-05"
       (RawMaterialContract2.addMaterial Org3 "Acme" "RM-1" "2021-03-20" ledger_material).2
     = (Ok material,
        (RawMaterialContract2.addMaterial Org3 "Acme" "RM-1" "2021-03-20"
           (RawMaterialContract2.purchaseMaterial Org2 "Acme" "RM-1" "Pfizer" "900" "2021-03-05"
              ledger_material).2).2)).
Proof.
  refine (proj1 (purchase_and_addMaterial_commute Org2 Org3 "Acme" "RM-1" "Pfizer" "900"
    "2021-03-05" "2021-03-20" ledger_material
    (record_at ledger_material ("org.vaccine.rawmaterial", "Acme:RM-1")) _ _ _)).
  - repeat split; reflexivity.
  - reflexivity.
  - reflexivity.
Defined.

(** X12: [ship] and [arrived] of the vaccine batch contract test nothing:
    on a stored batch in any state [ship] sets the shipping provider, the
    shipment and the state SHIPPED, and [arrived] sets the state ARRIVED
    and nothing else -- the arrival date it is given is not stored -- so
    that a batch arrives without having been shipped and is shipped again
    after it arrived. *)
Theorem batch_ship_and_arrived_unguarded (VaccineBatch : AssetModule) (ctx : Context)
    (batchNumber manufacturer shippingProvider shipmentUUID arrivalDate arrivalDate' : string)
    (σ : ledger) (doc : props) :
  let key := State.makeKey [VStr batchNumber; VStr manufacturer] in
  let k := ("org.vaccine.vaccineBatch", key) in
  let ship := VaccineBatchContract.ship VaccineBatch ctx batchNumber manufacturer
                shippingProvider shipmentUUID in
  let arrived := VaccineBatchContract.arrived VaccineBatch ctx batchNumber manufacturer in
  let shipped := <["currentState" := VNum 1]> (<["shipmentUUID" := VStr shipmentUUID]>
                   (<["shippingProvider" := VStr shippingProvider]> doc)) in
  let arrived_doc := <["currentState" := VNum 2]> doc in
  VaccineBatch = VaccineBatch_js ∨ VaccineBatch = VaccineBatchAlt_js →
  stored "org.vaccine.vaccineBatch" (asset_class VaccineBatch) σ key doc →
  ship σ = (Ok (Obj (asset_class VaccineBatch) shipped), <[k := shipped]> σ)
  ∧ arrived arrivalDate σ
    = (Ok (Obj (asset_class VaccineBatch) arrived_doc), <[k := arrived_doc]> σ)
  ∧ arrived arrivalDate' σ = arrived arrivalDate σ
  ∧ (∀ field, field ≠ "currentState" → arrived_doc !! field = doc !! field)
  ∧ (ship (arrived arrivalDate σ).2).2 = (ship σ).2.
Proof.
  intros key k ship arrived shipped arrived_doc HVB Hst.
  assert (Hship : ship σ = (Ok (Obj (asset_class VaccineBatch) shipped), <[k := shipped]> σ))
    by by apply ship_success.
  assert (Harr : ∀ d, arrived d σ
            = (Ok (Obj (asset_class VaccineBatch) arrived_doc), <[k := arrived_doc]> σ))
    by (intros d; by apply arrived_success).
  split; [exact Hship|]. split; [apply Harr|]. split; [by rewrite !Harr|].
  split; [by intros field Hf; unfold arrived_doc; rewrite lookup_insert_ne|].
  rewrite Harr, Hship. cbn [snd].
  assert (Hst' : stored "org.vaccine.vaccineBatch" (asset_class VaccineBatch)
                   (<[k := arrived_doc]> σ) key arrived_doc).
  { apply (stored_insert _ _ _ _ _ _ Hst); unfold arrived_doc; [by read_field..|].
    destruct Hst as (_ & _ & _ & Hjson). by json_doc Hjson. }
  unfold ship.
  rewrite (ship_success VaccineBatch ctx batchNumber manufacturer shippingProvider shipmentUUID
             _ arrived_doc HVB Hst'). cbn [snd].
  fold key. fold k. rewrite insert_insert_eq. f_equal.
  unfold shipped, arrived_doc.
  rewrite (insert_insert_ne _ "shippingProvider" "currentState") by done.
  rewrite (insert_insert_ne _ "shipmentUUID" "currentState") by done.
  by rewrite insert_insert_eq.
Qed.

Lemma stored_written (ns : string) (c : jsclass) (σ : ledger) (key : string) (this : props) :
  this !! "class" = Some (VStr (getClass_of c)) →
  this !! "key" = Some (VStr key) →
  stored ns c (<[(ns, key) := JSON_stringify this]> σ) key (JSON_stringify this).
Proof.
  intros Hc Hk. split; [by rewrite lookup_insert_eq|].
  split; [by apply JSON_stringify_lookup_str|].
  split; [by apply JSON_stringify_lookup_str|apply JSON_stringify_idemp].
Qed.

Lemma batch_ship_and_arrived_unguarded_witness :
  ∃ batch σ',
    VaccineBatchContract.arrived VaccineBatch_js Org3 "B1" "Pfizer" "2021-05-03"
      (ledger_batch VaccineBatch_js) = (Ok batch, σ')
    ∧ get (own batch) "currentState" = VaccineBatch.ARRIVED
    ∧ get (own batch) "shipmentUUID" = VNull.
Proof.
  eexists _, _. split.
  - refine (proj1 (proj2 (batch_ship_and_arrived_unguarded VaccineBatch_js Org3 "B1" "Pfizer"
      "DHL" "S1" "2021-05-03" "" (ledger_batch VaccineBatch_js)
      (record_at (ledger_batch VaccineBatch_js) ("org.vaccine.vaccineBatch", "B1:Pfizer"))
      _ _))).
    + by left.
    + repeat split; reflexivity.
  - split; reflexivity.
Defined.

(** X13: after [issue] with the [VaccineBatch] class that starts with the
    manufacturer as purchaser, [buy] with the manufacturer as current
    owner succeeds (state and owner MSP stay those of the issue), and [buy]
    with any other current owner throws; with the other [VaccineBatch]
    class the purchaser of an issued batch is [null] and every [buy]
    throws. *)
Theorem issue_then_buy (ctx ctx' : Context)
    (vaccineName batchNumber quantity manufacturer manufactureDate : string)
    (currentOwner newOwner price purchaseDateTime : string) (σ : ledger) :
  let issued VaccineBatch :=
    (VaccineBatchContract.issue VaccineBatch ctx vaccineName batchNumber quantity manufacturer
       manufactureDate σ).2 in
  let buy VaccineBatch owner :=
    VaccineBatchContract.buy VaccineBatch ctx' batchNumber manufacturer owner newOwner price
      purchaseDateTime in
  (∃ batch σ',
     buy VaccineBatch_js manufacturer (issued VaccineBatch_js) = (Ok batch, σ')
     ∧ get (own batch) "purchaser" = VStr newOwner
     ∧ get (own batch) "currentState" = VaccineBatch.WAREHOUSED
     ∧ get (own batch) "mspid" = VStr (getMSPID ctx))
  ∧ (currentOwner ≠ manufacturer →
     buy VaccineBatch_js currentOwner (issued VaccineBatch_js)
     = (Throw (ReferenceError "issuer is not defined"), issued VaccineBatch_js))
  ∧ buy VaccineBatchAlt_js currentOwner (issued VaccineBatchAlt_js)
    = (Throw (ReferenceError "issuer is not defined"), issued VaccineBatchAlt_js).
Proof.
  intros issued buy. subst issued buy. cbv beta.
  rewrite !issue_run by (by left || by right). cbn [snd].
  split; [|split].
  - eexists _, _. split.
    + eapply (buy_success VaccineBatch_js); [by left| |].
      * unfold State.serialize. cbn [own]. apply stored_written; reflexivity.
      * reflexivity.
    + cbn [own]. split; [by read_field|]. split; by read_field.
  - intros Hne. eapply (buy_guard VaccineBatch_js); [by left| |].
    + unfold State.serialize. cbn [own]. apply stored_written; reflexivity.
    + match goal with |- get ?doc _ ≠ _ =>
        assert (Hp : get doc "purchaser" = VStr manufacturer) by reflexivity; rewrite Hp
      end.
      intros [= H]. by apply Hne.
  - eapply (buy_guard VaccineBatchAlt_js); [by right| |].
    + unfold State.serialize. cbn [own]. apply stored_written; reflexivity.
    + match goal with |- get ?doc _ ≠ _ =>
        assert (Hp : get doc "purchaser" = VNull) by reflexivity; rewrite Hp
      end.
      discriminate.
Qed.

Lemma issue_then_buy_witness :
  VaccineBatchContract.buy VaccineBatch_js Org3 "B1" "Pfizer" "Moderna" "CVS" "10" "2021-05-01"
    (ledger_batch VaccineBatch_js)
  = (Throw (ReferenceError "issuer is not defined"), ledger_batch VaccineBatch_js).
Proof.
  refine (proj1 (proj2 (issue_then_buy Org2 Org3 "Covax" "B1" "100" "Pfizer" "2021-04-01"
    "Moderna" "CVS" "10" "2021-05-01" ∅)) _).
  discriminate.
Defined.

Lemma strict_eq_true (x y : value) : strict_eq x y = true → x = y.
Proof.
  destruct x, y; cbn; try discriminate; try done;
    rewrite bool_decide_eq_true; by intros ->.
Qed.

Lemma strict_eq_primitive (v : value) : primitive v = true → strict_eq v v = true.
Proof. destruct v; cbn; try discriminate; try done; intros _; by apply bool_decide_eq_true. Qed.

Lemma existsb_strict_eq (material : value) (members : list value) :
  existsb (strict_eq material) members = true → material ∈ members.
Proof.
  intros (x & Hx & Heq)%existsb_exists. apply strict_eq_true in Heq. subst x.
  by apply list_elem_of_In.
Qed.

Lemma existsb_strict_eq_primitive (material : value) (members : list value) :
  primitive material = true → material ∈ members →
  existsb (strict_eq material) members = true.
Proof.
  intros Hp Hin. apply existsb_exists. exists material.
  split; [by apply list_elem_of_In | by apply strict_eq_primitive].
Qed.

(** X15: [addRawMaterial] on a batch whose raw materials are a [Set] adds
    the material to the set, as a member of its own when no member is the
    same value (the number 5 beside the string "5"); adding a primitive
    value that is a member changes nothing; and the buffer of the batch is
    the same before and after: the raw materials never reach the ledger.
    On the batch read back from its buffer [addRawMaterial] throws a
    [TypeError]. *)
Theorem addRawMaterial_not_persisted (material : value) (this : props) (members : list value) :
  get this "rawMaterialBatchSet" = VSet members →
  ∃ members',
    let this' := <["rawMaterialBatchSet" := VSet members']> this in
    VaccineBatch.addRawMaterial [material] this = Ok (VUndefined, this')
    ∧ material ∈ members'
    ∧ (∀ m, m ∈ members → m ∈ members')
    ∧ (material ∉ members → members' = (members ++ [material])%list)
    ∧ (primitive material = true → material ∈ members → members' = members)
    ∧ (primitive material = true →
       VaccineBatch.addRawMaterial [material] this' = Ok (VUndefined, this'))
    ∧ VaccineBatch.toBuffer (Obj CVaccineBatch this') = VaccineBatch.toBuffer (Obj CVaccineBatch this)
    ∧ ∃ msg,
        VaccineBatch.addRawMaterial [material]
          (own (VaccineBatch.fromBuffer (VaccineBatch.toBuffer (Obj CVaccineBatch this'))))
        = Throw (TypeError msg).
Proof.
  intros Hset. unfold VaccineBatch.addRawMaterial. rewrite Hset.
  cbn [arg lookup list_lookup default from_option id].
  assert (Hthrows : ∀ members', ∃ msg,
    match get (own (VaccineBatch.fromBuffer (VaccineBatch.toBuffer
                 (Obj CVaccineBatch (<["rawMaterialBatchSet" := VSet members']> this)))))
            "rawMaterialBatchSet" with
    | VSet members =>
        Ok (VUndefined,
            <["rawMaterialBatchSet" :=
                VSet (if existsb (strict_eq material) members then members
                      else (members ++ [material])%list)]>
              (own (VaccineBatch.fromBuffer (VaccineBatch.toBuffer
                 (Obj CVaccineBatch (<["rawMaterialBatchSet" := VSet members']> this))))))
    | VUndefined | VNull =>
        Throw (TypeError "Cannot read properties of undefined (reading 'add')")
    | _ => Throw (TypeError "this.rawMaterialBatchSet.add is not a function")
    end = Throw (TypeError msg)).
  { intros members'. eexists.
    unfold VaccineBatch.fromBuffer, VaccineBatch.deserialize, State.deserializeClass,
      VaccineBatch.toBuffer, JSON_stringify, get. cbn [own].
    rewrite lookup_omap, lookup_insert_eq. reflexivity. }
  destruct (existsb (strict_eq material) members) eqn:Hin.
  - assert (Hmem : material ∈ members) by by apply existsb_strict_eq.
    exists members. cbn zeta.
    assert (Hsame : <["rawMaterialBatchSet" := VSet members]> this = this).
    { apply insert_id. unfold get in Hset. destruct (this !! "rawMaterialBatchSet") as [v|]; [|done].
      cbn in Hset. by rewrite Hset. }
    split; [done|]. split; [done|]. split; [done|].
    split; [intros Hnot; by destruct Hnot|]. split; [done|].
    split; [intros _; unfold get; rewrite lookup_insert_eq; cbn [default from_option id];
            by rewrite Hin, insert_insert_eq|].
    split; [by rewrite Hsame|].
    apply Hthrows.
  - exists (members ++ [material])%list. cbn zeta.
    split; [done|]. split; [apply elem_of_app; right; by apply list_elem_of_singleton|].
    split; [intros m Hm; apply elem_of_app; by left|].
    split; [done|].
    split.
    { intros Hp Hmem. by rewrite (existsb_strict_eq_primitive _ _ Hp Hmem) in Hin. }
    split.
    { intros Hp. unfold get. rewrite lookup_insert_eq. cbn [default from_option id].
      rewrite existsb_app. cbn [existsb]. rewrite (strict_eq_primitive _ Hp), orb_true_r.
      by rewrite insert_insert_eq. }
    split.
    { unfold VaccineBatch.toBuffer, JSON_stringify. cbn [own].
      apply map_eq. intros i. rewrite !lookup_omap.
      destruct (decide (i = "rawMaterialBatchSet")) as [->|Hne].
      - rewrite lookup_insert_eq. unfold get in Hset.
        destruct (this !! "rawMaterialBatchSet") as [v|]; [|done]. cbn in Hset. by subst v.
      - by rewrite lookup_insert_ne. }
    apply Hthrows.
Qed.

Lemma addRawMaterial_not_persisted_witness :
  ∃ members',
    VaccineBatch.addRawMaterial [VNum 5]
      (<["rawMaterialBatchSet" := VSet [VStr "5"]]> (own batch_created))
    = Ok (VUndefined,
          <["rawMaterialBatchSet" := VSet members']>
            (<["rawMaterialBatchSet" := VSet [VStr "5"]]> (own batch_created)))
    ∧ members' = [VStr "5"; VNum 5].
Proof.
  destruct (addRawMaterial_not_persisted (VNum 5)
              (<["rawMaterialBatchSet" := VSet [VStr "5"]]> (own batch_created))
              [VStr "5"])
    as (members' & Hrun & _ & _ & Hnew & _); [reflexivity|].
  exists members'. split; [exact Hrun|]. apply Hnew.
  intros Hin. apply list_elem_of_singleton in Hin. discriminate Hin.
Defined.

(** X16: with the [Shipment] class of the manufacturer, on a stored
    shipment [shipShipment] fails when [shipDateTime] is set and otherwise
    writes the state, the ship date, the vehicle, its operator, the source
    as location, the temperature and the timestamp, after which it fails;
    [shipmentArrival] fails when [arrivalDateTime] is set and otherwise
    writes the state and the arrival date, after which it fails.  A
    failure leaves the ledger as it is. *)
Theorem shipment_shipped_and_arrived_once (ctx ctx' : Context)
    (shipmentUUID vehicleUUID source timestamp vehicleOperator currentTemp : string)
    (vehicleUUID' source' timestamp' vehicleOperator' currentTemp' : string)
    (σ : ledger) (doc : props) :
  let key := State.makeKey [VStr shipmentUUID] in
  let k := ("org.vaccine.shipment", key) in
  let ship c v s t o temp :=
    ShipmentContract.shipShipment ShipmentManufacturer_js c shipmentUUID v s t o temp in
  let arrive c t := ShipmentContract.shipmentArrival ShipmentManufacturer_js c shipmentUUID t in
  stored "org.vaccine.shipment" CShipmentManufacturer σ key doc →
  (not_nullish (get doc "shipDateTime") = true →
     ship ctx vehicleUUID source timestamp vehicleOperator currentTemp σ
     = (Throw (Error (nl +:+ "Shipment " +:+ shipmentUUID +:+ " has already been shipped.")), σ))
  ∧ (not_nullish (get doc "shipDateTime") = false →
     let doc' := <["timestamp" := VStr timestamp]> (<["currentTemp" := VStr currentTemp]>
       (<["currentLocation" := VStr source]> (<["vehicleOperator" := VStr vehicleOperator]>
         (<["vehicleUUID" := VStr vehicleUUID]> (<["shipDateTime" := VStr timestamp]>
           (<["currentState" := ShipmentManufacturer.LEFTSOURCE]> doc)))))) in
     let σ' := <[k := doc']> σ in
     ship ctx vehicleUUID source timestamp vehicleOperator currentTemp σ
     = (Ok (Obj CShipmentManufacturer doc'), σ')
     ∧ ∃ e, ship ctx' vehicleUUID' source' timestamp' vehicleOperator' currentTemp' σ'
            = (Throw e, σ'))
  ∧ (not_nullish (get doc "arrivalDateTime") = true →
     arrive ctx timestamp σ
     = (Throw (Error (nl +:+ "Shipment " +:+ shipmentUUID +:+ " has already arrived.")), σ))
  ∧ (not_nullish (get doc "arrivalDateTime") = false →
     let doc' := <["arrivalDateTime" := VStr timestamp]>
                   (<["currentState" := ShipmentManufacturer.ARRIVEDDEST]> doc) in
     let σ' := <[k := doc']> σ in
     arrive ctx timestamp σ = (Ok (Obj CShipmentManufacturer doc'), σ')
     ∧ ∃ e, arrive ctx' timestamp' σ' = (Throw e, σ')).
Proof.
  intros key k ship arrive Hst.
  split; [by apply shipShipment_guard|].
  split.
  { intros Hd doc' σ'. split; [by apply shipShipment_success|].
    eexists. eapply shipShipment_guard.
    - apply (stored_insert _ _ _ _ _ _ Hst); unfold doc'; [by read_field..|].
      destruct Hst as (_ & _ & _ & Hjson). unfold ShipmentManufacturer.LEFTSOURCE.
      by json_doc Hjson.
    - unfold doc'. by read_field. }
  split; [by apply shipmentArrival_guard|].
  intros Hd doc' σ'. split; [by apply shipmentArrival_success|].
  eexists. eapply shipmentArrival_guard.
  - apply (stored_insert _ _ _ _ _ _ Hst); unfold doc'; [by read_field..|].
    destruct Hst as (_ & _ & _ & Hjson). unfold ShipmentManufacturer.ARRIVEDDEST.
    by json_doc Hjson.
  - unfold doc'. by read_field.
Qed.

Lemma shipment_shipped_and_arrived_once_witness :
  ShipmentContract.shipShipment ShipmentManufacturer_js Org3 "S1" "V8" "Camden"
    "2021-04-02 09:00" "Bob" "-60" ledger_shipped
  = (Throw (Error (nl +:+ "Shipment S1 has already been shipped.")), ledger_shipped).
Proof.
  refine (proj1 (shipment_shipped_and_arrived_once Org3 Org3 "S1" "V8" "Camden"
    "2021-04-02 09:00" "Bob" "-60" "" "" "" "" "" ledger_shipped
    (record_at ledger_shipped ("org.vaccine.shipment", "S1")) _) _).
  - repeat split; reflexivity.
  - reflexivity.
Defined.

(** X17: the shipment contract does not order shipping and arrival: a
    stored shipment that was never shipped can arrive, and can then still
    be shipped, which sets its state back to LEFTSOURCE while the arrival
    date stays. *)
Theorem shipment_arrival_before_shipping (ctx ctx' : Context)
    (shipmentUUID vehicleUUID source timestamp vehicleOperator currentTemp arrival : string)
    (σ : ledger) (doc : props) :
  let key := State.makeKey [VStr shipmentUUID] in
  let k := ("org.vaccine.shipment", key) in
  let arrive := ShipmentContract.shipmentArrival ShipmentManufacturer_js ctx shipmentUUID
                  arrival in
  let ship := ShipmentContract.shipShipment ShipmentManufacturer_js ctx' shipmentUUID
                vehicleUUID source timestamp vehicleOperator currentTemp in
  stored "org.vaccine.shipment" CShipmentManufacturer σ key doc →
  not_nullish (get doc "shipDateTime") = false →
  not_nullish (get doc "arrivalDateTime") = false →
  ∃ shipment σ1 shipment' σ2,
    arrive σ = (Ok shipment, σ1)
    ∧ get (own shipment) "currentState" = ShipmentManufacturer.ARRIVEDDEST
    ∧ get (own shipment) "shipDateTime" = get doc "shipDateTime"
    ∧ ship σ1 = (Ok shipment', σ2)
    ∧ get (own shipment') "currentState" = ShipmentManufacturer.LEFTSOURCE
    ∧ get (own shipment') "arrivalDateTime" = VStr arrival
    ∧ get (own shipment') "shipDateTime" = VStr timestamp
    ∧ σ2 !! k = Some (own shipment').
Proof.
  intros key k arrive ship Hst Hs Ha. eexists _, _, _, _.
  split; [by apply shipmentArrival_success|]. cbn [own].
  split; [by read_field|]. split; [by read_field|].
  split.
  { apply shipShipment_success.
    - apply (stored_insert _ _ _ _ _ _ Hst); [by read_field..|].
      destruct Hst as (_ & _ & _ & Hjson). by json_doc Hjson.
    - revert Hs. by read_field. }
  cbn [own]. split; [by read_field|]. split; [by read_field|]. split; [by read_field|].
  by rewrite lookup_insert_eq.
Qed.

Lemma shipment_arrival_before_shipping_witness :
  ∃ shipment σ1,
    ShipmentContract.shipmentArrival ShipmentManufacturer_js Org3 "S1" "2021-04-03 09:00"
      (ledger_shipment ShipmentManufacturer_js) = (Ok shipment, σ1)
    ∧ get (own shipment) "currentState" = ShipmentManufacturer.ARRIVEDDEST
    ∧ get (own shipment) "shipDateTime" = VNull.
Proof.
  destruct (shipment_arrival_before_shipping Org3 Org3 "S1" "V7" "Philadelphia"
    "2021-04-04 08:00" "Ann" "-70" "2021-04-03 09:00" (ledger_shipment ShipmentManufacturer_js)
    (record_at (ledger_shipment ShipmentManufacturer_js) ("org.vaccine.shipment", "S1"))
    (conj eq_refl (conj eq_refl (conj eq_refl eq_refl))) eq_refl eq_refl)
    as (shipment & σ1 & _ & _ & Hrun & Hstate & Hship & _).
  exists shipment, σ1. split; [exact Hrun|]. split; [exact Hstate|exact Hship].
Defined.

(** ** Runs of transactions *)
Lemma execute_cons (VaccineBatch Shipment : AssetModule) (ctx : Context) (t : transaction)
    (txs : list (Context * transaction)) (σ : ledger) :
  execute VaccineBatch Shipment ((ctx, t) :: txs) σ
  = execute VaccineBatch Shipment txs (submit VaccineBatch Shipment ctx t σ).2.
Proof. reflexivity. Qed.

Lemma well_formed_empty : well_formed ∅.
Proof. intros ns key doc H. by rewrite lookup_empty in H. Qed.

Lemma submit_well_formed (VaccineBatch Shipment : AssetModule) (ctx : Context)
    (t : transaction) (σ : ledger) :
  VaccineBatch = VaccineBatch_js ∨ VaccineBatch = VaccineBatchAlt_js →
  Shipment = ShipmentDistributor_js ∨ Shipment = ShipmentManufacturer_js →
  well_formed σ → well_formed (submit VaccineBatch Shipment ctx t σ).2.
Proof.
  intros HVB HS Hwf. pose proof (submit_footprint _ _ ctx t HVB HS σ Hwf) as H.
  destruct (submit _ _ _ _ _) as [[o|e] σ']; cbn [snd]; [by destruct H|by subst].
Qed.

Lemma execute_well_formed (VaccineBatch Shipment : AssetModule)
    (txs : list (Context * transaction)) (σ : ledger) :
  VaccineBatch = VaccineBatch_js ∨ VaccineBatch = VaccineBatchAlt_js →
  Shipment = ShipmentDistributor_js ∨ Shipment = ShipmentManufacturer_js →
  well_formed σ → well_formed (execute VaccineBatch Shipment txs σ).
Proof.
  intros HVB HS. revert σ. induction txs as [|[ctx t] txs IH]; intros σ Hwf; [done|].
  rewrite execute_cons. apply IH. by apply submit_well_formed.
Qed.

Lemma sample_ledgers_well_formed :
  well_formed ledger_material
  ∧ well_formed ledger_purchased
  ∧ well_formed (ledger_batch VaccineBatch_js)
  ∧ well_formed (ledger_shipment ShipmentManufacturer_js)
  ∧ well_formed ledger_shipped.
Proof.
  assert (H1 : well_formed ledger_material).
  { apply (submit_well_formed VaccineBatch_js ShipmentManufacturer_js Org1
             (CreateMaterial "lipid" "RM-1" "40" "Acme" "2021-03-01") ∅);
      [by left | by right | apply well_formed_empty]. }
  assert (H2 : well_formed (ledger_shipment ShipmentManufacturer_js)).
  { apply (submit_well_formed VaccineBatch_js ShipmentManufacturer_js Org3
             (OrderShipment "S1" "DHL" "Philadelphia" "Boston") ∅);
      [by left | by right | apply well_formed_empty]. }
  split; [exact H1|]. split.
  { apply (submit_well_formed VaccineBatch_js ShipmentManufacturer_js Org2
             (PurchaseMaterial "Acme" "RM-1" "Pfizer" "900" "2021-03-05") ledger_material);
      [by left | by right | exact H1]. }
  split.
  { apply (submit_well_formed VaccineBatch_js ShipmentManufacturer_js Org2
             (IssueBatch "Covax" "B1" "100" "Pfizer" "2021-04-01") ∅);
      [by left | by right | apply well_formed_empty]. }
  split; [exact H2|].
  apply (submit_well_formed VaccineBatch_js ShipmentManufacturer_js Org3
           (ShipShipment "S1" "V7" "Philadelphia" "2021-04-02 08:00" "Ann" "-70")
           (ledger_shipment ShipmentManufacturer_js));
    [by left | by right | exact H2].
Qed.

(** X5: on a well-formed ledger a transaction that throws leaves the
    ledger as it was, and one that returns has written one record, the one
    at the key made of its key arguments in the namespace of its
    contract; every other record is untouched.  Every transaction of the
    second raw material contract and of the vaccine batch, vaccine and
    shipment contracts, with either class file. *)
Theorem transaction_footprint (VaccineBatch Shipment : AssetModule) (ctx : Context)
    (t : transaction) (σ : ledger) :
  VaccineBatch = VaccineBatch_js ∨ VaccineBatch = VaccineBatchAlt_js →
  Shipment = ShipmentDistributor_js ∨ Shipment = ShipmentManufacturer_js →
  well_formed σ →
  match submit VaccineBatch Shipment ctx t σ with
  | (Ok _, σ') =>
      (∃ doc, σ' = <[target t := doc]> σ) ∧ (∀ k, k ≠ target t → σ' !! k = σ !! k)
  | (Throw _, σ') => σ' = σ
  end.
Proof.
  intros HVB HS Hwf. pose proof (submit_footprint _ _ ctx t HVB HS σ Hwf) as H.
  destruct (submit _ _ _ _ _) as [[o|e] σ']; [|done].
  destruct H as (_ & doc & ->). split; [by eexists|].
  intros k Hk. by rewrite lookup_insert_ne.
Qed.

Lemma transaction_footprint_witness :
  match submit VaccineBatch_js ShipmentManufacturer_js Org2
          (PurchaseMaterial "Acme" "RM-1" "Pfizer" "900" "2021-03-05") ledger_material with
  | (Ok _, σ') =>
      (∃ doc, σ' = <[("org.vaccine.rawmaterial", "Acme:RM-1") := doc]> ledger_material)
      ∧ (∀ k, k ≠ ("org.vaccine.rawmaterial", "Acme:RM-1") → σ' !! k = ledger_material !! k)
  | (Throw _, σ') => σ' = ledger_material
  end.
Proof.
  apply (transaction_footprint VaccineBatch_js ShipmentManufacturer_js Org2
           (PurchaseMaterial "Acme" "RM-1" "Pfizer" "900" "2021-03-05") ledger_material);
    [by left | by right | apply sample_ledgers_well_formed].
Defined.

(** X6: every record on a ledger that the contracts built from the empty
    ledger, by any run of transactions, carries the namespace of its list
    as type tag and the key it is stored under, and is a JSON document;
    the transactions keep any well-formed ledger well formed. *)
Theorem ledgers_stay_well_formed (VaccineBatch Shipment : AssetModule)
    (txs : list (Context * transaction)) (σ : ledger) :
  VaccineBatch = VaccineBatch_js ∨ VaccineBatch = VaccineBatchAlt_js →
  Shipment = ShipmentDistributor_js ∨ Shipment = ShipmentManufacturer_js →
  well_formed (execute VaccineBatch Shipment txs ∅)
  ∧ (well_formed σ → well_formed (execute VaccineBatch Shipment txs σ))
  ∧ ∀ ns key doc c,
      execute VaccineBatch Shipment txs ∅ !! (ns, key) = Some doc →
      getClass_of c = ns → stored ns c (execute VaccineBatch Shipment txs ∅) key doc.
Proof.
  intros HVB HS.
  assert (H0 : well_formed (execute VaccineBatch Shipment txs ∅))
    by (apply execute_well_formed; [done..|apply well_formed_empty]).
  split; [exact H0|]. split; [by apply execute_well_formed|].
  intros ns key doc c Hat Hc. by apply well_formed_stored.
Qed.

Lemma ledgers_stay_well_formed_witness :
  well_formed (execute VaccineBatch_js ShipmentManufacturer_js
    [(Org1, CreateMaterial "lipid" "RM-1" "40" "Acme" "2021-03-01");
     (Org2, PurchaseMaterial "Acme" "RM-1" "Pfizer" "900" "2021-03-05");
     (Org2, IssueBatch "Covax" "B1" "100" "Pfizer" "2021-04-01");
     (Org3, OrderShipment "S1" "DHL" "Philadelphia" "Boston")] ∅).
Proof.
  refine (proj1 (ledgers_stay_well_formed VaccineBatch_js ShipmentManufacturer_js
    [(Org1, CreateMaterial "lipid" "RM-1" "40" "Acme" "2021-03-01");
     (Org2, PurchaseMaterial "Acme" "RM-1" "Pfizer" "900" "2021-03-05");
     (Org2, IssueBatch "Covax" "B1" "100" "Pfizer" "2021-04-01");
     (Org3, OrderShipment "S1" "DHL" "Philadelphia" "Boston")] ∅ _ _)); [by left | by right].
Defined.

Lemma material_evolves_refl (doc : props) : material_evolves doc doc.
Proof. by repeat split. Qed.

Lemma get_eq (doc doc' : props) (field : string) :
  doc' !! field = doc !! field → get doc' field = get doc field.
Proof. unfold get. by intros ->. Qed.

Lemma material_evolves_trans (a b c : props) :
  material_evolves a b → material_evolves b c → material_evolves a c.
Proof.
  intros (Hf1 & Hp1 & Hd1) (Hf2 & Hp2 & Hd2). split; [|split].
  - intros field Hfield. by rewrite Hf2, Hf1.
  - intros Hp field Hfield.
    assert (Hpb : not_nullish (get b "purchaser") = true).
    { rewrite (get_eq a b "purchaser"); [done|]. apply Hp1; [done|]. repeat constructor. }
    by rewrite (Hp2 Hpb field Hfield), (Hp1 Hp field Hfield).
  - intros Hd.
    assert (Hdb : not_nullish (get b "dateMixedIn") = true).
    { rewrite (get_eq a b "dateMixedIn"); [done|]. by apply Hd1. }
    by rewrite (Hd2 Hdb), (Hd1 Hd).
Qed.

(** A relation between the versions of a record that every transaction
    on the record respects holds along a run that does not create the
    record again. *)
Lemma execute_evolves (VaccineBatch Shipment : AssetModule) (k : string * string)
    (R : props → props → Prop) :
  VaccineBatch = VaccineBatch_js ∨ VaccineBatch = VaccineBatchAlt_js →
  Shipment = ShipmentDistributor_js ∨ Shipment = ShipmentManufacturer_js →
  (∀ doc, R doc doc) →
  (∀ a b c, R a b → R b c → R a c) →
  (∀ ctx t σ doc o σ',
     well_formed σ → σ !! k = Some doc → target t = k → is_create t = false →
     submit VaccineBatch Shipment ctx t σ = (Ok o, σ') →
     ∃ doc', σ' !! k = Some doc' ∧ R doc doc') →
  ∀ txs σ doc,
    well_formed σ → σ !! k = Some doc → never_recreated k txs →
    ∃ doc', execute VaccineBatch Shipment txs σ !! k = Some doc' ∧ R doc doc'.
Proof.
  intros HVB HS Hrefl Htrans Hstep txs.
  induction txs as [|[ctx t] txs IH]; intros σ doc Hwf Hat Hnever.
  - exists doc. by split.
  - apply Forall_cons in Hnever as [Hnot Hnever]. cbn [snd] in Hnot.
    rewrite execute_cons.
    pose proof (submit_well_formed _ _ ctx t σ HVB HS Hwf) as Hwf'.
    pose proof (submit_footprint _ _ ctx t HVB HS σ Hwf) as Hfoot.
    destruct (submit VaccineBatch Shipment ctx t σ) as [[o|e] σ'] eqn:Hrun; cbn [snd] in *.
    + destruct Hfoot as (_ & d & Hσ').
      destruct (decide (target t = k)) as [Hk|Hk].
      * destruct (is_create t) eqn:Hc; [by destruct (Hnot eq_refl)|].
        destruct (Hstep ctx t σ doc o σ' Hwf Hat Hk Hc Hrun) as (doc1 & Hat1 & HR1).
        destruct (IH σ' doc1 Hwf' Hat1 Hnever) as (doc' & Hat' & HR').
        exists doc'. split; [done|by eapply Htrans].
      * apply IH; [done| |done]. subst σ'. by rewrite lookup_insert_ne.
    + subst σ'. by apply IH.
Qed.

Lemma material_step (VaccineBatch Shipment : AssetModule) (key : string) (ctx : Context)
    (t : transaction) (σ : ledger) (doc : props) (o : object) (σ' : ledger) :
  well_formed σ → σ !! ("org.vaccine.rawmaterial", key) = Some doc →
  target t = ("org.vaccine.rawmaterial", key) → is_create t = false →
  submit VaccineBatch Shipment ctx t σ = (Ok o, σ') →
  ∃ doc', σ' !! ("org.vaccine.rawmaterial", key) = Some doc' ∧ material_evolves doc doc'.
Proof.
  intros Hwf Hat Ht Hc Hrun.
  assert (Hst : stored "org.vaccine.rawmaterial" CRawMaterial σ key doc)
    by by apply well_formed_stored.
  destruct t; try discriminate Hc; try discriminate Ht; cbn [submit target] in *;
    injection Ht as <-.
  - destruct (not_nullish (get doc "purchaser")) eqn:Hp.
    + destruct (purchaseMaterial2_guard ctx manufacturer batchNumber purchaser price
                  purchaseDateTime σ doc Hst Hp) as [msg Hthrow].
      rewrite Hthrow in Hrun. discriminate Hrun.
    + rewrite (purchaseMaterial2_success ctx manufacturer batchNumber purchaser price
                 purchaseDateTime σ doc Hst Hp) in Hrun.
      injection Hrun as <- <-. eexists. split; [apply lookup_insert_eq|].
      split; [|split].
      * intros field Hfield. unfold material_written_fields in Hfield.
        rewrite !lookup_insert_ne; [done|..]; intros <-; apply Hfield; repeat constructor.
      * intros Hp'. by rewrite Hp' in Hp.
      * intros _. by rewrite !lookup_insert_ne.
  - destruct (not_nullish (get doc "dateMixedIn")) eqn:Hd.
    + destruct (addMaterial2_guard ctx manufacturer batchNumber dateTimeAdded σ doc Hst Hd)
        as [msg Hthrow].
      rewrite Hthrow in Hrun. discriminate Hrun.
    + rewrite (addMaterial2_success ctx manufacturer batchNumber dateTimeAdded σ doc Hst Hd)
        in Hrun.
      injection Hrun as <- <-. eexists. split; [apply lookup_insert_eq|].
      split; [|split].
      * intros field Hfield. unfold material_written_fields in Hfield.
        rewrite !lookup_insert_ne; [done|..]; intros <-; apply Hfield; repeat constructor.
      * intros _ field Hfield. unfold material_purchase_fields in Hfield.
        rewrite lookup_insert_ne; [done|]. intros <-.
        repeat (apply elem_of_cons in Hfield as [Hfield|Hfield]; [discriminate Hfield|]).
        by apply elem_of_nil in Hfield.
      * intros Hd'. by rewrite Hd' in Hd.
Qed.

(** X10: along any run of transactions that does not create the raw
    material again, by whatever callers, the record stays on the ledger,
    only purchaser, purchaseDate, price, mspid and dateMixedIn can
    change, and once the purchaser is set the four purchase properties
    keep their values, once [dateMixedIn] is set it keeps its value. *)
Theorem material_fields_set_once (VaccineBatch Shipment : AssetModule)
    (txs : list (Context * transaction)) (σ : ledger) (key : string) (doc : props) :
  let k := ("org.vaccine.rawmaterial", key) in
  VaccineBatch = VaccineBatch_js ∨ VaccineBatch = VaccineBatchAlt_js →
  Shipment = ShipmentDistributor_js ∨ Shipment = ShipmentManufacturer_js →
  well_formed σ → σ !! k = Some doc → never_recreated k txs →
  ∃ doc', execute VaccineBatch Shipment txs σ !! k = Some doc' ∧ material_evolves doc doc'.
Proof.
  intros k HVB HS. apply execute_evolves; [done|done|apply material_evolves_refl| |].
  - apply material_evolves_trans.
  - intros ctx t σ0 doc0 o σ'. apply material_step.
Qed.

Lemma material_fields_set_once_witness :
  ∃ doc',
    execute VaccineBatch_js ShipmentManufacturer_js
      [(Org3, PurchaseMaterial "Acme" "RM-1" "Moderna" "1" "2021-03-09");
       (Org3, AddMaterial "Acme" "RM-1" "2021-03-20");
       (Org1, AddMaterial "Acme" "RM-1" "2021-03-22")] ledger_purchased
      !! ("org.vaccine.rawmaterial", "Acme:RM-1") = Some doc'
    ∧ material_evolves
        (record_at ledger_purchased ("org.vaccine.rawmaterial", "Acme:RM-1")) doc'.
Proof.
  apply (material_fields_set_once VaccineBatch_js ShipmentManufacturer_js
    [(Org3, PurchaseMaterial "Acme" "RM-1" "Moderna" "1" "2021-03-09");
     (Org3, AddMaterial "Acme" "RM-1" "2021-03-20");
     (Org1, AddMaterial "Acme" "RM-1" "2021-03-22")] ledger_purchased "Acme:RM-1").
  - by left.
  - by right.
  - apply sample_ledgers_well_formed.
  - reflexivity.
  - repeat constructor; discriminate.
Defined.


Lemma shipment_evolves_trans (a b c : props) :
  shipment_evolves a b → shipment_evolves b c → shipment_evolves a c.
Proof.
  intros (Hf1 & Hp1 & Hd1) (Hf2 & Hp2 & Hd2). split; [|split].
  - intros field Hfield. by rewrite Hf2, Hf1.
  - intros Hp field Hfield.
    assert (Hpb : not_nullish (get b "shipDateTime") = true).
    { rewrite (get_eq a b "shipDateTime"); [done|]. apply Hp1; [done|]. repeat constructor. }
    by rewrite (Hp2 Hpb field Hfield), (Hp1 Hp field Hfield).
  - intros Hd.
    assert (Hdb : not_nullish (get b "arrivalDateTime") = true).
    { rewrite (get_eq a b "arrivalDateTime"); [done|]. by apply Hd1. }
    by rewrite (Hd2 Hdb), (Hd1 Hd).
Qed.

(** A field that is none of the listed names is read through the
    assignments of the listed names. *)
Ltac frame_fields Hfield L :=
  unfold L in Hfield;
  rewrite !lookup_insert_ne; [done|..]; intros <-; apply Hfield; repeat constructor.

Ltac other_fields Hfield L :=
  unfold L in Hfield;
  rewrite !lookup_insert_ne; [done|..]; intros <-;
  repeat (apply elem_of_cons in Hfield as [Hfield|Hfield]; [discriminate Hfield|]);
  by apply elem_of_nil in Hfield.

Lemma shipment_step (VaccineBatch Shipment : AssetModule) (key : string) (ctx : Context)
    (t : transaction) (σ : ledger) (doc : props) (o : object) (σ' : ledger) :
  Shipment = ShipmentDistributor_js ∨ Shipment = ShipmentManufacturer_js →
  well_formed σ → σ !! ("org.vaccine.shipment", key) = Some doc →
  target t = ("org.vaccine.shipment", key) → is_create t = false →
  submit VaccineBatch Shipment ctx t σ = (Ok o, σ') →
  ∃ doc', σ' !! ("org.vaccine.shipment", key) = Some doc' ∧ shipment_evolves doc doc'
          ∧ Shipment = ShipmentManufacturer_js.
Proof.
  intros [-> | ->] Hwf Hat Ht Hc Hrun.
  { destruct t; try discriminate Hc; try discriminate Ht; cbn [submit] in Hrun.
    - destruct (distributor_ship_and_arrival_never_succeed ctx shipmentUUID vehicleUUID source
                  timestamp vehicleOperator currentTemp σ) as [[e He] _].
      rewrite He in Hrun. discriminate Hrun.
    - destruct (updateLocationTemp_distributor ctx shipmentUUID timestamp currentLocation
                  currentTemp σ) as [e He].
      rewrite He in Hrun. discriminate Hrun.
    - destruct (distributor_ship_and_arrival_never_succeed ctx shipmentUUID "" "" timestamp
                  "" "" σ) as [_ [e He]].
      rewrite He in Hrun. discriminate Hrun. }
  assert (Hst : stored "org.vaccine.shipment" CShipmentManufacturer σ key doc)
    by by apply well_formed_stored.
  destruct t; try discriminate Hc; try discriminate Ht; cbn [submit target] in *;
    injection Ht as <-.
  - destruct (not_nullish (get doc "shipDateTime")) eqn:Hp.
    + rewrite (shipShipment_guard ctx shipmentUUID vehicleUUID source timestamp vehicleOperator
                 currentTemp σ doc Hst Hp) in Hrun. discriminate Hrun.
    + rewrite (shipShipment_success ctx shipmentUUID vehicleUUID source timestamp
                 vehicleOperator currentTemp σ doc Hst Hp) in Hrun.
      injection Hrun as <- <-. eexists. split; [apply lookup_insert_eq|].
      split; [|done]. split; [|split].
      * intros field Hfield. frame_fields Hfield shipment_written_fields.
      * intros Hp'. by rewrite Hp' in Hp.
      * intros _. by rewrite !lookup_insert_ne.
  - rewrite (updateLocationTemp_manufacturer ctx shipmentUUID timestamp currentLocation
               currentTemp σ doc Hst) in Hrun.
    injection Hrun as <- <-. eexists. split; [apply lookup_insert_eq|].
    split; [|done]. split; [|split].
    + intros field Hfield. frame_fields Hfield shipment_written_fields.
    + intros _ field Hfield. other_fields Hfield shipment_ship_fields.
    + intros _. by rewrite !lookup_insert_ne.
  - destruct (not_nullish (get doc "arrivalDateTime")) eqn:Hd.
    + rewrite (shipmentArrival_guard ctx shipmentUUID timestamp σ doc Hst Hd) in Hrun.
      discriminate Hrun.
    + rewrite (shipmentArrival_success ctx shipmentUUID timestamp σ doc Hst Hd) in Hrun.
      injection Hrun as <- <-. eexists. split; [apply lookup_insert_eq|].
      split; [|done]. split; [|split].
      * intros field Hfield. frame_fields Hfield shipment_written_fields.
      * intros _ field Hfield. other_fields Hfield shipment_ship_fields.
      * intros Hd'. by rewrite Hd' in Hd.
Qed.

(** X18: along any run of transactions that does not order the shipment
    again, the record stays on the ledger, its identifier, provider,
    source and destination do not change, the ship date, vehicle and
    operator keep their values once the ship date is set, and the arrival
    date keeps its value once set; with the [Shipment] class of the
    distributor the record does not change at all. *)
Theorem shipment_fields_set_once (VaccineBatch Shipment : AssetModule)
    (txs : list (Context * transaction)) (σ : ledger) (key : string) (doc : props) :
  let k := ("org.vaccine.shipment", key) in
  VaccineBatch = VaccineBatch_js ∨ VaccineBatch = VaccineBatchAlt_js →
  Shipment = ShipmentDistributor_js ∨ Shipment = ShipmentManufacturer_js →
  well_formed σ → σ !! k = Some doc → never_recreated k txs →
  (∃ doc', execute VaccineBatch Shipment txs σ !! k = Some doc' ∧ shipment_evolves doc doc')
  ∧ (Shipment = ShipmentDistributor_js → execute VaccineBatch Shipment txs σ !! k = Some doc).
Proof.
  intros k HVB HS Hwf Hat Hnever. split.
  - revert σ doc Hwf Hat Hnever.
    apply execute_evolves; [done|done|by repeat split|apply shipment_evolves_trans|].
    intros ctx t σ0 doc0 o σ' Hwf Hat Ht Hc Hrun.
    destruct (shipment_step VaccineBatch Shipment key ctx t σ0 doc0 o σ' HS Hwf Hat Ht Hc Hrun)
      as (doc' & ? & ? & _).
    by exists doc'.
  - intros ->.
    destruct (execute_evolves VaccineBatch ShipmentDistributor_js k (fun a b => b = a) HVB HS)
      with (txs := txs) (σ := σ) (doc := doc) as (doc' & Hat' & ->); try done.
    + by intros a b c -> ->.
    + intros ctx t σ0 doc0 o σ' Hwf0 Hat0 Ht Hc Hrun.
      by destruct (shipment_step VaccineBatch ShipmentDistributor_js key ctx t σ0 doc0 o σ' HS
                     Hwf0 Hat0 Ht Hc Hrun) as (doc' & _ & _ & [=]).
Qed.

Lemma shipment_fields_set_once_witness :
  ∃ doc',
    execute VaccineBatch_js ShipmentManufacturer_js
      [(Org3, UpdateLocationTemp "S1" "2021-04-02 12:00" "Trenton" "-69");
       (Org1, ShipShipment "S1" "V9" "Camden" "2021-04-05 10:00" "Eve" "-20");
       (Org3, ShipmentArrival "S1" "2021-04-03 09:00")] ledger_shipped
      !! ("org.vaccine.shipment", "S1") = Some doc'
    ∧ shipment_evolves (record_at ledger_shipped ("org.vaccine.shipment", "S1")) doc'.
Proof.
  refine (proj1 (shipment_fields_set_once VaccineBatch_js ShipmentManufacturer_js
    [(Org3, UpdateLocationTemp "S1" "2021-04-02 12:00" "Trenton" "-69");
     (Org1, ShipShipment "S1" "V9" "Camden" "2021-04-05 10:00" "Eve" "-20");
     (Org3, ShipmentArrival "S1" "2021-04-03 09:00")] ledger_shipped "S1"
    (record_at ledger_shipped ("org.vaccine.shipment", "S1")) _ _ _ _ _)).
  - by left.
  - by right.
  - apply sample_ledgers_well_formed.
  - reflexivity.
  - repeat constructor; discriminate.
Defined.

Lemma batch_step (VaccineBatch Shipment : AssetModule) (key : string) (ctx : Context)
    (t : transaction) (σ : ledger) (doc : props) (o : object) (σ' : ledger) :
  VaccineBatch = VaccineBatch_js ∨ VaccineBatch = VaccineBatchAlt_js →
  well_formed σ → σ !! ("org.vaccine.vaccineBatch", key) = Some doc →
  target t = ("org.vaccine.vaccineBatch", key) → is_create t = false →
  submit VaccineBatch Shipment ctx t σ = (Ok o, σ') →
  ∃ doc', σ' !! ("org.vaccine.vaccineBatch", key) = Some doc' ∧ batch_evolves doc doc'.
Proof.
  intros HVB Hwf Hat Ht Hc Hrun.
  assert (Hst : stored "org.vaccine.vaccineBatch" (asset_class VaccineBatch) σ key doc).
  { apply well_formed_stored; [done| |done]. by destruct HVB as [-> | ->]. }
  destruct t; try discriminate Hc; try discriminate Ht; cbn [submit target] in *;
    injection Ht as <-.
  - destruct (strict_eq (get doc "purchaser") (VStr currentOwner)) eqn:Hp.
    + apply strict_eq_VStr in Hp.
      rewrite (buy_success VaccineBatch ctx batchNumber manufacturer currentOwner newOwner
                 price purchaseDateTime σ doc HVB Hst Hp) in Hrun.
      injection Hrun as <- <-. eexists. split; [apply lookup_insert_eq|].
      intros field Hfield. frame_fields Hfield batch_written_fields.
    + rewrite (buy_guard VaccineBatch ctx batchNumber manufacturer currentOwner newOwner
                 price purchaseDateTime σ doc HVB Hst) in Hrun; [discriminate Hrun|].
      intros Heq. apply strict_eq_VStr in Heq. by rewrite Heq in Hp.
  - rewrite (ship_success VaccineBatch ctx batchNumber manufacturer shippingProvider
               shipmentUUID σ doc HVB Hst) in Hrun.
    injection Hrun as <- <-. eexists. split; [apply lookup_insert_eq|].
    intros field Hfield. frame_fields Hfield batch_written_fields.
  - rewrite (arrived_success VaccineBatch ctx batchNumber manufacturer arrivalDate σ doc HVB
               Hst) in Hrun.
    injection Hrun as <- <-. eexists. split; [apply lookup_insert_eq|].
    intros field Hfield. frame_fields Hfield batch_written_fields.
Qed.

(** X14: along any run of transactions that does not issue the batch
    again, only purchaser, purchaseDate, price, shippingProvider,
    shipmentUUID and currentState of a stored batch can change: no
    transaction writes the owner MSP, the raw materials, the temperature,
    the approver or the ready flag of a batch. *)
Theorem batch_fields_never_written (VaccineBatch Shipment : AssetModule)
    (txs : list (Context * transaction)) (σ : ledger) (key : string) (doc : props) :
  let k := ("org.vaccine.vaccineBatch", key) in
  VaccineBatch = VaccineBatch_js ∨ VaccineBatch = VaccineBatchAlt_js →
  Shipment = ShipmentDistributor_js ∨ Shipment = ShipmentManufacturer_js →
  well_formed σ → σ !! k = Some doc → never_recreated k txs →
  ∃ doc',
    execute VaccineBatch Shipment txs σ !! k = Some doc'
    ∧ batch_evolves doc doc'
    ∧ get doc' "mspid" = get doc "mspid"
    ∧ get doc' "rawMaterialBatchSet" = get doc "rawMaterialBatchSet"
    ∧ get doc' "temperature" = get doc "temperature"
    ∧ get doc' "approver" = get doc "approver"
    ∧ get doc' "ready" = get doc "ready".
Proof.
  intros k HVB HS Hwf Hat Hnever.
  destruct (execute_evolves VaccineBatch Shipment k batch_evolves HVB HS)
    with (txs := txs) (σ := σ) (doc := doc) as (doc' & Hat' & Hev); try done.
  - intros a b c Hab Hbc field Hfield. by rewrite Hbc, Hab.
  - intros ctx t σ0 doc0 o σ'. by apply batch_step.
  - exists doc'. split; [done|]. split; [done|].
    assert (Hin : ∀ f, f ∈ batch_written_fields →
              f = "purchaser" ∨ f = "purchaseDate" ∨ f = "price" ∨ f = "shippingProvider"
              ∨ f = "shipmentUUID" ∨ f = "currentState").
    { intros f Hf. unfold batch_written_fields in Hf.
      repeat (apply elem_of_cons in Hf as [Hf|Hf]; [by auto 10|]). by apply elem_of_nil in Hf. }
    repeat split; apply get_eq, Hev; intros Hf%Hin; by repeat destruct Hf as [Hf|Hf].
Qed.

Lemma batch_fields_never_written_witness :
  ∃ doc',
    execute VaccineBatch_js ShipmentManufacturer_js
      [(Org3, BuyBatch "B1" "Pfizer" "Pfizer" "CVS" "10" "2021-05-01");
       (Org3, ShipBatch "B1" "Pfizer" "DHL" "S1");
       (Org1, BatchArrived "B1" "Pfizer" "2021-05-03")] (ledger_batch VaccineBatch_js)
      !! ("org.vaccine.vaccineBatch", "B1:Pfizer") = Some doc'
    ∧ get doc' "mspid" = VStr "Org2MSP".
Proof.
  destruct (batch_fields_never_written VaccineBatch_js ShipmentManufacturer_js
    [(Org3, BuyBatch "B1" "Pfizer" "Pfizer" "CVS" "10" "2021-05-01");
     (Org3, ShipBatch "B1" "Pfizer" "DHL" "S1");
     (Org1, BatchArrived "B1" "Pfizer" "2021-05-03")] (ledger_batch VaccineBatch_js) "B1:Pfizer"
    (record_at (ledger_batch VaccineBatch_js) ("org.vaccine.vaccineBatch", "B1:Pfizer")))
    as (doc' & Hat & _ & Hmsp & _).
  - by left.
  - by right.
  - apply sample_ledgers_well_formed.
  - reflexivity.
  - repeat constructor; discriminate.
  - exists doc'. split; [exact Hat|exact Hmsp].
Defined.

(** ** Reading the results of a query *)

Section QueryResults.
Variable json : Type.
Variable JSON_parse : string → option json.
Variable LocalTZA : Z → bool → Z.

Lemma push_app (acc : list (RawMaterialQueryUtils.jsonRes json)) r :
  RawMaterialQueryUtils.push json acc r = (acc ++ omap id [r])%list.
Proof. destruct r; cbn; by rewrite ?app_nil_r. Qed.

Lemma loop_returns h wc before last rest rs acc :
  Forall (fun res => res_done res = false) before →
  res_done last = true →
  Forall2 (fun res r => RawMaterialQueryUtils.materialize json JSON_parse LocalTZA h res = Ok r)
    (before ++ [last])%list rs →
  RawMaterialQueryUtils.loop json JSON_parse LocalTZA h wc
    ((Resolves <$> before) ++ Resolves last :: rest)%list acc
  = (Ok (acc ++ omap id rs)%list, {| pending := rest; closed := true |}).
Proof.
  revert rs acc. induction before as [|res before IH]; intros rs acc Hnd Hd Hm.
  - cbn in Hm. apply Forall2_cons_inv_l in Hm as (r & rs' & Hr & Hnil & ->).
    apply Forall2_nil_inv_l in Hnil as ->.
    cbn [fmap list_fmap app RawMaterialQueryUtils.loop]. rewrite Hr, Hd. by rewrite push_app.
  - cbn in Hm. apply Forall2_cons_inv_l in Hm as (r & rs' & Hr & Hrest & ->).
    apply Forall_cons in Hnd as [Hnd1 Hnd].
    cbn [fmap list_fmap app RawMaterialQueryUtils.loop]. rewrite Hr, Hnd1.
    rewrite (IH rs' _ Hnd Hd Hrest). rewrite push_app. cbn [omap list_omap].
    f_equal. f_equal. rewrite <- app_assoc. f_equal. by destruct r.
Qed.

Lemma loop_returned h wc outcomes acc results iterator' :
  RawMaterialQueryUtils.loop json JSON_parse LocalTZA h wc outcomes acc = (Ok results, iterator') →
  ∃ before last rs,
    outcomes = ((Resolves <$> before) ++ Resolves last :: pending iterator')%list
    ∧ Forall (fun res => res_done res = false) before
    ∧ res_done last = true
    ∧ Forall2 (fun res r => RawMaterialQueryUtils.materialize json JSON_parse LocalTZA h res = Ok r)
        (before ++ [last])%list rs
    ∧ results = (acc ++ omap id rs)%list
    ∧ closed iterator' = true.
Proof.
  revert acc. induction outcomes as [|[res|e] rest IH]; intros acc; cbn.
  - discriminate.
  - destruct (RawMaterialQueryUtils.materialize json JSON_parse LocalTZA h res) as [r|e] eqn:Hr;
      [|discriminate].
    destruct (res_done res) eqn:Hd.
    + intros [= <- <-]. exists [], res, [r]. cbn.
      split_and!; [done|constructor|done|by repeat constructor|by rewrite push_app|done].
    + intros H. apply IH in H as (before & last & rs & -> & Hnd & Hlast & Hm & -> & Hc).
      exists (res :: before), last, (r :: rs). cbn.
      split_and!; [done|by constructor|done|by constructor| |done].
      rewrite push_app. cbn [omap list_omap]. rewrite <- app_assoc. f_equal. by destruct r.
  - discriminate.
Qed.

(** X1: [getAllResults] returns its results exactly when the responses of
    the iterator start with a run of responses that carry a value with a
    buffer (and a timestamp, in a history query) and are not [done],
    followed by one such response that is [done].  The results are then
    the entries of these responses with a non-empty buffer, in order; the
    iterator is closed and the responses after the [done] one are not
    consumed. *)
Theorem getAllResults_returns_iff (iterator iterator' : Iterator) (isHistory : bool)
    (results : list (RawMaterialQueryUtils.jsonRes json)) :
  RawMaterialQueryUtils.getAllResults json JSON_parse LocalTZA iterator isHistory
    = (Ok results, iterator')
  ↔ ∃ before last rs,
      pending iterator = ((Resolves <$> before) ++ Resolves last :: pending iterator')%list
      ∧ Forall (fun res => res_done res = false) before
      ∧ res_done last = true
      ∧ Forall2 (fun res r =>
                   RawMaterialQueryUtils.materialize json JSON_parse LocalTZA isHistory res = Ok r)
          (before ++ [last])%list rs
      ∧ results = omap id rs
      ∧ closed iterator' = true.
Proof.
  unfold RawMaterialQueryUtils.getAllResults. split.
  - intros H. apply loop_returned in H as (before & last & rs & ? & ? & ? & ? & ? & ?).
    by exists before, last, rs.
  - intros (before & last & rs & Hp & Hnd & Hd & Hm & -> & Hc).
    rewrite Hp. rewrite (loop_returns _ _ _ _ _ rs [] Hnd Hd Hm).
    destruct iterator' as [p c]. cbn in *. by subst c.
Qed.

Lemma loop_value_less h wc before rest d acc :
  Forall (fun res => res_done res = false
     ∧ ∃ r, RawMaterialQueryUtils.materialize json JSON_parse LocalTZA h res = Ok r) before →
  RawMaterialQueryUtils.loop json JSON_parse LocalTZA h wc
    ((Resolves <$> before) ++ Resolves {| res_value := None; res_done := d |} :: rest)%list acc
  = (Throw (TypeError "Cannot read properties of undefined (reading 'value')"),
     {| pending := rest; closed := wc |})
  ∧ RawMaterialQueryUtils.loop json JSON_parse LocalTZA h wc (Resolves <$> before) acc
    = (Throw (TypeError "Cannot read properties of undefined (reading 'value')"),
       {| pending := []; closed := wc |}).
Proof.
  revert acc. induction before as [|res before IH]; intros acc Hb.
  - split; reflexivity.
  - apply Forall_cons in Hb as [[Hnd [r Hr]] Hb].
    cbn [fmap list_fmap app RawMaterialQueryUtils.loop]. rewrite Hr, Hnd. by apply IH.
Qed.

(** X2: a response without a value -- what an iterator answers once its
    results are used up, [{ done: true }] -- makes [getAllResults] throw a
    [TypeError] whatever was collected before, and the iterator is left
    open; so does the end of the responses.  In particular a query with no
    result throws instead of returning the empty list. *)
Theorem getAllResults_value_less_response (isHistory was_closed d : bool)
    (before : list IteratorResult) (rest : list next_outcome) :
  Forall (fun res => res_done res = false
     ∧ ∃ r, RawMaterialQueryUtils.materialize json JSON_parse LocalTZA isHistory res = Ok r) before →
  let e := TypeError "Cannot read properties of undefined (reading 'value')" in
  RawMaterialQueryUtils.getAllResults json JSON_parse LocalTZA
    {| pending := (Resolves <$> before) ++ Resolves {| res_value := None; res_done := d |} :: rest;
       closed := was_closed |} isHistory
  = (Throw e, {| pending := rest; closed := was_closed |})
  ∧ RawMaterialQueryUtils.getAllResults json JSON_parse LocalTZA
      {| pending := Resolves <$> before; closed := was_closed |} isHistory
    = (Throw e, {| pending := []; closed := was_closed |}).
Proof. intros Hb e. by apply loop_value_less. Qed.

Lemma MakeDate_of_local_time (t ms : Z) :
  Date.MakeDate (Date.Day t)
    (Date.MakeTime (Date.HourFromTime t) (Date.MinFromTime t) (Date.SecFromTime t) ms)
  = (t - t `mod` 1000 + ms)%Z.
Proof.
  unfold Date.MakeDate, Date.MakeTime, Date.Day, Date.HourFromTime, Date.MinFromTime,
    Date.SecFromTime, Date.msPerDay, Date.msPerHour, Date.msPerMinute, Date.msPerSecond.
  Z.div_mod_to_equations. lia.
Qed.

Lemma TimeClip_in_range (time : Z) :
  (-8640000000000000 ≤ time ≤ 8640000000000000)%Z → Date.TimeClip time = Some time.
Proof.
  intros H. unfold Date.TimeClip.
  destruct (Z.leb_spec (Z.abs time) 8640000000000000) as [_|Hgt]; [done|lia].
Qed.

(** Where local time is a whole number of seconds from UTC, the same at
    all times, [setMilliseconds] on a date at a whole second adds the
    milliseconds. *)
Lemma setMilliseconds_fixed_offset (zone : Z → bool → Z) (offset seconds ms : Z) :
  (∀ t isUTC, zone t isUTC = offset * 1000)%Z →
  (-8640000000000000 ≤ seconds * 1000 ≤ 8640000000000000)%Z →
  (-8640000000000000 ≤ seconds * 1000 + ms ≤ 8640000000000000)%Z →
  Date.setMilliseconds zone (Date.new (seconds * 1000)) ms = Some (seconds * 1000 + ms)%Z.
Proof.
  intros Hzone Hs Hms. unfold Date.new. rewrite (TimeClip_in_range _ Hs).
  cbn [Date.setMilliseconds]. cbv zeta. rewrite MakeDate_of_local_time.
  unfold Date.UTC, Date.LocalTime. rewrite !Hzone.
  replace (seconds * 1000 + offset * 1000)%Z with ((seconds + offset) * 1000)%Z by lia.
  rewrite Z.mod_mul by lia.
  replace ((seconds + offset) * 1000 - 0 + ms - offset * 1000)%Z
    with (seconds * 1000 + ms)%Z by lia.
  by apply TimeClip_in_range.
Qed.

(** X4: in a runtime whose local time is a fixed whole number of seconds
    from UTC, the [Timestamp] of a history result is a valid date when the
    low word of the seconds is a signed 32-bit integer and the nanoseconds
    lie within one second: its time value is the low word of the seconds
    in milliseconds plus the whole milliseconds of the nanoseconds, the
    floor of (seconds.low * 10^9 + nanos) / 10^6, between
    seconds.low * 1000 and seconds.low * 1000 + 999.  The high word of the
    seconds is not read. *)
Theorem history_timestamp_in_milliseconds (offset : Z) (res : IteratorResult) (kv : KeyValue)
    (ts : Timestamp) (j : RawMaterialQueryUtils.jsonRes json) :
  (∀ t isUTC, LocalTZA t isUTC = offset * 1000)%Z →
  res_value res = Some kv →
  kv_timestamp kv = Some ts →
  (-2147483648 ≤ seconds_low ts < 2147483648)%Z →
  (0 ≤ nanos ts < 1000000000)%Z →
  RawMaterialQueryUtils.materialize json JSON_parse LocalTZA true res = Ok (Some j) →
  ∃ t, history_time j = Some t
       ∧ t = (seconds_low ts * 1000000000 + nanos ts) `div` 1000000
       ∧ (seconds_low ts * 1000 ≤ t ≤ seconds_low ts * 1000 + 999)%Z.
Proof.
  intros Hzone Hv Hts Hs Hn. unfold RawMaterialQueryUtils.materialize. rewrite Hv.
  destruct (kv_value kv) as [text|]; [|discriminate].
  destruct (bool_decide _); [discriminate|]. rewrite Hts.
  assert (Hq : nanos ts ÷ 1000000 = nanos ts `div` 1000000) by (apply Z.quot_div_nonneg; lia).
  assert (Ht : seconds_low ts * 1000 + nanos ts ÷ 1000000
               = (seconds_low ts * 1000000000 + nanos ts) `div` 1000000).
  { rewrite Hq. replace (seconds_low ts * 1000000000) with (seconds_low ts * 1000 * 1000000) by lia.
    rewrite Z.div_add_l by lia. reflexivity. }
  assert (Hb : (0 ≤ nanos ts `div` 1000000 ≤ 999)%Z).
  { split; [apply Z.div_pos; lia|]. apply Z.lt_succ_r. apply Z.div_lt_upper_bound; lia. }
  rewrite (setMilliseconds_fixed_offset LocalTZA offset _ _ Hzone) by (rewrite ?Hq; lia).
  destruct (kv_is_delete kv); intros [= <-]; cbn [history_time];
    (eexists; split; [reflexivity|]; split; [exact Ht|rewrite Hq; lia]).
Qed.

End QueryResults.

Lemma materialize_parse_independent (json1 json2 : Type) (parse1 : string → option json1)
    (parse2 : string → option json2) (LocalTZA : Z → bool → Z) (h : bool)
    (res : IteratorResult) :
  match RawMaterialQueryUtils.materialize json1 parse1 LocalTZA h res,
        RawMaterialQueryUtils.materialize json2 parse2 LocalTZA h res with
  | Ok r1, Ok r2 => is_Some r1 ↔ is_Some r2
  | Throw e1, Throw e2 => e1 = e2
  | _, _ => False
  end.
Proof.
  unfold RawMaterialQueryUtils.materialize.
  destruct (res_value res) as [kv|]; [|done].
  destruct (kv_value kv) as [text|]; [|done].
  destruct (bool_decide _); [done|].
  destruct h; [|split; intros _; by eexists].
  destruct (kv_timestamp kv); [|done].
  destruct (kv_is_delete kv); split; intros _; by eexists.
Qed.

Lemma loop_parse_independent (json1 json2 : Type) (parse1 : string → option json1)
    (parse2 : string → option json2) (LocalTZA : Z → bool → Z) (h wc : bool)
    (outcomes : list next_outcome) acc1 acc2 :
  length acc1 = length acc2 →
  same_outcome (RawMaterialQueryUtils.loop json1 parse1 LocalTZA h wc outcomes acc1)
    (RawMaterialQueryUtils.loop json2 parse2 LocalTZA h wc outcomes acc2).
Proof.
  revert acc1 acc2. induction outcomes as [|[res|e] rest IH]; intros acc1 acc2 Hlen; cbn.
  - by split.
  - pose proof (materialize_parse_independent json1 json2 parse1 parse2 LocalTZA h res) as Hm.
    destruct (RawMaterialQueryUtils.materialize json1 parse1 LocalTZA h res) as [r1|e1],
      (RawMaterialQueryUtils.materialize json2 parse2 LocalTZA h res) as [r2|e2];
      [|done|done|by subst].
    assert (Hpush : length (RawMaterialQueryUtils.push json1 acc1 r1)
                      = length (RawMaterialQueryUtils.push json2 acc2 r2)).
      { destruct r1 as [j1|], r2 as [j2|]; cbn; rewrite ?length_app; cbn.
        - lia.
        - destruct (proj1 Hm (mk_is_Some _ _ eq_refl)) as [? [=]].
        - destruct (proj2 Hm (mk_is_Some _ _ eq_refl)) as [? [=]].
        - done. }
    destruct (res_done res); [by split|by apply IH].
  - by split.
Qed.

(** X3: whether [JSON.parse] accepts a payload or throws has no effect on
    the course of [getAllResults]: with any two parsers the iterator is
    left in the same state, and the query returns as many results or throws
    the same error. *)
Theorem getAllResults_parse_independent (json1 json2 : Type) (parse1 : string → option json1)
    (parse2 : string → option json2) (LocalTZA : Z → bool → Z) (iterator : Iterator)
    (isHistory : bool) :
  same_outcome (RawMaterialQueryUtils.getAllResults json1 parse1 LocalTZA iterator isHistory)
    (RawMaterialQueryUtils.getAllResults json2 parse2 LocalTZA iterator isHistory).
Proof. by apply loop_parse_independent. Qed.

Lemma getAllResults_value_less_response_witness :
  RawMaterialQueryUtils.getAllResults unit (fun _ => None) utc
    {| pending := [Resolves (sample_entry "{}" false); Resolves exhausted]; closed := false |}
    true
  = (Throw (TypeError "Cannot read properties of undefined (reading 'value')"),
     {| pending := []; closed := false |}).
Proof.
  refine (proj1 (getAllResults_value_less_response unit (fun _ => None) utc true false true
    [sample_entry "{}" false] [] _)).
  repeat constructor. by eexists.
Defined.

Lemma history_timestamp_in_milliseconds_witness :
  ∃ t, history_time (RawMaterialQueryUtils.HistoryValue unit "tx1" (Some 1617350400001)
                       (RawMaterialQueryUtils.Raw unit "{}")) = Some t
       ∧ t = (1617350400 * 1000000000 + 1999999) `div` 1000000
       ∧ (1617350400 * 1000 ≤ t ≤ 1617350400 * 1000 + 999)%Z.
Proof.
  refine (history_timestamp_in_milliseconds unit (fun _ => None) utc 0 (sample_entry "{}" true)
    _ _ _ _ eq_refl eq_refl _ _ eq_refl).
  - intros t isUTC. reflexivity.
  - cbn. lia.
  - cbn. lia.
Defined.

(** ** The records on the ledger *)

Lemma submit_missing (VaccineBatch Shipment : AssetModule) (ctx : Context) (t : transaction)
    (σ : ledger) :
  is_create t = false →
  σ !! target t = None →
  submit VaccineBatch Shipment ctx t σ = (Throw (TypeError "Cannot read properties of null"), σ).
Proof.
  intros Hc Hnone.
  destruct t; try discriminate Hc; cbn [submit target] in *;
    unfold RawMaterialContract2.purchaseMaterial, RawMaterialContract2.addMaterial,
      VaccineBatchContract.buy, VaccineBatchContract.ship, VaccineBatchContract.arrived,
      ShipmentContract.shipShipment, ShipmentContract.updateLocationTemp,
      ShipmentContract.shipmentArrival, RawMaterialList.getRawMaterial,
      RawMaterialList.list, VaccineBatchList.getVaccineBatch, VaccineBatchList.list,
      ShipmentList.getShipment, ShipmentList.list;
    by rewrite (bind_Ok _ _ _ _ _ (getState_absent _ _ _ _ Hnone)).
Qed.

(** What holds of the documents the create transactions of a namespace
    store, and is kept by the transactions that rewrite a document, holds
    of every record of the namespace on a ledger built from the empty
    one. *)
Lemma reachable_records (VaccineBatch Shipment : AssetModule) (ns : string)
    (P : props → Prop) :
  VaccineBatch = VaccineBatch_js ∨ VaccineBatch = VaccineBatchAlt_js →
  Shipment = ShipmentDistributor_js ∨ Shipment = ShipmentManufacturer_js →
  (∀ doc, created_by VaccineBatch Shipment ns doc → P doc) →
  (∀ doc doc', P doc → changed_by VaccineBatch Shipment ns doc doc' → P doc') →
  ∀ txs key doc, execute VaccineBatch Shipment txs ∅ !! (ns, key) = Some doc → P doc.
Proof.
  intros HVB HS Hcreated Hchanged txs.
  assert (Hinv : ∀ σ, well_formed σ → (∀ key doc, σ !! (ns, key) = Some doc → P doc) →
            ∀ key doc, execute VaccineBatch Shipment txs σ !! (ns, key) = Some doc → P doc).
  { induction txs as [|[ctx t] txs IH]; intros σ Hwf HP; [exact HP|].
    rewrite execute_cons.
    pose proof (submit_well_formed _ _ ctx t σ HVB HS Hwf) as Hwf'.
    pose proof (submit_footprint _ _ ctx t HVB HS σ Hwf) as Hfoot.
    destruct (submit VaccineBatch Shipment ctx t σ) as [[o|e] σ'] eqn:Hrun; cbn [snd] in *.
    - apply IH; [done|]. destruct Hfoot as (_ & d & Hσ').
      intros key doc Hat.
      destruct (decide (target t = (ns, key))) as [Hk|Hk].
      + assert (Hns : (target t).1 = ns) by by rewrite Hk.
        rewrite <- Hk in Hat.
        destruct (is_create t) eqn:Hc.
        * apply Hcreated. by exists ctx, t, σ, o, σ'.
        * destruct (σ !! target t) as [doc0|] eqn:Hat0.
          -- apply (Hchanged doc0); [apply (HP key); by rewrite <- Hk|].
             by exists ctx, t, σ, o, σ'.
          -- rewrite (submit_missing _ _ ctx t σ Hc Hat0) in Hrun. discriminate Hrun.
      + apply (HP key). subst σ'. by rewrite lookup_insert_ne in Hat.
    - subst σ'. by apply IH. }
  apply Hinv; [apply well_formed_empty|]. intros key doc H. by rewrite lookup_empty in H.
Qed.

Lemma absent_outside (doc : props) (fields : list string) :
  dom doc ⊆ list_to_set fields → ∀ field, field ∉ fields → doc !! field = None.
Proof.
  intros Hdom field Hfield. apply not_elem_of_dom. intros Hin.
  apply Hfield. apply Hdom in Hin. by apply elem_of_list_to_set in Hin.
Qed.

Lemma created_material_invariant (ctx : Context)
    (materialName batchNumber quantity manufacturer manufactureDate : string) :
  material_invariant (State.serialize (Obj CRawMaterial (<["mspid" := VStr (getMSPID ctx)]>
    (own (RawMaterial.createInstance (VStr materialName) (VStr batchNumber) (VStr quantity)
            (VStr manufacturer) (VStr manufactureDate)))))).
Proof.
  split; [by exists manufacturer, batchNumber|].
  split; [|done].
  apply absent_outside. reflexivity.
Qed.

Lemma material_invariant_created (VaccineBatch Shipment : AssetModule) (doc : props) :
  created_by VaccineBatch Shipment "org.vaccine.rawmaterial" doc → material_invariant doc.
Proof.
  intros (ctx & t & σ & o & σ' & Hc & Hns & Hrun & Hat).
  destruct t; try discriminate Hc; try discriminate Hns. cbn [submit target] in *.
  rewrite createMaterial2_run in Hrun. injection Hrun as <- <-.
  rewrite lookup_insert_eq in Hat. injection Hat as <-.
  apply created_material_invariant.
Qed.

Lemma material_invariant_changed (VaccineBatch Shipment : AssetModule) (doc doc' : props) :
  material_invariant doc →
  changed_by VaccineBatch Shipment "org.vaccine.rawmaterial" doc doc' →
  material_invariant doc'.
Proof.
  intros ((m & b & Hm & Hb & Hkey) & Hschema & Hdate & Hprice & Hmsp)
    (ctx & t & σ & o & σ' & Hwf & Hc & Hns & Hat & Hrun & Hat').
  destruct t; try discriminate Hc; try discriminate Hns; cbn [submit target] in *.
  - assert (Hst : stored "org.vaccine.rawmaterial" CRawMaterial σ
                    (RawMaterial.makeKey [VStr manufacturer; VStr batchNumber]) doc)
      by by apply well_formed_stored.
    destruct (not_nullish (get doc "purchaser")) eqn:Hp.
    + destruct (purchaseMaterial2_guard ctx manufacturer batchNumber purchaser price
                  purchaseDateTime σ doc Hst Hp) as [msg Hthrow].
      rewrite Hthrow in Hrun. discriminate Hrun.
    + rewrite (purchaseMaterial2_success ctx manufacturer batchNumber purchaser price
                 purchaseDateTime σ doc Hst Hp) in Hrun.
      injection Hrun as <- <-. rewrite lookup_insert_eq in Hat'. injection Hat' as <-.
      split; [|split; [|split; [|split]]].
      * exists m, b. revert Hm Hb Hkey. by read_field.
      * intros field Hfield. rewrite <- (Hschema field Hfield).
        frame_fields Hfield material_schema.
      * by read_field.
      * by read_field.
      * by read_field.
  - assert (Hst : stored "org.vaccine.rawmaterial" CRawMaterial σ
                    (RawMaterial.makeKey [VStr manufacturer; VStr batchNumber]) doc)
      by by apply well_formed_stored.
    destruct (not_nullish (get doc "dateMixedIn")) eqn:Hd.
    + destruct (addMaterial2_guard ctx manufacturer batchNumber dateTimeAdded σ doc Hst Hd)
        as [msg Hthrow].
      rewrite Hthrow in Hrun. discriminate Hrun.
    + rewrite (addMaterial2_success ctx manufacturer batchNumber dateTimeAdded σ doc Hst Hd)
        in Hrun.
      injection Hrun as <- <-. rewrite lookup_insert_eq in Hat'. injection Hat' as <-.
      split; [|split; [|split; [|split]]].
      * exists m, b. revert Hm Hb Hkey. by read_field.
      * intros field Hfield. rewrite <- (Hschema field Hfield).
        frame_fields Hfield material_schema.
      * revert Hdate. by read_field.
      * revert Hprice. by read_field.
      * revert Hmsp. by read_field.
Qed.

(** X19: every raw material record on a ledger built from the empty one by
    any run of transactions has its key made of its own manufacturer and
    batch number, has no property beyond the twelve of the class, has a
    purchase date and a price exactly when it has a purchaser -- so
    [isSold], which tests the purchase date, agrees with the test of the
    purchaser in [purchaseMaterial] -- and carries an owner MSP.  It has no
    property [name], the one [queryByName] selects on. *)
Theorem reachable_material_records (VaccineBatch Shipment : AssetModule)
    (txs : list (Context * transaction)) (key : string) (doc : props) :
  VaccineBatch = VaccineBatch_js ∨ VaccineBatch = VaccineBatchAlt_js →
  Shipment = ShipmentDistributor_js ∨ Shipment = ShipmentManufacturer_js →
  execute VaccineBatch Shipment txs ∅ !! ("org.vaccine.rawmaterial", key) = Some doc →
  material_invariant doc
  ∧ doc !! "name" = None
  ∧ (∀ json JSON_parse LocalTZA getQueryResult JSON_stringify_selector materialName,
       RawMaterialQueryUtils.queryByName json JSON_parse LocalTZA getQueryResult
         JSON_stringify_selector materialName
       = RawMaterialQueryUtils.getQueryResultForQueryString json JSON_parse LocalTZA getQueryResult
           (JSON_stringify_selector "name" materialName))
  ∧ (∀ σ, call (Obj CRawMaterial doc) "isSold" [] σ
          = (Ok (VBool (not_nullish (get doc "purchaser")), Obj CRawMaterial doc), σ)).
Proof.
  intros HVB HS Hat.
  assert (Hinv : material_invariant doc).
  { revert txs key doc Hat. apply reachable_records; [done|done| |].
    - apply material_invariant_created.
    - apply material_invariant_changed. }
  split; [exact Hinv|]. destruct Hinv as (_ & Hschema & Hdate & _).
  split.
  { apply Hschema. unfold material_schema. intros Hin.
    repeat (apply elem_of_cons in Hin as [Hin|Hin]; [discriminate Hin|]).
    by apply elem_of_nil in Hin. }
  split; [reflexivity|].
  intros σ. unfold call. cbn. by rewrite Hdate.
Qed.

Lemma batch_invariant_created (VaccineBatch Shipment : AssetModule) (doc : props) :
  VaccineBatch = VaccineBatch_js ∨ VaccineBatch = VaccineBatchAlt_js →
  created_by VaccineBatch Shipment "org.vaccine.vaccineBatch" doc → batch_invariant doc.
Proof.
  intros HVB (ctx & t & σ & o & σ' & Hc & Hns & Hrun & Hat).
  destruct t; try discriminate Hc; try discriminate Hns. cbn [submit target] in *.
  rewrite (issue_run _ _ _ _ _ _ _ _ HVB) in Hrun. injection Hrun as <- <-.
  rewrite lookup_insert_eq in Hat. injection Hat as <-.
  destruct HVB as [-> | ->].
  - split; [by exists batchNumber, manufacturer|].
    split; [apply absent_outside; apply (bool_decide_unpack _); vm_compute; reflexivity|].
    split; [by left|]. split; [by left|]. done.
  - split; [by exists batchNumber, manufacturer|].
    split; [apply absent_outside; apply (bool_decide_unpack _); vm_compute; reflexivity|].
    split; [by left|]. split; [by right|]. done.
Qed.

Lemma batch_invariant_changed (VaccineBatch Shipment : AssetModule) (doc doc' : props) :
  VaccineBatch = VaccineBatch_js ∨ VaccineBatch = VaccineBatchAlt_js →
  batch_invariant doc →
  changed_by VaccineBatch Shipment "org.vaccine.vaccineBatch" doc doc' →
  batch_invariant doc'.
Proof.
  intros HVB ((b & m & Hb & Hm & Hkey) & Hschema & Hstate & Hset & Ht & Ha & He & Hmsp)
    (ctx & t & σ & o & σ' & Hwf & Hc & Hns & Hat & Hrun & Hat').
  assert (Hclass : getClass_of (asset_class VaccineBatch) = "org.vaccine.vaccineBatch")
    by by destruct HVB as [-> | ->].
  destruct t; try discriminate Hc; try discriminate Hns; cbn [submit target] in *;
    (assert (Hst : stored "org.vaccine.vaccineBatch" (asset_class VaccineBatch) σ
                     (State.makeKey [VStr batchNumber; VStr manufacturer]) doc)
       by by apply well_formed_stored).
  - destruct (strict_eq (get doc "purchaser") (VStr currentOwner)) eqn:Hp.
    + apply strict_eq_VStr in Hp.
      rewrite (buy_success VaccineBatch ctx batchNumber manufacturer currentOwner newOwner
                 price purchaseDateTime σ doc HVB Hst Hp) in Hrun.
      injection Hrun as <- <-. rewrite lookup_insert_eq in Hat'. injection Hat' as <-.
      split; [exists b, m; revert Hb Hm Hkey; by read_field|].
      split; [intros field Hfield; rewrite <- (Hschema field Hfield);
              frame_fields Hfield batch_schema|].
      revert Hstate Hset Ht Ha He Hmsp. by read_field.
    + rewrite (buy_guard VaccineBatch ctx batchNumber manufacturer currentOwner newOwner
                 price purchaseDateTime σ doc HVB Hst) in Hrun; [discriminate Hrun|].
      intros Heq. apply strict_eq_VStr in Heq. by rewrite Heq in Hp.
  - rewrite (ship_success VaccineBatch ctx batchNumber manufacturer shippingProvider
               shipmentUUID σ doc HVB Hst) in Hrun.
    injection Hrun as <- <-. rewrite lookup_insert_eq in Hat'. injection Hat' as <-.
    split; [exists b, m; revert Hb Hm Hkey; by read_field|].
    split; [intros field Hfield; rewrite <- (Hschema field Hfield);
            frame_fields Hfield batch_schema|].
    split; [right; left; by read_field|].
    revert Hset Ht Ha He Hmsp. by read_field.
  - rewrite (arrived_success VaccineBatch ctx batchNumber manufacturer arrivalDate σ doc HVB
               Hst) in Hrun.
    injection Hrun as <- <-. rewrite lookup_insert_eq in Hat'. injection Hat' as <-.
    split; [exists b, m; revert Hb Hm Hkey; by read_field|].
    split; [intros field Hfield; rewrite <- (Hschema field Hfield);
            frame_fields Hfield batch_schema|].
    split; [right; right; by read_field|].
    revert Hset Ht Ha He Hmsp. by read_field.
Qed.

(** X20: every vaccine batch record on a ledger built from the empty one by
    any run of transactions has its key made of its own batch number and
    manufacturer, is WAREHOUSED, SHIPPED or ARRIVED -- never ISSUED, so
    [isIssued] is false --, holds no raw material, no temperature, no
    approver and no allocation, and has neither of the properties
    [batchNum] and [issueDateTime] that [queryByBatchNumber] and
    [queryByIssueDateTime] of the batch helper select on.  Either
    [VaccineBatch] class. *)
Theorem reachable_batch_records (VaccineBatch Shipment : AssetModule)
    (txs : list (Context * transaction)) (key : string) (doc : props) :
  VaccineBatch = VaccineBatch_js ∨ VaccineBatch = VaccineBatchAlt_js →
  Shipment = ShipmentDistributor_js ∨ Shipment = ShipmentManufacturer_js →
  execute VaccineBatch Shipment txs ∅ !! ("org.vaccine.vaccineBatch", key) = Some doc →
  batch_invariant doc
  ∧ doc !! "batchNum" = None
  ∧ doc !! "issueDateTime" = None
  ∧ (∀ json JSON_parse LocalTZA getQueryResult JSON_stringify_selector value,
       VaccineBatchQueryUtils.queryByBatchNumber json JSON_parse LocalTZA getQueryResult
         JSON_stringify_selector value
       = RawMaterialQueryUtils.getQueryResultForQueryString json JSON_parse LocalTZA getQueryResult
           (JSON_stringify_selector "batchNum" value)
       ∧ VaccineBatchQueryUtils.queryByIssueDateTime json JSON_parse LocalTZA getQueryResult
           JSON_stringify_selector value
         = RawMaterialQueryUtils.getQueryResultForQueryString json JSON_parse LocalTZA getQueryResult
             (JSON_stringify_selector "issueDateTime" value))
  ∧ (∀ σ, call (Obj (asset_class VaccineBatch) doc) "isIssued" [] σ
          = (Ok (VBool false, Obj (asset_class VaccineBatch) doc), σ)).
Proof.
  intros HVB HS Hat.
  assert (Hinv : batch_invariant doc).
  { revert txs key doc Hat. apply reachable_records; [done|done| |].
    - intros doc. by apply batch_invariant_created.
    - intros doc doc'. by apply batch_invariant_changed. }
  split; [exact Hinv|]. destruct Hinv as (_ & Hschema & Hstate & _).
  assert (Hnot : ∀ f, f ∈ batch_schema → f ≠ "batchNum" ∧ f ≠ "issueDateTime").
  { intros f Hin. unfold batch_schema in Hin.
    repeat (apply elem_of_cons in Hin as [->|Hin]; [by split|]). by apply elem_of_nil in Hin. }
  split; [apply Hschema; intros Hin; by destruct (Hnot _ Hin)|].
  split; [apply Hschema; intros Hin; by destruct (Hnot _ Hin)|].
  split; [by split|].
  intros σ. unfold call.
  destruct HVB as [-> | ->]; cbn; by destruct Hstate as [-> | [-> | ->]].
Qed.

Lemma shipment_invariant_created (VaccineBatch : AssetModule) (doc : props) :
  created_by VaccineBatch ShipmentManufacturer_js "org.vaccine.shipment" doc →
  shipment_invariant doc.
Proof.
  intros (ctx & t & σ & o & σ' & Hc & Hns & Hrun & Hat).
  destruct t; try discriminate Hc; try discriminate Hns. cbn [submit target] in *.
  rewrite orderShipment_run in Hrun by (by right). injection Hrun as <- <-.
  rewrite lookup_insert_eq in Hat. injection Hat as <-.
  split; [by exists shipmentUUID|].
  split; [apply absent_outside; apply (bool_decide_unpack _); vm_compute; reflexivity|].
  split; [done|]. split; [by left|]. done.
Qed.

Lemma shipment_invariant_changed (VaccineBatch : AssetModule) (doc doc' : props) :
  shipment_invariant doc →
  changed_by VaccineBatch ShipmentManufacturer_js "org.vaccine.shipment" doc doc' →
  shipment_invariant doc'.
Proof.
  intros ((u & Hu & Hkey) & Hschema & Hmsp & Hstate & Hv & Ho)
    (ctx & t & σ & o & σ' & Hwf & Hc & Hns & Hat & Hrun & Hat').
  destruct t; try discriminate Hc; try discriminate Hns; cbn [submit target] in *;
    (assert (Hst : stored "org.vaccine.shipment" CShipmentManufacturer σ
                     (State.makeKey [VStr shipmentUUID]) doc)
       by by apply well_formed_stored).
  - destruct (not_nullish (get doc "shipDateTime")) eqn:Hp.
    + rewrite (shipShipment_guard ctx shipmentUUID vehicleUUID source timestamp vehicleOperator
                 currentTemp σ doc Hst Hp) in Hrun. discriminate Hrun.
    + rewrite (shipShipment_success ctx shipmentUUID vehicleUUID source timestamp
                 vehicleOperator currentTemp σ doc Hst Hp) in Hrun.
      injection Hrun as <- <-. rewrite lookup_insert_eq in Hat'. injection Hat' as <-.
      split; [exists u; revert Hu Hkey; by read_field|].
      split; [intros field Hfield; rewrite <- (Hschema field Hfield);
              frame_fields Hfield shipment_schema|].
      split; [revert Hmsp; by read_field|].
      split; [right; left; split; by read_field|].
      split; by read_field.
  - rewrite (updateLocationTemp_manufacturer ctx shipmentUUID timestamp currentLocation
               currentTemp σ doc Hst) in Hrun.
    injection Hrun as <- <-. rewrite lookup_insert_eq in Hat'. injection Hat' as <-.
    split; [exists u; revert Hu Hkey; by read_field|].
    split; [intros field Hfield; rewrite <- (Hschema field Hfield);
            frame_fields Hfield shipment_schema|].
    revert Hmsp Hstate Hv Ho. by read_field.
  - destruct (not_nullish (get doc "arrivalDateTime")) eqn:Hd.
    + rewrite (shipmentArrival_guard ctx shipmentUUID timestamp σ doc Hst Hd) in Hrun.
      discriminate Hrun.
    + rewrite (shipmentArrival_success ctx shipmentUUID timestamp σ doc Hst Hd) in Hrun.
      injection Hrun as <- <-. rewrite lookup_insert_eq in Hat'. injection Hat' as <-.
      split; [exists u; revert Hu Hkey; by read_field|].
      split; [intros field Hfield; rewrite <- (Hschema field Hfield);
              frame_fields Hfield shipment_schema|].
      split; [revert Hmsp; by read_field|].
      split; [right; right; split; by read_field|].
      revert Hv Ho. by read_field.
Qed.

(** X21: with the [Shipment] class of the manufacturer, every shipment
    record on a ledger built from the empty one by any run of transactions
    has its identifier as key and [null] as owner MSP; it has no state and
    no dates, or the state LEFTSOURCE and a ship date, or the state
    ARRIVEDDEST and an arrival date, and the vehicle and its operator are
    set exactly when the ship date is.  So [isShipped] and [isArrived]
    imply the respective date. *)
Theorem reachable_shipment_records (VaccineBatch : AssetModule)
    (txs : list (Context * transaction)) (key : string) (doc : props) :
  VaccineBatch = VaccineBatch_js ∨ VaccineBatch = VaccineBatchAlt_js →
  execute VaccineBatch ShipmentManufacturer_js txs ∅ !! ("org.vaccine.shipment", key)
    = Some doc →
  shipment_invariant doc
  ∧ (∀ σ, call (Obj CShipmentManufacturer doc) "isArrived" [] σ
          = (Ok (VBool true, Obj CShipmentManufacturer doc), σ) →
          not_nullish (get doc "arrivalDateTime") = true)
  ∧ (∀ σ, call (Obj CShipmentManufacturer doc) "isShipped" [] σ
          = (Ok (VBool true, Obj CShipmentManufacturer doc), σ) →
          not_nullish (get doc "shipDateTime") = true).
Proof.
  intros HVB Hat.
  assert (Hinv : shipment_invariant doc).
  { revert txs key doc Hat. apply reachable_records; [done|by right| |].
    - apply shipment_invariant_created.
    - apply shipment_invariant_changed. }
  split; [exact Hinv|]. destruct Hinv as (_ & _ & _ & Hstate & _).
  split; intros σ; unfold call; cbn;
    destruct Hstate as [(-> & _ & _) | [(-> & Hs) | (-> & Ha)]]; cbn; try done;
    intros [=].
Qed.

Lemma reachable_material_records_witness :
  material_invariant (record_at ledger_purchased ("org.vaccine.rawmaterial", "Acme:RM-1")).
Proof.
  refine (proj1 (reachable_material_records VaccineBatch_js ShipmentManufacturer_js
    [(Org1, CreateMaterial "lipid" "RM-1" "40" "Acme" "2021-03-01");
     (Org2, PurchaseMaterial "Acme" "RM-1" "Pfizer" "900" "2021-03-05")] "Acme:RM-1" _ _ _ _)).
  - by left.
  - by right.
  - reflexivity.
Defined.

Lemma reachable_batch_records_witness :
  batch_invariant
    (record_at (ledger_batch VaccineBatch_js) ("org.vaccine.vaccineBatch", "B1:Pfizer")).
Proof.
  refine (proj1 (reachable_batch_records VaccineBatch_js ShipmentManufacturer_js
    [(Org2, IssueBatch "Covax" "B1" "100" "Pfizer" "2021-04-01")] "B1:Pfizer" _ _ _ _)).
  - by left.
  - by right.
  - reflexivity.
Defined.

Lemma reachable_shipment_records_witness :
  shipment_invariant (record_at ledger_shipped ("org.vaccine.shipment", "S1")).
Proof.
  refine (proj1 (reachable_shipment_records VaccineBatch_js
    [(Org3, OrderShipment "S1" "DHL" "Philadelphia" "Boston");
     (Org3, ShipShipment "S1" "V7" "Philadelphia" "2021-04-02 08:00" "Ann" "-70")] "S1"
    _ _ _)).
  - by left.
  - reflexivity.
Defined.

(** ** The query functions of the helper and of the contracts *)

Section ContractQueries.

Variable json : Type.
Variable JSON_parse : string → option json.
Variable LocalTZA : Z → bool → Z.
Variable createCompositeKey : string → list string → string.
Variable getHistoryForKey : string → Iterator.
Variable getQueryResult : string → Iterator.
Variable JSON_stringify_selector : string → string → string.
Variable JSON_stringify_json : json → string.
Variable falsy : json → bool.
Variable name : string.
Variable QueryUtils : QueryClass json.
Variable RawMaterialQueryUtils_ : QueryClass json.
Variable named_selector : string → json.

(** X22: the queries of the vaccine batch helper: the history query and
    the three exact-match queries close the iterator they obtained when
    they return their results and only then, the ad-hoc query in addition
    rejects an empty query before it obtains an iterator, and the prefix
    scan [queryKeyByPartial] throws a [ReferenceError] for every prefix
    without obtaining an iterator, [QueryUtils] being bound nowhere in the
    file. *)
Theorem batch_helper_queries (batchNumber manufacturer issueDateTime prefix : string)
    (queryString : json) :
  let getAssetHistory := VaccineBatchQueryUtils.getAssetHistory json JSON_parse LocalTZA
    createCompositeKey getHistoryForKey name in
  let queryByIssueDateTime := VaccineBatchQueryUtils.queryByIssueDateTime json JSON_parse LocalTZA
    getQueryResult JSON_stringify_selector in
  let queryByBatchNumber := VaccineBatchQueryUtils.queryByBatchNumber json JSON_parse LocalTZA
    getQueryResult JSON_stringify_selector in
  let queryByManufacturer := VaccineBatchQueryUtils.queryByManufacturer json JSON_parse LocalTZA
    getQueryResult JSON_stringify_selector in
  let queryByAdhoc := VaccineBatchQueryUtils.queryByAdhoc json JSON_parse LocalTZA getQueryResult
    JSON_stringify_json falsy in
  closed_iff_returned
    (getHistoryForKey (createCompositeKey name [batchNumber; manufacturer]))
    (getAssetHistory batchNumber manufacturer)
  ∧ closed_iff_returned
      (getQueryResult (JSON_stringify_selector "issueDateTime" issueDateTime))
      (queryByIssueDateTime issueDateTime)
  ∧ closed_iff_returned
      (getQueryResult (JSON_stringify_selector "batchNum" batchNumber))
      (queryByBatchNumber batchNumber)
  ∧ closed_iff_returned
      (getQueryResult (JSON_stringify_selector "manufacturer" manufacturer))
      (queryByManufacturer manufacturer)
  ∧ (if falsy queryString
     then queryByAdhoc queryString = (Throw (Error "queryString must not be empty"), None)
     else closed_iff_returned
            (getQueryResult (JSON_stringify_json queryString))
            (queryByAdhoc queryString))
  ∧ VaccineBatchQueryUtils.queryKeyByPartial json QueryUtils prefix
    = (Throw (ReferenceError "QueryUtils is not defined"), None).
Proof.
  intros getAssetHistory queryByIssueDateTime queryByBatchNumber queryByManufacturer
    queryByAdhoc.
  split; [apply getAllResults_closes|].
  split; [apply getAllResults_closes|].
  split; [apply getAllResults_closes|].
  split; [apply getAllResults_closes|].
  split; [|reflexivity].
  unfold queryByAdhoc, VaccineBatchQueryUtils.queryByAdhoc.
  destruct (falsy queryString); [reflexivity|apply getAllResults_closes].
Qed.

(** X23: query functions of the contracts that return for no argument.
    In the second raw material contract [queryOwner], [queryPartial] and
    [queryAdhoc] throw a [ReferenceError], the file not binding
    [QueryUtils], and [queryNamed] throws it for the three names it knows
    and an [Error] for any other; in the vaccine batch contract
    [queryBatchNumber], [queryPartial] and [queryAdhoc] throw a
    [ReferenceError]; in the first raw material contract [queryPartial]
    throws what its scan throws and, when the scan returns, a
    [ReferenceError] on [results]. *)
Theorem contract_queries_that_never_return (owner prefix queryString queryname batchNumber
    : string) :
  let unbound X : RawMaterialQueryUtils.outcome json :=
    (Throw (ReferenceError (X +:+ " is not defined")), None) in
  RawMaterialContract2_queries.queryOwner json QueryUtils owner = unbound "QueryUtils"
  ∧ RawMaterialContract2_queries.queryPartial json QueryUtils prefix = unbound "QueryUtils"
  ∧ RawMaterialContract2_queries.queryAdhoc json JSON_parse QueryUtils queryString
    = unbound "QueryUtils"
  ∧ RawMaterialContract2_queries.queryNamed json QueryUtils named_selector queryname
    = (if existsb (String.eqb queryname) ["redeemed"; "trading"; "value"]
       then unbound "QueryUtils"
       else (Throw (Error ("invalid named query supplied: " +:+ queryname
                           +:+ "- please try again ")), None))
  ∧ VaccineBatchContract_queries.queryBatchNumber json RawMaterialQueryUtils_ batchNumber
    = unbound "RawMaterialQueryUtils"
  ∧ VaccineBatchContract_queries.queryPartial json QueryUtils prefix = unbound "QueryUtils"
  ∧ VaccineBatchContract_queries.queryAdhoc json JSON_parse QueryUtils queryString
    = unbound "QueryUtils"
  ∧ match RawMaterialContract_queries.queryPartial json QueryUtils prefix with
    | (Ok _, _) => False
    | (Throw e, iterator) =>
        iterator = (class_queryKeyByPartial QueryUtils "org.vaccine.rawmaterial" prefix).2
        ∧ (e = ReferenceError "results is not defined"
           ∨ (class_queryKeyByPartial QueryUtils "org.vaccine.rawmaterial" prefix).1 = Throw e)
    end.
Proof.
  intros unbound. repeat (split; [reflexivity|]).
  unfold RawMaterialContract_queries.queryPartial, new_query, then_log. cbn.
  destruct (class_queryKeyByPartial QueryUtils "org.vaccine.rawmaterial" prefix)
    as [[r|e] iterator]; cbn; split; auto.
Qed.

End ContractQueries.

(** ** The vaccine list and the client requests *)

(** X24: no vaccine dose is ever recorded: the only transaction that
    stores one, [issue] of the vaccine contract, throws on every call, so
    after any run of transactions from the empty ledger the namespace of
    the vaccine list holds no record. *)
Theorem no_vaccine_is_recorded (VaccineBatch Shipment : AssetModule)
    (txs : list (Context * transaction)) (key : string) :
  VaccineBatch = VaccineBatch_js ∨ VaccineBatch = VaccineBatchAlt_js →
  Shipment = ShipmentDistributor_js ∨ Shipment = ShipmentManufacturer_js →
  execute VaccineBatch Shipment txs ∅ !! ("org.vaccine.vaccine", key) = None.
Proof.
  intros HVB HS.
  destruct (execute VaccineBatch Shipment txs ∅ !! ("org.vaccine.vaccine", key))
    as [doc|] eqn:Hat; [|done].
  exfalso. revert txs key doc Hat.
  apply (reachable_records VaccineBatch Shipment "org.vaccine.vaccine" (fun _ => False));
    [done|done| |by intros doc doc' H].
  intros doc (ctx & t & σ & o & σ' & Hc & Hns & Hrun & Hat).
  destruct t; try discriminate Hc; try discriminate Hns. discriminate Hrun.
Qed.

Lemma no_vaccine_is_recorded_witness :
  execute VaccineBatch_js ShipmentManufacturer_js
    [(Org1, IssueVaccine "V-1" "B1" "Pfizer" "CVS" "Ann" "2022-01-01" "2021-06-01")] ∅
    !! ("org.vaccine.vaccine", "V-1") = None.
Proof.
  apply (no_vaccine_is_recorded VaccineBatch_js ShipmentManufacturer_js
    [(Org1, IssueVaccine "V-1" "B1" "Pfizer" "CVS" "Ann" "2022-01-01" "2021-06-01")] "V-1");
    [by left | by right].
Defined.

(** X25: the request functions of the client application hand their
    arguments to the contract in the order of its parameters:
    [createRequest], [purchaseRequest] and [addRequest] for one
    manufacturer and batch number, run in this order on any ledger, leave
    at the key of the two a record with the material name, quantity and
    dates given, the purchaser and price of the purchase, the mixing date,
    and the MSP of the purchaser's organization; no other record
    changes. *)
Theorem client_requests_reach_the_record (VaccineBatch Shipment : AssetModule)
    (creator buyer mixer : Context)
    (manufacturer batchNumber quantity materialName manufactureDate : string)
    (purchaser price purchaseDateTime dateTimeAdded : string) (σ : ledger) :
  let σ' := run_requests VaccineBatch Shipment
    [(creator, RawMaterialApplication.createRequest manufacturer batchNumber quantity
                 materialName manufactureDate);
     (buyer, RawMaterialApplication.purchaseRequest manufacturer batchNumber purchaser price
               purchaseDateTime);
     (mixer, RawMaterialApplication.addRequest manufacturer batchNumber dateTimeAdded)] σ in
  ∃ doc,
    σ' !! ("org.vaccine.rawmaterial", State.makeKey [VStr manufacturer; VStr batchNumber])
      = Some doc
    ∧ get doc "materialName" = VStr materialName
    ∧ get doc "batchNumber" = VStr batchNumber
    ∧ get doc "quantity" = VStr quantity
    ∧ get doc "manufacturer" = VStr manufacturer
    ∧ get doc "manufactureDate" = VStr manufactureDate
    ∧ get doc "purchaser" = VStr purchaser
    ∧ get doc "price" = VStr price
    ∧ get doc "purchaseDate" = VStr purchaseDateTime
    ∧ get doc "dateMixedIn" = VStr dateTimeAdded
    ∧ get doc "mspid" = VStr (getMSPID buyer)
    ∧ (∀ k, k ≠ ("org.vaccine.rawmaterial",
                 State.makeKey [VStr manufacturer; VStr batchNumber]) → σ' !! k = σ !! k).
Proof.
  intros σ'. subst σ'. unfold run_requests. cbn [omap list_omap snd fst
    RawMaterialApplication.createRequest RawMaterialApplication.purchaseRequest
    RawMaterialApplication.addRequest RawMaterialApplication.submitTransaction
    String.eqb Ascii.eqb Bool.eqb].
  rewrite !execute_cons. cbn [submit execute foldl].
  rewrite createMaterial2_run. cbn [snd].
  set (doc0 := State.serialize _).
  assert (Hst0 : stored "org.vaccine.rawmaterial" CRawMaterial
                   (<[("org.vaccine.rawmaterial",
                       State.makeKey [VStr manufacturer; VStr batchNumber]) := doc0]> σ)
                   (RawMaterial.makeKey [VStr manufacturer; VStr batchNumber]) doc0).
  { unfold doc0, State.serialize. cbn [own]. apply stored_written; reflexivity. }
  rewrite (purchaseMaterial2_success buyer manufacturer batchNumber purchaser price
             purchaseDateTime _ doc0 Hst0 eq_refl). cbn [snd].
  set (doc1 := <["mspid" := _]> _).
  assert (Hst1 : stored "org.vaccine.rawmaterial" CRawMaterial
                   (<[("org.vaccine.rawmaterial",
                       RawMaterial.makeKey [VStr manufacturer; VStr batchNumber]) := doc1]>
                      (<[("org.vaccine.rawmaterial",
                          State.makeKey [VStr manufacturer; VStr batchNumber]) := doc0]> σ))
                   (RawMaterial.makeKey [VStr manufacturer; VStr batchNumber]) doc1).
  { apply (stored_insert _ _ _ _ _ _ Hst0); unfold doc1; [by read_field..|].
    destruct Hst0 as (_ & _ & _ & Hjson). by json_doc Hjson. }
  assert (Hd1 : not_nullish (get doc1 "dateMixedIn") = false) by (unfold doc1; by read_field).
  rewrite (addMaterial2_success mixer manufacturer batchNumber dateTimeAdded _ doc1 Hst1 Hd1).
  cbn [snd]. unfold RawMaterial.makeKey.
  eexists. split; [apply lookup_insert_eq|].
  unfold doc1. repeat (split; [by read_field|]).
  intros k Hk. by rewrite !lookup_insert_ne.
Qed.
